(** * Quiz orchestration: a shallow embedding of the NestJS quiz back end

    The development follows the TypeScript sources:
    - [prisma/schema.prisma]                    the persisted tables,
    - [src/redis/redis.service.ts]              the session cache,
    - [src/quiz/quiz.service.ts]                scoring, leaderboard, positions,
    - [src/questions/questions.service.ts]      question supply and requirements,
    - [src/quiz/quiz.gateway.ts]                the socket handlers.

    Asynchronous functions become state-passing computations that may
    throw; a handler's [try { ... } catch] becomes [try_catch].  Every
    handler runs to completion before the next message is handled: the
    interleaving of two handlers at their [await]s is not modelled.
    Cache entries never expire here (TTLs are real time), and time stamps
    are left out of the payloads. *)

From Stdlib Require Import ZArith List Bool Lia Permutation Sorted Ascii.
From stdpp Require Import base option list strings gmap.

Local Open Scope string_scope.
Local Open Scope list_scope.
Local Open Scope Z_scope.

Abbreviation Id := string.

(** ** Exceptions and the state-and-exception monad *)

Inductive Exn : Type :=
| NotFoundException (message : string)
| ConflictException (message : string)
| JsError (message : string)
| TypeError
| PrismaError (code : string).

Inductive Outcome (A : Type) : Type :=
| Ok (a : A)
| Throw (e : Exn).
Arguments Ok {A} a.
Arguments Throw {A} e.

Definition M (S A : Type) : Type := S -> Outcome A * S.

Definition ret {S A} (a : A) : M S A := fun s => (Ok a, s).
Definition throw {S A} (e : Exn) : M S A := fun s => (Throw e, s).
Definition bind {S A B} (m : M S A) (k : A -> M S B) : M S B :=
  fun s => match m s with
           | (Ok a, s') => k a s'
           | (Throw e, s') => (Throw e, s')
           end.
Definition get {S} : M S S := fun s => (Ok s, s).
Definition gets {S A} (f : S -> A) : M S A := fun s => (Ok (f s), s).
Definition modify {S} (f : S -> S) : M S unit := fun s => (Ok tt, f s).
Definition try_catch {S A} (m : M S A) (h : Exn -> M S A) : M S A :=
  fun s => match m s with
           | (Ok a, s') => (Ok a, s')
           | (Throw e, s') => h e s'
           end.

Notation "'do' x <- c ; k" := (bind c (fun x => k))
  (at level 10, x name, c at level 100, k at level 200).
Notation "c ;; k" := (bind c (fun _ => k))
  (at level 100, k at level 200, right associativity).

(** ** The persisted tables (prisma/schema.prisma) *)

Inductive UserRole := MODERATOR | CONTESTANT | AUDIENCE.
Inductive QuizType := multiple_choice | yes_no | simultaneous.
Inductive QuestionType := qt_multiple_choice | qt_yes_no.

Definition UserRole_eqb (a b : UserRole) : bool :=
  match a, b with
  | MODERATOR, MODERATOR | CONTESTANT, CONTESTANT | AUDIENCE, AUDIENCE => true
  | _, _ => false
  end.
Definition QuestionType_eqb (a b : QuestionType) : bool :=
  match a, b with
  | qt_multiple_choice, qt_multiple_choice | qt_yes_no, qt_yes_no => true
  | _, _ => false
  end.

Record Quiz := {
  quiz_id : Id;
  quiz_name : string;
  quiz_isActive : bool;
  winnerId : option Id;
}.

(** [questionsPerParticipant] is an integer that the DTO validates with
    [@IsInt() @Min(1)] and the schema defaults to 3; it is a [nat] here. *)
Record Round := {
  round_id : Id;
  round_quizId : Id;
  roundNumber : Z;
  quizType : QuizType;
  timePerQuestion : option Z;
  questionsPerParticipant : nat;
  round_isActive : bool;
}.

Record Question := {
  question_id : Id;
  question_quizId : Id;
  questionNumber : Z;
  questionText : string;
  questionType : QuestionType;
  options : list string;
  correctAnswerIndex : Z;
  isAnswered : bool;
}.

Record User := {
  user_id : Id;
  username : string;
  user_quizId : option Id;
  role : UserRole;
}.

Record Response := {
  resp_userId : Id;
  resp_quizId : Id;
  resp_roundId : Id;
  resp_questionId : Id;
  selectedIndex : Z;
  isCorrect : bool;
  pointsEarned : Z;
}.

Record Score := {
  score_userId : Id;
  score_quizId : Id;
  score_roundId : Id;
  roundScore : Z;
  questionsAnswered : nat;
  questionsCorrect : nat;
}.

Record QuizPosition := {
  pos_userId : Id;
  pos_quizId : Id;
  position : nat;
  pos_totalScore : Z;
}.

Record ParticipantOrder := {
  po_quizId : Id;
  po_userId : Id;
  orderIndex : Z;
}.

(** A table is the list of its rows, in the order [findMany] returns
    them when no [orderBy] is given. *)
Record DB := {
  quizzes : list Quiz;
  rounds : list Round;
  questions : list Question;
  users : list User;
  responses : list Response;
  scores : list Score;
  quizPositions : list QuizPosition;
  participantOrders : list ParticipantOrder;
}.

Definition set_quizzes (v : list Quiz) (d : DB) : DB :=
  {| quizzes := v; rounds := rounds d; questions := questions d; users := users d;
     responses := responses d; scores := scores d;
     quizPositions := quizPositions d; participantOrders := participantOrders d |}.
Definition set_rounds (v : list Round) (d : DB) : DB :=
  {| quizzes := quizzes d; rounds := v; questions := questions d; users := users d;
     responses := responses d; scores := scores d;
     quizPositions := quizPositions d; participantOrders := participantOrders d |}.
Definition set_responses (v : list Response) (d : DB) : DB :=
  {| quizzes := quizzes d; rounds := rounds d; questions := questions d; users := users d;
     responses := v; scores := scores d;
     quizPositions := quizPositions d; participantOrders := participantOrders d |}.
Definition set_scores (v : list Score) (d : DB) : DB :=
  {| quizzes := quizzes d; rounds := rounds d; questions := questions d; users := users d;
     responses := responses d; scores := v;
     quizPositions := quizPositions d; participantOrders := participantOrders d |}.
Definition set_quizPositions (v : list QuizPosition) (d : DB) : DB :=
  {| quizzes := quizzes d; rounds := rounds d; questions := questions d; users := users d;
     responses := responses d; scores := scores d;
     quizPositions := v; participantOrders := participantOrders d |}.
Definition set_participantOrders (v : list ParticipantOrder) (d : DB) : DB :=
  {| quizzes := quizzes d; rounds := rounds d; questions := questions d; users := users d;
     responses := responses d; scores := scores d;
     quizPositions := quizPositions d; participantOrders := v |}.

Definition set_questions (v : list Question) (d : DB) : DB :=
  {| quizzes := quizzes d; rounds := rounds d; questions := v; users := users d;
     responses := responses d; scores := scores d;
     quizPositions := quizPositions d; participantOrders := participantOrders d |}.

(** ** Prisma queries used by the services *)

Module Prisma.

Definition quiz_findUnique (id : Id) (d : DB) : option Quiz :=
  find (fun q => String.eqb (quiz_id q) id) (quizzes d).
Definition round_findUnique (id : Id) (d : DB) : option Round :=
  find (fun r => String.eqb (round_id r) id) (rounds d).
Definition question_findUnique (id : Id) (d : DB) : option Question :=
  find (fun q => String.eqb (question_id q) id) (questions d).
Definition user_findUnique (id : Id) (d : DB) : option User :=
  find (fun u => String.eqb (user_id u) id) (users d).

(** [response.findUnique({ where: { userId_questionId } })] *)
Definition response_findUnique (userId questionId : Id) (d : DB) : option Response :=
  find (fun r => String.eqb (resp_userId r) userId && String.eqb (resp_questionId r) questionId)
       (responses d).

(** An [Int] column is a 32-bit integer ([INTEGER] in PostgreSQL): a
    number outside that range is not written, the query fails. *)
Definition int4 (n : Z) : bool := (-2147483648 <=? n) && (n <=? 2147483647).

(** [response.create]: the selected index and the points are [Int]
    columns, the row references a user, a question and a quiz, and
    [(userId, questionId)] is unique. *)
Definition response_create (r : Response) : M DB Response :=
  do d <- get;
  if negb (int4 (selectedIndex r) && int4 (pointsEarned r)) then throw (PrismaError "P2020")
  else
    match user_findUnique (resp_userId r) d,
          question_findUnique (resp_questionId r) d,
          quiz_findUnique (resp_quizId r) d with
    | Some _, Some _, Some _ =>
        match response_findUnique (resp_userId r) (resp_questionId r) d with
        | Some _ => throw (PrismaError "P2002")
        | None => modify (set_responses (responses d ++ [r])) ;; ret r
        end
    | _, _, _ => throw (PrismaError "P2003")
    end.

Definition score_key (userId quizId roundId : Id) (s : Score) : bool :=
  String.eqb (score_userId s) userId && String.eqb (score_quizId s) quizId
  && String.eqb (score_roundId s) roundId.

(** [score.upsert({ where: { userId_quizId_roundId }, update, create })].
    PostgreSQL writes an updated row as a new version of it, which a
    query without [orderBy] then returns after the rows that were there. *)
Definition score_upsert (userId quizId roundId : Id) (rs : Z) (qa qc : nat) : M DB unit :=
  do d <- get;
  let row := {| score_userId := userId; score_quizId := quizId; score_roundId := roundId;
                roundScore := rs; questionsAnswered := qa; questionsCorrect := qc |} in
  if existsb (score_key userId quizId roundId) (scores d) then
    modify (set_scores
              (List.filter (fun s => negb (score_key userId quizId roundId s)) (scores d)
               ++ [row]))
  else
    match user_findUnique userId d, quiz_findUnique quizId d, round_findUnique roundId d with
    | Some _, Some _, Some _ => modify (set_scores (scores d ++ [row]))
    | _, _, _ => throw (PrismaError "P2003")
    end.

(** [round.update({ where: { id }, data: { isActive } })] *)
Definition round_update_isActive (id : Id) (b : bool) : M DB unit :=
  do d <- get;
  match round_findUnique id d with
  | None => throw (PrismaError "P2025")
  | Some _ =>
      modify (set_rounds
                (map (fun r => if String.eqb (round_id r) id then
                                 {| round_id := round_id r; round_quizId := round_quizId r;
                                    roundNumber := roundNumber r; quizType := quizType r;
                                    timePerQuestion := timePerQuestion r;
                                    questionsPerParticipant := questionsPerParticipant r;
                                    round_isActive := b |}
                               else r) (rounds d)))
  end.

(** [quiz.update({ where: { id }, data: { winnerId } })] *)
Definition quiz_update_winnerId (id : Id) (w : Id) : M DB unit :=
  do d <- get;
  match quiz_findUnique id d with
  | None => throw (PrismaError "P2025")
  | Some _ =>
      modify (set_quizzes
                (map (fun q => if String.eqb (quiz_id q) id then
                                 {| quiz_id := quiz_id q; quiz_name := quiz_name q;
                                    quiz_isActive := quiz_isActive q; winnerId := Some w |}
                               else q) (quizzes d)))
  end.

(** [question.create]: the question number and the correct answer index
    are [Int] columns, the row references a quiz, and both [id] and
    [(quizId, questionNumber)] are unique.  The id is the cuid that
    Prisma generates for the row; it comes with the row here. *)
Definition question_create (q : Question) : M DB Question :=
  do d <- get;
  if negb (int4 (questionNumber q) && int4 (correctAnswerIndex q)) then
    throw (PrismaError "P2020")
  else
    match quiz_findUnique (question_quizId q) d with
    | None => throw (PrismaError "P2003")
    | Some _ =>
        if existsb (fun x => String.eqb (question_id x) (question_id q)
                             || (String.eqb (question_quizId x) (question_quizId q)
                                 && (questionNumber x =? questionNumber q))) (questions d)
        then throw (PrismaError "P2002")
        else modify (set_questions (questions d ++ [q])) ;; ret q
    end.

(** [question.update({ where: { id }, data })], for data that leaves the
    id, the quiz and the number alone; the correct answer index that the
    data give, when they give one, is written to an [Int] column. *)
Definition question_update (id : Id) (data : Question -> Question) : M DB Question :=
  do d <- get;
  match question_findUnique id d with
  | None => throw (PrismaError "P2025")
  | Some q =>
      if negb (correctAnswerIndex (data q) =? correctAnswerIndex q)
         && negb (int4 (correctAnswerIndex (data q)))
      then throw (PrismaError "P2020")
      else
        modify (set_questions
                  (map (fun x => if String.eqb (question_id x) id then data x else x)
                       (questions d))) ;;
        ret (data q)
  end.

(** [question.delete({ where: { id } })]: a response references its
    question and does not cascade. *)
Definition question_delete (id : Id) : M DB unit :=
  do d <- get;
  match question_findUnique id d with
  | None => throw (PrismaError "P2025")
  | Some _ =>
      if existsb (fun r => String.eqb (resp_questionId r) id) (responses d)
      then throw (PrismaError "P2003")
      else modify (set_questions
                     (List.filter (fun x => negb (String.eqb (question_id x) id))
                                  (questions d)))
  end.

(** [prisma.$transaction([...])], the array form: the operations run in
    order, and a throw rolls back what the earlier ones wrote. *)
Fixpoint in_order {A} (ms : list (M DB A)) : M DB (list A) :=
  match ms with
  | [] => ret []
  | m :: ms' => do a <- m; do rest <- in_order ms'; ret (a :: rest)
  end.

Definition transaction_all {A} (ms : list (M DB A)) : M DB (list A) :=
  fun d => match in_order ms d with
           | (Ok a, d') => (Ok a, d')
           | (Throw e, _) => (Throw e, d)
           end.

End Prisma.

(** ** QuizService (src/quiz/quiz.service.ts): scoring and leaderboard *)

(** A stable sort; [le x y] says that the comparator puts [x] no later
    than [y].  [Array.prototype.sort] is stable, so it returns this list. *)
Fixpoint insert_by {A} (le : A -> A -> bool) (x : A) (l : list A) : list A :=
  match l with
  | [] => [x]
  | y :: l' => if le x y then x :: y :: l' else y :: insert_by le x l'
  end.
Definition sort_by {A} (le : A -> A -> bool) (l : list A) : list A :=
  fold_right (insert_by le) [] l.

Record UserSummary := {
  us_id : Id;
  us_username : string;
  us_role : UserRole;
}.

Record RoundEntry := {
  re_roundNumber : Z;
  re_roundScore : Z;
  re_questionsAnswered : nat;
  re_questionsCorrect : nat;
}.

Record UserTotal := {
  ut_user : UserSummary;
  totalScore : Z;
  totalQuestionsAnswered : nat;
  totalQuestionsCorrect : nat;
  ut_rounds : list RoundEntry;
}.

Record LeaderboardEntry := {
  le_position : nat;
  le_entry : UserTotal;
}.

(** What an operation that validates a request gives back: its result,
    or the [BadRequestException] with which the validation ends it.  The
    exceptions of [Exn] are those that the socket handlers can meet; the
    validating operations are reached through the REST controllers only. *)
Inductive Checked (A : Type) : Type :=
| Accepted (a : A)
| BadRequestException (message : string).
Arguments Accepted {A} a.
Arguments BadRequestException {A} message.

(** A round of a create or update request (dto/create-quiz.dto.ts). *)
Record CreateRoundDto := {
  rd_roundNumber : Z;
  rd_quizType : QuizType;
  rd_timePerQuestion : option Z;
  rd_questionsPerParticipant : option nat;
}.

Module QuizService.

Definition findQuizById (id : Id) : M DB Quiz :=
  do d <- get;
  match Prisma.quiz_findUnique id d with
  | Some q => ret q
  | None => throw (NotFoundException ("Quiz with ID " +:+ id +:+ " not found"))
  end.

Definition sum_points (rs : list Response) : Z :=
  fold_left (fun total r => total + pointsEarned r) rs 0.

Definition calculateRoundScore (userId quizId roundId : Id) : M DB (Z * nat * nat) :=
  do d <- get;
  let rs := List.filter (fun r => String.eqb (resp_userId r) userId
                                  && String.eqb (resp_quizId r) quizId
                                  && String.eqb (resp_roundId r) roundId) (responses d) in
  let rscore := sum_points rs in
  let answered := length rs in
  let correct := length (List.filter isCorrect rs) in
  Prisma.score_upsert userId quizId roundId rscore answered correct ;;
  ret (rscore, answered, correct).

(** The rows of [score.findMany({ where: { quizId }, include: { user, round } })]:
    each score with its user and its round's number.  The foreign keys
    rule out a score without its user or round; Prisma reports such a
    row as an inconsistent result. *)
Definition include_user_round (d : DB) (s : Score) : option (Score * UserSummary * Z) :=
  match Prisma.user_findUnique (score_userId s) d, Prisma.round_findUnique (score_roundId s) d with
  | Some u, Some r =>
      Some (s, {| us_id := user_id u; us_username := username u; us_role := role u |},
            roundNumber r)
  | _, _ => None
  end.

Fixpoint score_findMany_include (d : DB) (l : list Score) : M DB (list (Score * UserSummary * Z)) :=
  match l with
  | [] => ret []
  | s :: l' =>
      match include_user_round d s with
      | None => throw (PrismaError "inconsistent query result")
      | Some row => do rest <- score_findMany_include d l'; ret (row :: rest)
      end
  end.

(** [userTotals] is a JS [Map]: keys in insertion order. *)
Definition has_key (k : Id) (m : list (Id * UserTotal)) : bool :=
  existsb (fun kv => String.eqb (fst kv) k) m.

Definition add_score (m : list (Id * UserTotal)) (row : Score * UserSummary * Z)
  : list (Id * UserTotal) :=
  let '(s, u, rn) := row in
  let userId := score_userId s in
  let m1 := if has_key userId m then m
            else m ++ [(userId, {| ut_user := u; totalScore := 0;
                                   totalQuestionsAnswered := 0%nat;
                                   totalQuestionsCorrect := 0%nat; ut_rounds := [] |})] in
  map (fun kv =>
         if String.eqb (fst kv) userId then
           (fst kv,
            {| ut_user := ut_user (snd kv);
               totalScore := totalScore (snd kv) + roundScore s;
               totalQuestionsAnswered :=
                 (totalQuestionsAnswered (snd kv) + questionsAnswered s)%nat;
               totalQuestionsCorrect := (totalQuestionsCorrect (snd kv) + questionsCorrect s)%nat;
               ut_rounds := ut_rounds (snd kv) ++
                              [{| re_roundNumber := rn; re_roundScore := roundScore s;
                                  re_questionsAnswered := questionsAnswered s;
                                  re_questionsCorrect := questionsCorrect s |}] |})
         else kv) m1.

Definition rank (totals : list UserTotal) : list LeaderboardEntry :=
  imap (fun index entry =>
          {| le_position := (index + 1)%nat;
             le_entry := {| ut_user := ut_user entry; totalScore := totalScore entry;
                            totalQuestionsAnswered := totalQuestionsAnswered entry;
                            totalQuestionsCorrect := totalQuestionsCorrect entry;
                            ut_rounds := sort_by (fun a b => re_roundNumber a <=? re_roundNumber b)
                                                 (ut_rounds entry) |} |})
       (sort_by (fun a b => totalScore b <=? totalScore a) totals).

Definition getQuizLeaderboard (quizId : Id) : M DB (list LeaderboardEntry) :=
  findQuizById quizId ;;
  do d <- get;
  do userScores <- score_findMany_include d
                     (List.filter (fun s => String.eqb (score_quizId s) quizId) (scores d));
  let userTotals := fold_left add_score userScores [] in
  ret (rank (map snd userTotals)).

Definition position_row (quizId : Id) (entry : LeaderboardEntry) : QuizPosition :=
  {| pos_userId := us_id (ut_user (le_entry entry)); pos_quizId := quizId;
     position := le_position entry; pos_totalScore := totalScore (le_entry entry) |}.

(** [createMany] cannot violate a constraint here: the quiz's rows were
    just deleted, the entries have distinct users and distinct positions,
    and the users were found by the leaderboard query. *)
Definition updateQuizPositions (quizId : Id) : M DB (list LeaderboardEntry) :=
  do leaderboard <- getQuizLeaderboard quizId;
  modify (fun d => set_quizPositions
                     (List.filter (fun p => negb (String.eqb (pos_quizId p) quizId))
                                  (quizPositions d)) d) ;;
  match leaderboard with
  | [] => ret tt
  | first :: _ =>
      modify (fun d => set_quizPositions
                         (quizPositions d ++ map (position_row quizId) leaderboard) d) ;;
      Prisma.quiz_update_winnerId quizId (us_id (ut_user (le_entry first)))
  end ;;
  ret leaderboard.

Definition submitResponse (userId questionId : Id) (selected : Z) (roundId : Id)
    (points : Z) (correct : bool) : M DB Response :=
  do d <- get;
  match Prisma.question_findUnique questionId d with
  | None => throw (NotFoundException "Question not found")
  | Some question =>
      match Prisma.response_findUnique userId questionId d with
      | Some _ => throw (ConflictException "User has already answered this question")
      | None =>
          do response <- Prisma.response_create
                           {| resp_userId := userId; resp_quizId := question_quizId question;
                              resp_roundId := roundId; resp_questionId := questionId;
                              selectedIndex := selected; isCorrect := correct;
                              pointsEarned := points |};
          calculateRoundScore userId (question_quizId question) roundId ;;
          updateQuizPositions (question_quizId question) ;;
          ret response
      end
  end.

Record QuizTotal := {
  qt_totalScore : Z;
  qt_totalQuestionsAnswered : nat;
  qt_totalQuestionsCorrect : nat;
  roundBreakdown : list Score;
}.

Definition calculateQuizTotalScore (userId quizId : Id) : M DB QuizTotal :=
  do d <- get;
  let roundScores :=
    List.filter (fun s => String.eqb (score_userId s) userId
                          && String.eqb (score_quizId s) quizId) (scores d) in
  ret {| qt_totalScore := fold_left (fun total score => total + roundScore score) roundScores 0;
         qt_totalQuestionsAnswered :=
           fold_left (fun total score => (total + questionsAnswered score)%nat) roundScores 0%nat;
         qt_totalQuestionsCorrect :=
           fold_left (fun total score => (total + questionsCorrect score)%nat) roundScores 0%nat;
         roundBreakdown := roundScores |}.

(** *** Validation of a quiz's rounds and users *)

(** [[...new Set(xs)]]: the distinct values, in the order of their first
    occurrence. *)
Definition distinct_values (xs : list Z) : list Z :=
  fold_left (fun seen x => if existsb (Z.eqb x) seen then seen else seen ++ [x]) xs [].

(** The loop over [sortedNumbers] throws at the first index [i] whose
    number is not [i + 1]. *)
Definition validateRounds (rounds : list CreateRoundDto) : Checked unit :=
  let roundNumbers := map rd_roundNumber rounds in
  let uniqueNumbers := distinct_values roundNumbers in
  if negb (length uniqueNumbers =? length rounds)%nat then
    BadRequestException "Round numbers must be unique"
  else
    let sortedNumbers := sort_by (fun a b => a <=? b) uniqueNumbers in
    if forallb (fun ok : bool => ok) (imap (fun i x => x =? Z.of_nat i + 1) sortedNumbers)
    then Accepted tt
    else BadRequestException "Round numbers must be sequential starting from 1".

(** [user.findMany({ where: { id: { in: userIds } }, select: { id, username, role } })]
    and the comparison of the two lengths; a missing list is the empty one. *)
Definition validateUsersExist (userIds : list Id) : M DB (Checked (list UserSummary)) :=
  match userIds with
  | [] => ret (Accepted [])
  | _ =>
      do d <- get;
      let found := List.filter (fun u => existsb (String.eqb (user_id u)) userIds) (users d) in
      if negb (length found =? length userIds)%nat then
        let foundIds := map user_id found in
        let notFoundIds :=
          List.filter (fun id => negb (existsb (String.eqb id) foundIds)) userIds in
        ret (BadRequestException ("Users not found: " +:+ String.concat ", " notFoundIds))
      else
        ret (Accepted (map (fun u => {| us_id := user_id u; us_username := username u;
                                        us_role := role u |}) found))
  end.

End QuizService.

(** ** QuestionsService (src/questions/questions.service.ts) *)

(** [x || dflt] on an optional count: [undefined] and [0] are falsy. *)
Definition js_or (x : option nat) (dflt : nat) : nat :=
  match x with
  | Some (S n) => S n
  | _ => dflt
  end.

(** [Math.ceil(n * 1.25)]; the product is exact in a double for the
    counts of a quiz. *)
Definition ceil_125 (n : nat) : nat := ((5 * n + 3) / 4)%nat.

(** [Math.ceil(a / b)] for counts with [b > 0]. *)
Definition ceil_div (a b : nat) : nat := ((a + b - 1) / b)%nat.

Record QuestionRequirements := {
  requiredQuestions : nat;
  currentQuestions : nat;
  shortfall : nat;
}.

(** The body of a create request (dto/create-question.dto.ts).  The
    optional [difficulty] is a column that the [Question] record of this
    development does not carry. *)
Record CreateQuestionDto := {
  dto_questionText : string;
  dto_questionType : QuestionType;
  dto_options : list string;
  dto_correctAnswerIndex : Z;
}.

(** The body of an update request: every field of the create request is
    optional, and so is [isAnswered]. *)
Record UpdateQuestionDto := {
  upd_questionText : option string;
  upd_questionType : option QuestionType;
  upd_options : option (list string);
  upd_correctAnswerIndex : option Z;
  upd_isAnswered : option bool;
}.

Record QuestionStats := {
  st_totalQuestions : nat;
  st_answeredQuestions : nat;
  st_unansweredQuestions : nat;
  st_multiple_choice : nat;
  st_yes_no : nat;
  st_unanswered_multiple_choice : nat;
  st_unanswered_yes_no : nat;
}.

Module QuestionsService.

Definition mapRoundTypeToQuestionType (roundType : QuizType) : QuestionType :=
  match roundType with
  | yes_no => qt_yes_no
  | multiple_choice => qt_multiple_choice
  | simultaneous => qt_multiple_choice
  end.

Definition orderBy_questionNumber (l : list Question) : list Question :=
  sort_by (fun a b => questionNumber a <=? questionNumber b) l.

Definition getQuestionsForRound (quizId : Id) (roundType : QuizType)
    (participantCount questionsPerParticipant : option nat) : M DB (list Question) :=
  do d <- get;
  match roundType with
  | simultaneous =>
      let totalQuestionsNeeded :=
        (js_or participantCount 1 * js_or questionsPerParticipant 3)%nat in
      ret (take totalQuestionsNeeded
             (orderBy_questionNumber
                (List.filter (fun q => String.eqb (question_quizId q) quizId
                                       && negb (isAnswered q)) (questions d))))
  | _ =>
      let wantedType := mapRoundTypeToQuestionType roundType in
      let found :=
        orderBy_questionNumber
          (List.filter (fun q => String.eqb (question_quizId q) quizId
                                 && QuestionType_eqb (questionType q) wantedType
                                 && negb (isAnswered q)) (questions d)) in
      ret match questionsPerParticipant with
          | Some (S n) => take (S n) found
          | _ => found
          end
  end.

Definition contestants_of (quizId : Id) (d : DB) : list User :=
  List.filter (fun u => match user_quizId u with
                        | Some q => String.eqb q quizId
                        | None => false
                        end && UserRole_eqb (role u) CONTESTANT) (users d).

Definition participantOrders_of (quizId : Id) (d : DB) : list ParticipantOrder :=
  List.filter (fun p => String.eqb (po_quizId p) quizId) (participantOrders d).

Definition rounds_of (quizId : Id) (d : DB) : list Round :=
  List.filter (fun r => String.eqb (round_quizId r) quizId) (rounds d).

(** The per-type breakdown of the DTO multiplies by 0.6 and 0.4 in
    floating point; it is not part of this record. *)
Definition getQuestionRequirements (quizId : Id) : M DB QuestionRequirements :=
  do d <- get;
  match Prisma.quiz_findUnique quizId d with
  | None => throw (NotFoundException "Quiz not found")
  | Some _ =>
      let participantCount :=
        Nat.max (Nat.max (length (contestants_of quizId d))
                         (length (participantOrders_of quizId d))) 1 in
      let totalRequired :=
        fold_left (fun total round =>
                     (total + ceil_125 (participantCount * questionsPerParticipant round))%nat)
                  (rounds_of quizId d) 0%nat in
      let totalQuestions :=
        length (List.filter (fun q => String.eqb (question_quizId q) quizId) (questions d)) in
      ret {| requiredQuestions := totalRequired;
             currentQuestions := totalQuestions;
             shortfall := (totalRequired - totalQuestions)%nat |}
  end.

(** *** Creating, changing and counting questions *)

Definition validateQuestionOptions (type : QuestionType) (opts : list string) (index : Z)
  : Checked unit :=
  match type with
  | qt_yes_no =>
      if negb (length opts =? 2)%nat then
        BadRequestException "Yes/No questions must have exactly 2 options"
      else if (index <? 0) || (1 <? index) then
        BadRequestException "Correct answer index for Yes/No questions must be 0 or 1"
      else Accepted tt
  | qt_multiple_choice =>
      if (length opts <? 2)%nat || (4 <? length opts)%nat then
        BadRequestException "Multiple choice questions must have 2-4 options"
      else if (index <? 0) || (Z.of_nat (length opts) <=? index) then
        BadRequestException "Correct answer index must be valid for the number of options"
      else Accepted tt
  end.

Definition mapQuestionTypeToEnum (type : QuestionType) : QuestionType :=
  match type with
  | qt_yes_no => qt_yes_no
  | qt_multiple_choice => qt_multiple_choice
  end.

(** [question.findFirst({ where: { quizId }, orderBy: { questionNumber: 'desc' } })] *)
Definition lastQuestion (quizId : Id) (d : DB) : option Question :=
  head (sort_by (fun a b => questionNumber b <=? questionNumber a)
          (List.filter (fun q => String.eqb (question_quizId q) quizId) (questions d))).

(** [(lastQuestion?.questionNumber || 0) + 1] *)
Definition nextQuestionNumber (quizId : Id) (d : DB) : Z :=
  match lastQuestion quizId d with
  | Some q => if questionNumber q =? 0 then 0 else questionNumber q
  | None => 0
  end + 1.

Definition new_question (id quizId : Id) (number : Z) (dto : CreateQuestionDto) : Question :=
  {| question_id := id; question_quizId := quizId; questionNumber := number;
     questionText := dto_questionText dto;
     questionType := mapQuestionTypeToEnum (dto_questionType dto);
     options := dto_options dto; correctAnswerIndex := dto_correctAnswerIndex dto;
     isAnswered := false |}.

(** [id] is the id that Prisma generates for the new row. *)
Definition create (id quizId : Id) (dto : CreateQuestionDto) : M DB (Checked Question) :=
  do d <- get;
  match Prisma.quiz_findUnique quizId d with
  | None => throw (NotFoundException "Quiz not found")
  | Some _ =>
      match validateQuestionOptions (dto_questionType dto) (dto_options dto)
              (dto_correctAnswerIndex dto) with
      | BadRequestException m => ret (BadRequestException m)
      | Accepted _ =>
          do question <- Prisma.question_create
                           (new_question id quizId (nextQuestionNumber quizId d) dto);
          ret (Accepted question)
      end
  end.

(** [questions.forEach(question => this.validateQuestionOptions(question))]:
    the first failure is the one thrown. *)
Fixpoint validateAll (dtos : list CreateQuestionDto) : Checked unit :=
  match dtos with
  | [] => Accepted tt
  | dto :: rest =>
      match validateQuestionOptions (dto_questionType dto) (dto_options dto)
              (dto_correctAnswerIndex dto) with
      | BadRequestException m => BadRequestException m
      | Accepted _ => validateAll rest
      end
  end.

(** [cuid i] is the id that Prisma generates for the [i]-th new row;
    [currentQuestionNumber++] gives that row the number [start + i]. *)
Definition createBulk (cuid : nat -> Id) (quizId : Id) (dtos : list CreateQuestionDto)
  : M DB (Checked (list Question)) :=
  do d <- get;
  match Prisma.quiz_findUnique quizId d with
  | None => throw (NotFoundException "Quiz not found")
  | Some _ =>
      match validateAll dtos with
      | BadRequestException m => ret (BadRequestException m)
      | Accepted _ =>
          let start := nextQuestionNumber quizId d in
          do createdQuestions <-
            Prisma.transaction_all
              (imap (fun i dto => Prisma.question_create
                                    (new_question (cuid i) quizId (start + Z.of_nat i) dto))
                    dtos);
          ret (Accepted createdQuestions)
      end
  end.

(** [{ ...question, ...updateQuestionDto }], which is also what
    [question.update] stores for [data: updateQuestionDto]. *)
Definition merged (question : Question) (dto : UpdateQuestionDto) : Question :=
  {| question_id := question_id question; question_quizId := question_quizId question;
     questionNumber := questionNumber question;
     questionText := default (questionText question) (upd_questionText dto);
     questionType := default (questionType question) (upd_questionType dto);
     options := default (options question) (upd_options dto);
     correctAnswerIndex := default (correctAnswerIndex question) (upd_correctAnswerIndex dto);
     isAnswered := default (isAnswered question) (upd_isAnswered dto) |}.

(** [question.findFirst({ where: { id: questionId, quizId } })] *)
Definition findInQuiz (quizId questionId : Id) (d : DB) : option Question :=
  find (fun q => String.eqb (question_id q) questionId && String.eqb (question_quizId q) quizId)
       (questions d).

(** [if (updateQuestionDto.options || updateQuestionDto.questionType)]:
    an array, also an empty one, and a type name are truthy. *)
Definition update (quizId questionId : Id) (dto : UpdateQuestionDto)
  : M DB (Checked Question) :=
  do d <- get;
  match findInQuiz quizId questionId d with
  | None => throw (NotFoundException "Question not found")
  | Some question =>
      match (if bool_decide (is_Some (upd_options dto))
                || bool_decide (is_Some (upd_questionType dto))
             then validateQuestionOptions (questionType (merged question dto))
                    (options (merged question dto)) (correctAnswerIndex (merged question dto))
             else Accepted tt) with
      | BadRequestException m => ret (BadRequestException m)
      | Accepted _ =>
          do updatedQuestion <- Prisma.question_update questionId (fun q => merged q dto);
          ret (Accepted updatedQuestion)
      end
  end.

Definition remove (quizId questionId : Id) : M DB unit :=
  do d <- get;
  match findInQuiz quizId questionId d with
  | None => throw (NotFoundException "Question not found")
  | Some _ => Prisma.question_delete questionId
  end.

Definition set_isAnswered (b : bool) (q : Question) : Question :=
  {| question_id := question_id q; question_quizId := question_quizId q;
     questionNumber := questionNumber q; questionText := questionText q;
     questionType := questionType q; options := options q;
     correctAnswerIndex := correctAnswerIndex q; isAnswered := b |}.

Definition markAsAnswered (questionId : Id) : M DB unit :=
  Prisma.question_update questionId (set_isAnswered true) ;; ret tt.

(** [question.updateMany({ where: { quizId }, data: { isAnswered: false } })] *)
Definition resetQuizQuestions (quizId : Id) : M DB unit :=
  modify (fun d => set_questions
                     (map (fun q => if String.eqb (question_quizId q) quizId
                                    then set_isAnswered false q else q) (questions d)) d).

(** [count] and [groupBy] with [_count]: a type without questions has
    no group, and its statistic stays 0. *)
Definition getQuestionStats (quizId : Id) : M DB QuestionStats :=
  do d <- get;
  let count (p : Question -> bool) :=
    length (List.filter (fun q => String.eqb (question_quizId q) quizId && p q) (questions d)) in
  let totalQuestions := count (fun _ => true) in
  let answeredQuestions := count isAnswered in
  ret {| st_totalQuestions := totalQuestions;
         st_answeredQuestions := answeredQuestions;
         st_unansweredQuestions := (totalQuestions - answeredQuestions)%nat;
         st_multiple_choice :=
           count (fun q => QuestionType_eqb (questionType q) qt_multiple_choice);
         st_yes_no := count (fun q => QuestionType_eqb (questionType q) qt_yes_no);
         st_unanswered_multiple_choice :=
           count (fun q => negb (isAnswered q)
                           && QuestionType_eqb (questionType q) qt_multiple_choice);
         st_unanswered_yes_no :=
           count (fun q => negb (isAnswered q)
                           && QuestionType_eqb (questionType q) qt_yes_no) |}.

End QuestionsService.

(** ** The session cache (src/redis/redis.service.ts)

    The cache manager keeps one store of values under string keys, and
    the service builds each key from the ids that it is given
    ([Keys] below).  The ids that the database generates are cuids and
    contain no colon, and for ids without a colon the keys of different
    patterns, and of different ids, are different strings (the keys of
    one pattern with a single id are different for all ids, and so are
    the keys of different patterns for the same quiz id).  [Cache]
    relies on that: it gives every key pattern a map of its own, indexed
    by the ids that the pattern interpolates.  The ids of a message are
    not validated, though, and with a colon in an id two keys can
    coincide ([quiz:Q:round:R:questions] is the questions key of the
    quiz id [Q:round:R]); what [Cache] says about an entry is what the
    code does for ids without a colon. *)

Record Participant := {
  p_userId : Id;
  p_username : option string;
  p_orderIndex : Z;
}.

Record SelectedAnswer := {
  sa_userId : Id;
  sa_selectedIndex : Z;
}.

Record Cache := {
  c_questions : gmap string (list Question);            (* quiz:Q:questions *)
  c_roundQuestions : gmap (string * string) (list Question); (* quiz:Q:round:R:questions *)
  c_participants : gmap string (list Participant);      (* quiz:Q:participants *)
  c_activeParticipant : gmap string string;             (* quiz:Q:active_participant *)
  c_currentQuestion : gmap (string * string) nat;       (* quiz:Q:round:R:current_question *)
  c_answeredQuestions : gmap string (list string);      (* quiz:Q:answered_questions *)
  c_selectedAnswer : gmap (string * string) SelectedAnswer; (* quiz:Q:selected_answer:K *)
  c_quizCache : gmap (string * string) string;          (* quiz:Q:KEY, generic entries *)
}.

Record Validation := {
  v_isCorrect : bool;
  v_correctAnswerIndex : Z;
}.

(** The number of colons of a string. *)
Fixpoint colons (s : string) : nat :=
  match s with
  | EmptyString => 0
  | String c s' => (if Ascii.eqb c ":"%char then 1 else 0) + colons s'
  end.

Definition colon_free (s : string) : Prop := colons s = 0%nat.

(** The keys, as the template strings of the service build them. *)
Module Keys.

Definition questions (quizId : Id) : string := "quiz:" +:+ quizId +:+ ":questions".
Definition roundQuestions (quizId roundId : Id) : string :=
  "quiz:" +:+ quizId +:+ ":round:" +:+ roundId +:+ ":questions".
Definition participants (quizId : Id) : string := "quiz:" +:+ quizId +:+ ":participants".
Definition activeParticipant (quizId : Id) : string :=
  "quiz:" +:+ quizId +:+ ":active_participant".
Definition currentQuestion (quizId roundId : Id) : string :=
  "quiz:" +:+ quizId +:+ ":round:" +:+ roundId +:+ ":current_question".
Definition answeredQuestions (quizId : Id) : string :=
  "quiz:" +:+ quizId +:+ ":answered_questions".
Definition session (quizId : Id) : string := "quiz:" +:+ quizId +:+ ":session".
Definition quizCache (quizId key : string) : string := "quiz:" +:+ quizId +:+ ":" +:+ key.
Definition pendingAnswer (quizId userId : Id) : string :=
  "quiz:" +:+ quizId +:+ ":pending_answer:" +:+ userId.
Definition selectedAnswer (quizId questionId : Id) : string :=
  "quiz:" +:+ quizId +:+ ":selected_answer:" +:+ questionId.
Definition roundAnswered (quizId roundId : Id) : string :=
  "quiz:" +:+ quizId +:+ ":round:" +:+ roundId +:+ ":answered_questions".
Definition participantAnswered (quizId roundId userId : Id) : string :=
  "quiz:" +:+ quizId +:+ ":round:" +:+ roundId +:+ ":participant:" +:+ userId
  +:+ ":answered_questions".
Definition questionCount (quizId roundId userId : Id) : string :=
  "quiz:" +:+ quizId +:+ ":round:" +:+ roundId +:+ ":participant:" +:+ userId
  +:+ ":question_count".

End Keys.

Module RedisService.

Definition getQuizQuestions (quizId : Id) (c : Cache) : option (list Question) :=
  c_questions c !! quizId.

Definition cacheRoundQuestions (quizId roundId : Id) (qs : list Question) (c : Cache) : Cache :=
  {| c_questions := c_questions c;
     c_roundQuestions := <[(quizId, roundId) := qs]> (c_roundQuestions c);
     c_participants := c_participants c; c_activeParticipant := c_activeParticipant c;
     c_currentQuestion := c_currentQuestion c; c_answeredQuestions := c_answeredQuestions c;
     c_selectedAnswer := c_selectedAnswer c; c_quizCache := c_quizCache c |}.

Definition getRoundQuestions (quizId roundId : Id) (c : Cache) : option (list Question) :=
  c_roundQuestions c !! (quizId, roundId).

Definition cacheParticipantOrder (quizId : Id) (order : list Participant) (c : Cache) : Cache :=
  {| c_questions := c_questions c; c_roundQuestions := c_roundQuestions c;
     c_participants := <[quizId := order]> (c_participants c);
     c_activeParticipant := c_activeParticipant c;
     c_currentQuestion := c_currentQuestion c; c_answeredQuestions := c_answeredQuestions c;
     c_selectedAnswer := c_selectedAnswer c; c_quizCache := c_quizCache c |}.

Definition getParticipantOrder (quizId : Id) (c : Cache) : option (list Participant) :=
  c_participants c !! quizId.

Definition setActiveParticipant (quizId userId : Id) (c : Cache) : Cache :=
  {| c_questions := c_questions c; c_roundQuestions := c_roundQuestions c;
     c_participants := c_participants c;
     c_activeParticipant := <[quizId := userId]> (c_activeParticipant c);
     c_currentQuestion := c_currentQuestion c; c_answeredQuestions := c_answeredQuestions c;
     c_selectedAnswer := c_selectedAnswer c; c_quizCache := c_quizCache c |}.

Definition getActiveParticipant (quizId : Id) (c : Cache) : option Id :=
  c_activeParticipant c !! quizId.

Definition setCurrentQuestionIndex (quizId roundId : Id) (index : nat) (c : Cache) : Cache :=
  {| c_questions := c_questions c; c_roundQuestions := c_roundQuestions c;
     c_participants := c_participants c; c_activeParticipant := c_activeParticipant c;
     c_currentQuestion := <[(quizId, roundId) := index]> (c_currentQuestion c);
     c_answeredQuestions := c_answeredQuestions c;
     c_selectedAnswer := c_selectedAnswer c; c_quizCache := c_quizCache c |}.

Definition getCurrentQuestionIndex (quizId roundId : Id) (c : Cache) : option nat :=
  c_currentQuestion c !! (quizId, roundId).

Definition markQuestionAsAnswered (quizId questionId : Id) (c : Cache) : Cache :=
  let answeredQuestions := default [] (c_answeredQuestions c !! quizId) in
  if existsb (String.eqb questionId) answeredQuestions then c
  else
    {| c_questions := c_questions c; c_roundQuestions := c_roundQuestions c;
       c_participants := c_participants c; c_activeParticipant := c_activeParticipant c;
       c_currentQuestion := c_currentQuestion c;
       c_answeredQuestions :=
         <[quizId := answeredQuestions ++ [questionId]]> (c_answeredQuestions c);
       c_selectedAnswer := c_selectedAnswer c; c_quizCache := c_quizCache c |}.

Definition validateAnswer (quizId questionId : Id) (selected : Z) (c : Cache)
  : Outcome Validation :=
  match getQuizQuestions quizId c with
  | None => Throw (JsError "Questions not cached for this quiz")
  | Some qs =>
      match find (fun q => String.eqb (question_id q) questionId) qs with
      | None => Throw (JsError "Question not found in cache")
      | Some question =>
          Ok {| v_isCorrect := selected =? correctAnswerIndex question;
                v_correctAnswerIndex := correctAnswerIndex question |}
      end
  end.

Definition deleteQuizCache (quizId key : string) (c : Cache) : Cache :=
  {| c_questions := c_questions c; c_roundQuestions := c_roundQuestions c;
     c_participants := c_participants c; c_activeParticipant := c_activeParticipant c;
     c_currentQuestion := c_currentQuestion c; c_answeredQuestions := c_answeredQuestions c;
     c_selectedAnswer := c_selectedAnswer c;
     c_quizCache := delete (quizId, key) (c_quizCache c) |}.

Definition storeSelectedAnswer (quizId questionId userId : Id) (selected : Z) (c : Cache)
  : Cache :=
  {| c_questions := c_questions c; c_roundQuestions := c_roundQuestions c;
     c_participants := c_participants c; c_activeParticipant := c_activeParticipant c;
     c_currentQuestion := c_currentQuestion c; c_answeredQuestions := c_answeredQuestions c;
     c_selectedAnswer :=
       <[(quizId, questionId) := {| sa_userId := userId; sa_selectedIndex := selected |}]>
         (c_selectedAnswer c);
     c_quizCache := c_quizCache c |}.

Definition getSelectedAnswer (quizId questionId : Id) (c : Cache) : option SelectedAnswer :=
  c_selectedAnswer c !! (quizId, questionId).

Definition clearSelectedAnswer (quizId questionId : Id) (c : Cache) : Cache :=
  {| c_questions := c_questions c; c_roundQuestions := c_roundQuestions c;
     c_participants := c_participants c; c_activeParticipant := c_activeParticipant c;
     c_currentQuestion := c_currentQuestion c; c_answeredQuestions := c_answeredQuestions c;
     c_selectedAnswer := delete (quizId, questionId) (c_selectedAnswer c);
     c_quizCache := c_quizCache c |}.

(** *** Entries that the gateway does not write *)

Definition cacheQuizQuestions (quizId : Id) (qs : list Question) (c : Cache) : Cache :=
  {| c_questions := <[quizId := qs]> (c_questions c);
     c_roundQuestions := c_roundQuestions c; c_participants := c_participants c;
     c_activeParticipant := c_activeParticipant c; c_currentQuestion := c_currentQuestion c;
     c_answeredQuestions := c_answeredQuestions c;
     c_selectedAnswer := c_selectedAnswer c; c_quizCache := c_quizCache c |}.

Definition getAnsweredQuestions (quizId : Id) (c : Cache) : list string :=
  default [] (c_answeredQuestions c !! quizId).

(** *** The store by its keys

    The functions below are modelled on the store as the cache manager
    has it, a map from the key strings, so that they are what the code
    does for all ids. *)

(** [clearQuizCache]: [cacheManager.del] of each of the four keys that
    it lists, whatever is stored under them. *)
Definition clearQuizCache {V} (quizId : Id) (store : gmap string V) : gmap string V :=
  fold_left (fun s key => delete key s)
    [Keys.questions quizId; Keys.participants quizId; Keys.activeParticipant quizId;
     Keys.answeredQuestions quizId] store.

(** *** The answered questions of a round

    The answered questions of a round and of a participant in a round
    are lists of question ids, the question count of a participant is a
    number.  The keys of the lists end in [:answered_questions] and the
    keys of the counts in [:question_count], so no key holds a list for
    one and a number for the other: the log is the map of the lists and
    the map of the counts.  The list of a round and the list of a
    participant are in the same map, and their keys can coincide. *)
Record AnswerLog := {
  l_lists : gmap string (list string);
  l_counts : gmap string nat;
}.

Definition getAnsweredQuestionIds (quizId roundId : Id) (l : AnswerLog) : list string :=
  default [] (l_lists l !! Keys.roundAnswered quizId roundId).

Definition getParticipantAnsweredQuestions (quizId roundId userId : Id) (l : AnswerLog)
  : list string :=
  default [] (l_lists l !! Keys.participantAnswered quizId roundId userId).

Definition getParticipantQuestionCount (quizId roundId userId : Id) (l : AnswerLog) : nat :=
  default 0%nat (l_counts l !! Keys.questionCount quizId roundId userId).

Definition incrementParticipantQuestionCount (quizId roundId userId : Id) (l : AnswerLog)
  : nat * AnswerLog :=
  let key := Keys.questionCount quizId roundId userId in
  let currentCount := default 0%nat (l_counts l !! key) in
  let newCount := (currentCount + 1)%nat in
  (newCount, {| l_lists := l_lists l; l_counts := <[key := newCount]> (l_counts l) |}).

(** The list of the participant is read after the list of the round is
    written. *)
Definition storeAnsweredQuestion (quizId roundId questionId userId : Id) (l : AnswerLog)
  : AnswerLog :=
  let key := Keys.roundAnswered quizId roundId in
  let answeredQuestions := default [] (l_lists l !! key) in
  let l1 :=
    if existsb (String.eqb questionId) answeredQuestions then l
    else {| l_lists := <[key := answeredQuestions ++ [questionId]]> (l_lists l);
            l_counts := l_counts l |} in
  let participantKey := Keys.participantAnswered quizId roundId userId in
  let participantAnsweredQuestions := default [] (l_lists l1 !! participantKey) in
  if existsb (String.eqb questionId) participantAnsweredQuestions then l1
  else
    snd (incrementParticipantQuestionCount quizId roundId userId
           {| l_lists := <[participantKey := participantAnsweredQuestions ++ [questionId]]>
                           (l_lists l1);
              l_counts := l_counts l1 |}).

End RedisService.

(** ** The gateway's state (src/quiz/quiz.gateway.ts) *)

Record BonusState := {
  originalUserId : Id;
  bonusUserId : Id;
  bs_questionId : Id;
  bs_isActive : bool;
}.

Record UserInfo := {
  ui_userId : Id;
  ui_role : UserRole;
  ui_quizId : option Id;
  ui_user : User;
}.

(** Payloads are JSON values; [JMessage e] stands for [error.message]. *)
#[local] Unset Elimination Schemes.
Inductive JVal : Type :=
| JNull
| JBool (b : bool)
| JNum (n : Z)
| JStr (s : string)
| JArr (l : list JVal)
| JObj (fields : list (string * JVal))
| JMessage (e : Exn).
#[local] Set Elimination Schemes.

Inductive Target : Type :=
| ToClient (clientId : Id)            (* client.emit *)
| ToRoom (room : Id)                  (* this.server.to(room).emit *)
| ToRoomExcept (room clientId : Id).  (* client.to(room).emit *)

Record Event := {
  ev_target : Target;
  ev_name : string;
  ev_payload : JVal;
}.

(** The maps [activeParticipants] and [currentQuestionIndex] of the class
    are never read or written; [timers] holds the callbacks that
    [setTimeout] has scheduled, as the [(quizId, roundId)] they close over. *)
Record World := {
  db : DB;
  cache : Cache;
  bonusState : gmap string BonusState;
  connectedUsers : gmap string UserInfo;
  emitted : list Event;
  timers : list (Id * Id);
}.

Definition set_db (v : DB) (w : World) : World :=
  {| db := v; cache := cache w; bonusState := bonusState w;
     connectedUsers := connectedUsers w; emitted := emitted w; timers := timers w |}.
Definition set_cache (v : Cache) (w : World) : World :=
  {| db := db w; cache := v; bonusState := bonusState w;
     connectedUsers := connectedUsers w; emitted := emitted w; timers := timers w |}.
Definition set_bonusState (v : gmap string BonusState) (w : World) : World :=
  {| db := db w; cache := cache w; bonusState := v;
     connectedUsers := connectedUsers w; emitted := emitted w; timers := timers w |}.
Definition set_connectedUsers (v : gmap string UserInfo) (w : World) : World :=
  {| db := db w; cache := cache w; bonusState := bonusState w;
     connectedUsers := v; emitted := emitted w; timers := timers w |}.
Definition set_emitted (v : list Event) (w : World) : World :=
  {| db := db w; cache := cache w; bonusState := bonusState w;
     connectedUsers := connectedUsers w; emitted := v; timers := timers w |}.
Definition set_timers (v : list (Id * Id)) (w : World) : World :=
  {| db := db w; cache := cache w; bonusState := bonusState w;
     connectedUsers := connectedUsers w; emitted := emitted w; timers := v |}.

(** Run a service call on the database of the world. *)
Definition liftDB {A} (m : M DB A) : M World A :=
  fun w => let (r, d) := m (db w) in (r, set_db d w).

Definition redis_get {A} (f : Cache -> A) : M World A := gets (fun w => f (cache w)).
Definition redis_set (f : Cache -> Cache) : M World unit :=
  modify (fun w => set_cache (f (cache w)) w).

Definition emit (t : Target) (name : string) (p : JVal) : M World unit :=
  modify (fun w => set_emitted (emitted w ++ [{| ev_target := t; ev_name := name;
                                                  ev_payload := p |}]) w).

(** ** Payload builders *)

Definition JId (x : option Id) : JVal :=
  match x with Some s => JStr s | None => JNull end.
Definition JNat (n : nat) : JVal := JNum (Z.of_nat n).
Definition JOptNum (x : option Z) : JVal :=
  match x with Some n => JNum n | None => JNull end.

Definition QuizType_name (t : QuizType) : string :=
  match t with
  | multiple_choice => "multiple_choice"
  | yes_no => "yes_no"
  | simultaneous => "simultaneous"
  end.

Definition UserRole_name (r : UserRole) : string :=
  match r with
  | MODERATOR => "MODERATOR"
  | CONTESTANT => "CONTESTANT"
  | AUDIENCE => "AUDIENCE"
  end.

(** [{ id, questionText, options, points: q.points }]: the question DTO
    has no [points], so the field is undefined and not serialised. *)
Definition clientQuestion (q : Question) : JVal :=
  JObj [("id", JStr (question_id q)); ("questionText", JStr (questionText q));
        ("options", JArr (map JStr (options q)))].

(** [{ id, questionText, options, questionNumber }] *)
Definition numberedQuestion (q : Question) : JVal :=
  JObj [("id", JStr (question_id q)); ("questionText", JStr (questionText q));
        ("options", JArr (map JStr (options q)));
        ("questionNumber", JNum (questionNumber q))].

Definition JParticipant (p : Participant) : JVal :=
  JObj ([("userId", JStr (p_userId p))]
        ++ match p_username p with Some n => [("username", JStr n)] | None => [] end
        ++ [("orderIndex", JNum (p_orderIndex p))]).

Definition JRoundEntry (r : RoundEntry) : JVal :=
  JObj [("roundNumber", JNum (re_roundNumber r)); ("roundScore", JNum (re_roundScore r));
        ("questionsAnswered", JNat (re_questionsAnswered r));
        ("questionsCorrect", JNat (re_questionsCorrect r))].

Definition JLeaderboardEntry (e : LeaderboardEntry) : JVal :=
  let t := le_entry e in
  JObj [("position", JNat (le_position e));
        ("user", JObj [("id", JStr (us_id (ut_user t)));
                       ("username", JStr (us_username (ut_user t)));
                       ("role", JStr (UserRole_name (us_role (ut_user t))))]);
        ("totalScore", JNum (totalScore t));
        ("totalQuestionsAnswered", JNat (totalQuestionsAnswered t));
        ("totalQuestionsCorrect", JNat (totalQuestionsCorrect t));
        ("rounds", JArr (map JRoundEntry (ut_rounds t)))].

Definition JRequirements (r : QuestionRequirements) : JVal :=
  JObj [("requiredQuestions", JNat (requiredQuestions r));
        ("currentQuestions", JNat (currentQuestions r));
        ("shortfall", JNat (shortfall r))].

(** ** The gateway's helpers *)

Inductive AnswerType := normal | bonus | original_return.

Definition AnswerType_name (t : AnswerType) : string :=
  match t with
  | normal => "normal"
  | bonus => "bonus"
  | original_return => "original_return"
  end.

Record AnswerResult := {
  ar_isCorrect : bool;
  ar_points : Z;
  ar_correctAnswerIndex : Z;
  ar_answerType : AnswerType;
}.

Fixpoint findIndex {A} (f : A -> bool) (l : list A) : option nat :=
  match l with
  | [] => None
  | x :: l' => if f x then Some 0%nat else option_map S (findIndex f l')
  end.

(** [l.slice(startIndex, endIndex)] for indices that are counts. *)
Definition slice {A} (l : list A) (startIndex endIndex : nat) : list A :=
  take (endIndex - startIndex) (drop startIndex l).

(** [obj[key] = value] on a JS object seen as its list of own properties,
    in insertion order (the keys here are cuids, never integer-like). *)
Fixpoint obj_set {A} (key : string) (value : A) (obj : list (string * A))
  : list (string * A) :=
  match obj with
  | [] => [(key, value)]
  | (k, v) :: obj' =>
      if String.eqb k key then (k, value) :: obj' else (k, v) :: obj_set key value obj'
  end.

Fixpoint obj_get {A} (key : string) (obj : list (string * A)) : option A :=
  match obj with
  | [] => None
  | (k, v) :: obj' => if String.eqb k key then Some v else obj_get key obj'
  end.

Definition message (m : string) : JVal := JObj [("message", JStr m)].

Module Gateway.

Import QuestionsService.

Definition getParticipantCount (quizId : Id) : M DB nat :=
  do d <- get;
  match Prisma.quiz_findUnique quizId d with
  | None => ret 1%nat
  | Some _ =>
      ret (Nat.max (Nat.max (length (participantOrders_of quizId d))
                            (length (contestants_of quizId d))) 1)
  end.

Fixpoint include_username (d : DB) (l : list ParticipantOrder) : M DB (list Participant) :=
  match l with
  | [] => ret []
  | p :: l' =>
      match Prisma.user_findUnique (po_userId p) d with
      | None => throw (PrismaError "inconsistent query result")
      | Some u =>
          do rest <- include_username d l';
          ret ({| p_userId := po_userId p; p_username := Some (username u);
                  p_orderIndex := orderIndex p |} :: rest)
      end
  end.

Definition getDefaultParticipantOrder (quizId : Id) : M DB (list Participant) :=
  do d <- get;
  let participants :=
    sort_by (fun a b => orderIndex a <=? orderIndex b) (participantOrders_of quizId d) in
  match participants with
  | [] =>
      let defaultOrder :=
        imap (fun index user => {| p_userId := user_id user;
                                   p_username := Some (username user);
                                   p_orderIndex := Z.of_nat index |})
             (contestants_of quizId d) in
      match defaultOrder with
      | [] => ret tt
      | _ =>
          match Prisma.quiz_findUnique quizId d with
          | None => throw (PrismaError "P2003")
          | Some _ =>
              modify (set_participantOrders
                        (participantOrders d ++
                           map (fun p => {| po_quizId := quizId; po_userId := p_userId p;
                                            orderIndex := p_orderIndex p |}) defaultOrder))
          end
      end ;;
      ret defaultOrder
  | _ => include_username d participants
  end.

(** [getParticipantOrder(quizId) || getDefaultParticipantOrder(quizId)]:
    a cached empty array is truthy. *)
Definition participantOrder_or_default (quizId : Id) : M World (list Participant) :=
  do cached <- redis_get (RedisService.getParticipantOrder quizId);
  match cached with
  | Some order => ret order
  | None => liftDB (getDefaultParticipantOrder quizId)
  end.

Definition calculateUserRoundScore (quizId roundId userId : Id) : M DB Z :=
  do d <- get;
  ret (fold_left (fun total response => total + pointsEarned response)
         (List.filter (fun r => String.eqb (resp_quizId r) quizId
                                && String.eqb (resp_roundId r) roundId
                                && String.eqb (resp_userId r) userId) (responses d)) 0).

(** *** processAnswer *)

Definition processAnswer (quizId roundId userId questionId : Id) (selected : Z)
  : M World AnswerResult :=
  do validation <- (fun w => (RedisService.validateAnswer quizId questionId selected (cache w), w));
  do round <- liftDB (gets (Prisma.round_findUnique roundId));
  do bs <- gets (fun w => bonusState w !! quizId);
  let correct := v_isCorrect validation in
  do scored <-
    match option_map quizType round with
    | Some simultaneous => ret (if correct then 5 else 0, normal)
    | _ =>
        match bs with
        | Some b =>
            if bs_isActive b && String.eqb (bonusUserId b) userId then
              ret (if correct then 1 else 0, bonus)
            else if negb (bs_isActive b) && String.eqb (originalUserId b) userId then
              modify (fun w => set_bonusState (delete quizId (bonusState w)) w) ;;
              redis_set (RedisService.deleteQuizCache quizId "bonusState") ;;
              ret (if correct then 2 else 0, original_return)
            else ret (if correct then 2 else 0, normal)
        | None => ret (if correct then 2 else 0, normal)
        end
    end;
  let points := fst scored in
  let answerType := snd scored in
  match round with
  | None => throw TypeError
  | Some r =>
      liftDB (QuizService.submitResponse userId questionId selected (round_id r) points correct) ;;
      match answerType with
      | bonus => ret tt
      | _ => redis_set (RedisService.markQuestionAsAnswered quizId questionId)
      end ;;
      emit (ToRoom quizId) "answerResult"
        (JObj [("userId", JStr userId); ("questionId", JStr questionId);
               ("isCorrect", JBool correct); ("points", JNum points);
               ("answerType", JStr (AnswerType_name answerType));
               ("message", JStr (if correct then "Correct!" else "Incorrect!"))]) ;;
      do leaderboard <- liftDB (QuizService.getQuizLeaderboard quizId);
      emit (ToRoom quizId) "leaderboardUpdate"
        (JObj [("leaderboard", JArr (map JLeaderboardEntry leaderboard))]) ;;
      match answerType with
      | original_return => modify (fun w => set_timers (timers w ++ [(quizId, roundId)]) w)
      | _ => ret tt
      end ;;
      ret {| ar_isCorrect := correct; ar_points := points;
             ar_correctAnswerIndex := v_correctAnswerIndex validation;
             ar_answerType := answerType |}
  end.

(** *** Turn advancement

    The body that [proceedToNext] and [autoAdvanceAfterBonus] share, from
    [findIndex] on.  [activeUserId] and [currentQuestionIndex] are [None]
    for [null].  [findIndex] gives -1 for a user that is not in the order,
    so [(-1 + 1) % length] is 0; the remainder by the length of an empty
    order is [NaN], which is no index and is not [=== 0]. *)
Definition advance (quizId roundId : Id) (participantOrder : list Participant)
    (activeUserId : option Id) (currentQuestionIndex : option nat) : M World unit :=
  let currentParticipantIndex :=
    match activeUserId with
    | Some a => findIndex (fun p => String.eqb (p_userId p) a) participantOrder
    | None => None
    end in
  let nextParticipantIndex : option nat :=
    match participantOrder with
    | [] => None
    | _ => Some ((match currentParticipantIndex with Some i => i + 1 | None => 0 end)
                 mod length participantOrder)%nat
    end in
  let nextParticipant : option Participant :=
    match nextParticipantIndex with
    | Some i => participantOrder !! i
    | None => None
    end in
  let nextQuestionIndex : option nat :=
    match nextParticipantIndex with
    | Some O => Some (default 0%nat currentQuestionIndex + 1)%nat
    | _ => currentQuestionIndex
    end in
  do cached <- redis_get (RedisService.getRoundQuestions quizId roundId);
  match cached with
  | None => throw TypeError
  | Some qs =>
      if (length qs <=? default 0 nextQuestionIndex)%nat then
        liftDB (Prisma.round_update_isActive roundId false) ;;
        emit (ToRoom quizId) "roundCompleted" (JObj [("roundId", JStr roundId)])
      else
        match nextParticipant with
        | None => throw TypeError
        | Some np =>
            redis_set (RedisService.setActiveParticipant quizId (p_userId np)) ;;
            match nextQuestionIndex with
            | None => throw TypeError
            | Some i =>
                redis_set (RedisService.setCurrentQuestionIndex quizId roundId i) ;;
                match qs !! i with
                | None => throw TypeError
                | Some nextQuestion =>
                    emit (ToRoom quizId) "nextParticipant"
                      (JObj [("activeUserId", JStr (p_userId np));
                             ("currentQuestion", numberedQuestion nextQuestion);
                             ("questionIndex", JNat i)])
                end
            end
        end
  end.

(** [!activeUserId] holds for [null] and for the empty string. *)
Definition proceedToNext (quizId roundId : Id) (wasCorrect : bool) : M World unit :=
  try_catch
    (do participantOrder <- redis_get (RedisService.getParticipantOrder quizId);
     do currentQuestionIndex <- redis_get (RedisService.getCurrentQuestionIndex quizId roundId);
     do activeUserId <- redis_get (RedisService.getActiveParticipant quizId);
     match participantOrder, activeUserId with
     | Some order, Some active =>
         if String.eqb active "" then ret tt
         else advance quizId roundId order (Some active) currentQuestionIndex
     | _, _ => ret tt
     end)
    (fun _ => ret tt).

Definition autoAdvanceAfterBonus (quizId roundId : Id) : M World unit :=
  try_catch
    (do bs <- gets (fun w => bonusState w !! quizId);
     match bs with
     | Some b =>
         if negb (bs_isActive b) then
           do participantOrder <- redis_get (RedisService.getParticipantOrder quizId);
           do currentActiveUserId <- redis_get (RedisService.getActiveParticipant quizId);
           do currentQuestionIndex <-
             redis_get (RedisService.getCurrentQuestionIndex quizId roundId);
           match participantOrder with
           | None => throw TypeError
           | Some order =>
               advance quizId roundId order currentActiveUserId
                       (Some (default 0%nat currentQuestionIndex))
           end
         else ret tt
     | None => ret tt
     end)
    (fun _ => ret tt).

(** *** Sequential answering *)

Definition is_role (r : UserRole) (userInfo : option UserInfo) : bool :=
  match userInfo with
  | Some i => UserRole_eqb (ui_role i) r
  | None => false
  end.

Definition username_of (userInfo : option UserInfo) : string :=
  match userInfo with
  | Some i => username (ui_user i)
  | None => ""
  end.

Definition handleAutoConfirmAnswer (client quizId roundId questionId : Id) (selected : Z)
  : M World unit :=
  try_catch
    (do userInfo <- gets (fun w => connectedUsers w !! client);
     if negb (is_role MODERATOR userInfo) then
       emit (ToClient client) "error" (message "Only moderators can auto-confirm answers")
     else
       do activeUserId <- redis_get (RedisService.getActiveParticipant quizId);
       match activeUserId with
       | None => emit (ToClient client) "error" (message "No active participant found")
       | Some active =>
           if String.eqb active "" then
             emit (ToClient client) "error" (message "No active participant found")
           else
             do result <- processAnswer quizId roundId active questionId selected;
             emit (ToRoom quizId) "answerAutoConfirmed"
               (JObj [("questionId", JStr questionId); ("userId", JStr active);
                      ("selectedIndex", JNum selected);
                      ("isCorrect", JBool (ar_isCorrect result));
                      ("points", JNum (ar_points result));
                      ("correctAnswerIndex", JNum (ar_correctAnswerIndex result))]) ;;
             proceedToNext quizId roundId (ar_isCorrect result)
       end)
    (fun error => emit (ToClient client) "error"
                    (JObj [("message", JStr "Failed to auto-confirm answer");
                           ("details", JMessage error)])).

Definition handleSelectAnswer (client quizId roundId questionId : Id) (selected : Z)
  : M World unit :=
  try_catch
    (do userInfo <- gets (fun w => connectedUsers w !! client);
     match userInfo with
     | Some info =>
         if negb (UserRole_eqb (ui_role info) CONTESTANT) then
           emit (ToClient client) "error" (message "Only contestants can select answers")
         else
           do activeUserId <- redis_get (RedisService.getActiveParticipant quizId);
           if match activeUserId with
              | Some active => String.eqb active (ui_userId info)
              | None => false
              end
           then
             redis_set (RedisService.storeSelectedAnswer quizId questionId (ui_userId info)
                          selected) ;;
             emit (ToRoom quizId) "answerSelected"
               (JObj [("userId", JStr (ui_userId info)); ("questionId", JStr questionId);
                      ("selectedIndex", JNum selected);
                      ("username", JStr (username (ui_user info)))])
           else
             emit (ToClient client) "error"
               (message "Only the active participant can select an answer")
     | None => emit (ToClient client) "error" (message "Only contestants can select answers")
     end)
    (fun error => emit (ToClient client) "error"
                    (JObj [("message", JStr "Failed to select answer");
                           ("details", JMessage error)])).

Definition handleConfirmAnswer (client quizId roundId questionId : Id) : M World unit :=
  try_catch
    (do userInfo <- gets (fun w => connectedUsers w !! client);
     if negb (is_role MODERATOR userInfo) then
       emit (ToClient client) "error" (message "Only moderators can confirm answers")
     else
       do selectedAnswer <- redis_get (RedisService.getSelectedAnswer quizId questionId);
       match selectedAnswer with
       | None => emit (ToClient client) "error" (message "No answer selected for this question")
       | Some sa =>
           do result <- processAnswer quizId roundId (sa_userId sa) questionId
                          (sa_selectedIndex sa);
           redis_set (RedisService.clearSelectedAnswer quizId questionId) ;;
           proceedToNext quizId roundId (ar_isCorrect result)
       end)
    (fun error => emit (ToClient client) "error"
                    (JObj [("message", JStr "Failed to confirm answer");
                           ("details", JMessage error)])).

(** *** Simultaneous answering *)

Definition handleSubmitSimultaneousAnswer (client quizId roundId questionId : Id)
    (selected questionNumber : Z) : M World unit :=
  try_catch
    (do userInfo <- gets (fun w => connectedUsers w !! client);
     match userInfo with
     | Some info =>
         if negb (UserRole_eqb (ui_role info) CONTESTANT) then
           emit (ToClient client) "error" (message "Only contestants can submit answers")
         else
           do result <- processAnswer quizId roundId (ui_userId info) questionId selected;
           emit (ToClient client) "answerSubmitted"
             (JObj [("questionId", JStr questionId); ("questionNumber", JNum questionNumber);
                    ("isCorrect", JBool (ar_isCorrect result));
                    ("points", JNum (ar_points result));
                    ("correctAnswerIndex", JNum (ar_correctAnswerIndex result))])
     | None => emit (ToClient client) "error" (message "Only contestants can submit answers")
     end)
    (fun error => emit (ToClient client) "error"
                    (JObj [("message", JStr "Failed to submit answer");
                           ("details", JMessage error)])).

Definition handleSkipQuestion (client quizId roundId : Id) (questionNumber : Z)
  : M World unit :=
  try_catch
    (do userInfo <- gets (fun w => connectedUsers w !! client);
     if negb (is_role CONTESTANT userInfo) then
       emit (ToClient client) "error" (message "Only contestants can skip questions")
     else
       emit (ToClient client) "questionSkipped" (JObj [("questionNumber", JNum questionNumber)]))
    (fun error => emit (ToClient client) "error"
                    (JObj [("message", JStr "Failed to skip question");
                           ("details", JMessage error)])).

Definition handleEndSimultaneousSession (client quizId roundId : Id) : M World unit :=
  try_catch
    (do userInfo <- gets (fun w => connectedUsers w !! client);
     match userInfo with
     | Some info =>
         if negb (UserRole_eqb (ui_role info) CONTESTANT) then
           emit (ToClient client) "error" (message "Only contestants can end sessions")
         else
           do roundScore <- liftDB (calculateUserRoundScore quizId roundId (ui_userId info));
           emit (ToClient client) "simultaneousSessionEnded"
             (JObj [("roundId", JStr roundId); ("finalScore", JNum roundScore)]) ;;
           emit (ToRoomExcept quizId client) "userCompletedRound"
             (JObj [("userId", JStr (ui_userId info));
                    ("username", JStr (username (ui_user info)));
                    ("score", JNum roundScore)])
     | None => emit (ToClient client) "error" (message "Only contestants can end sessions")
     end)
    (fun error => emit (ToClient client) "error"
                    (JObj [("message", JStr "Failed to end session");
                           ("details", JMessage error)])).

(** *** Round start *)

(** The loop [for (let i = 0; i < participantOrder.length; i++)] that
    fills [participantQuestions], started at index [i]. *)
Fixpoint distribute_from (i : nat) (participantOrder : list Participant)
    (questionsPerParticipant : nat) (qs : list Question)
    (participantQuestions : list (string * list Question)) : list (string * list Question) :=
  match participantOrder with
  | [] => participantQuestions
  | p :: rest =>
      let startIndex := (i * questionsPerParticipant)%nat in
      let endIndex := (startIndex + questionsPerParticipant)%nat in
      let userQuestions := slice qs startIndex endIndex in
      distribute_from (S i) rest questionsPerParticipant qs
        (obj_set (p_userId p) userQuestions participantQuestions)
  end.

Definition distributeQuestions (participantOrder : list Participant)
    (questionsPerParticipant : nat) (qs : list Question) : list (string * list Question) :=
  distribute_from 0 participantOrder questionsPerParticipant qs [].

(** [let questions = getRoundQuestions(...); if (!questions) { ... }]:
    the cached questions of the round, or else the questions that the
    question supply gives for the participant count, which are cached. *)
Definition roundQuestions_or_load (quizId roundId : Id) (round : Round)
  : M World (list Question) :=
  do cached <- redis_get (RedisService.getRoundQuestions quizId roundId);
  match cached with
  | Some qs => ret qs
  | None =>
      do participantCount <- liftDB (getParticipantCount quizId);
      do qs <- liftDB (getQuestionsForRound quizId (quizType round)
                         (Some participantCount)
                         (Some (questionsPerParticipant round)));
      redis_set (RedisService.cacheRoundQuestions quizId roundId qs) ;;
      ret qs
  end.

(** The order in force is read from the cache or else computed by
    [getDefaultParticipantOrder], which stores it in the database; the
    handler does not cache it.  The [catch] block builds a log line from
    [payload.roundId] and [payload.quizId] and then emits. *)
Definition handleStartRound (client quizId roundId : Id) : M World unit :=
  try_catch
    (do userInfo <- gets (fun w => connectedUsers w !! client);
     if negb (is_role MODERATOR userInfo) then
       emit (ToClient client) "error" (message "Only moderators can start rounds")
     else
       do found <- liftDB (gets (Prisma.round_findUnique roundId));
       match found with
       | None => emit (ToClient client) "error" (message "Round not found")
       | Some round =>
           if negb (String.eqb (round_quizId round) quizId) then
             emit (ToClient client) "error" (message "Round not found")
           else
             liftDB (Prisma.round_update_isActive roundId true) ;;
             do qs <- roundQuestions_or_load quizId roundId round;
             match qs with
             | [] => emit (ToClient client) "error"
                       (message "No questions available for this round")
             | firstQuestion :: _ =>
                 redis_set (RedisService.setCurrentQuestionIndex quizId roundId 0) ;;
                 match quizType round with
                 | simultaneous =>
                     liftDB (getParticipantCount quizId) ;;
                     let perParticipant := js_or (Some (questionsPerParticipant round)) 3 in
                     do participantOrder <- participantOrder_or_default quizId;
                     match participantOrder with
                     | [] => emit (ToClient client) "error"
                               (message "No participants found for this quiz")
                     | _ =>
                         let participantQuestions :=
                           distributeQuestions participantOrder perParticipant qs in
                         emit (ToRoom quizId) "simultaneousRoundStarted"
                           (JObj [("roundId", JStr roundId);
                                  ("quizType", JStr (QuizType_name (quizType round)));
                                  ("participantQuestions",
                                   JObj (map (fun kv => (fst kv,
                                                         JArr (map numberedQuestion (snd kv))))
                                             participantQuestions));
                                  ("totalRoundTime", JOptNum (timePerQuestion round));
                                  ("questionsPerParticipant", JNat perParticipant);
                                  ("pointsPerCorrect", JNum 5)])
                     end
                 | _ =>
                     do participantOrder <- participantOrder_or_default quizId;
                     match participantOrder with
                     | [] => emit (ToClient client) "error"
                               (message "No participants found for this quiz")
                     | firstParticipant :: _ =>
                         redis_set (RedisService.setActiveParticipant quizId
                                      (p_userId firstParticipant)) ;;
                         emit (ToRoom quizId) "roundStarted"
                           (JObj [("roundId", JStr roundId);
                                  ("quizType", JStr (QuizType_name (quizType round)));
                                  ("currentQuestion", clientQuestion firstQuestion);
                                  ("activeUserId", JStr (p_userId firstParticipant));
                                  ("participantOrder", JArr (map JParticipant participantOrder));
                                  ("timePerQuestion", JOptNum (timePerQuestion round));
                                  ("pointsPerCorrect", JNum 1)])
                     end
                 end
             end
       end)
    (fun error => emit (ToClient client) "error"
                    (JObj [("message", JStr "Failed to start round");
                           ("error", JMessage error)])).

(** *** Round readiness *)

Record Readiness := {
  rd_isReady : bool;
  rd_canStart : bool;
  rd_required : nat;
  rd_available : nat;
  rd_shortage : nat;
  rd_previousRoundsCompleted : bool;
  rd_incompletePreviousRounds : list Round;
}.

(** The report that [handleCheckRoundReadiness] computes once the round,
    the requirements and the available questions are fetched.  The
    handler has checked [round.quizId === payload.quizId], so the round is
    among the quiz's rounds and the divisor is positive. *)
Definition roundReadiness (quizId : Id) (round : Round)
    (questionRequirements : QuestionRequirements)
    (availableQuestions : list Question) (d : DB) : Readiness :=
  let requiredForThisRound :=
    ceil_div (requiredQuestions questionRequirements) (length (rounds_of quizId d)) in
  let ready := (requiredForThisRound <=? length availableQuestions)%nat in
  let shortage := (requiredForThisRound - length availableQuestions)%nat in
  let previousRounds :=
    sort_by (fun a b => roundNumber a <=? roundNumber b)
      (List.filter (fun r => String.eqb (round_quizId r) quizId
                             && (roundNumber r <? roundNumber round)) (rounds d)) in
  let incompletePreviousRounds :=
    List.filter (fun r => negb (round_isActive r) && (1 <? roundNumber round)) previousRounds in
  let canStart := ready && (length incompletePreviousRounds =? 0)%nat in
  {| rd_isReady := ready;
     rd_canStart := canStart;
     rd_required := requiredForThisRound;
     rd_available := length availableQuestions;
     rd_shortage := shortage;
     rd_previousRoundsCompleted := (length incompletePreviousRounds =? 0)%nat;
     rd_incompletePreviousRounds := incompletePreviousRounds |}.

Definition checkRoundReadiness (quizId : Id) (round : Round)
  : M DB (QuestionRequirements * Readiness) :=
  do questionRequirements <- getQuestionRequirements quizId;
  do availableQuestions <- getQuestionsForRound quizId (quizType round) None None;
  do d <- get;
  ret (questionRequirements,
       roundReadiness quizId round questionRequirements availableQuestions d).

Definition JReadiness (roundId : Id) (round : Round) (q : QuestionRequirements)
    (r : Readiness) : JVal :=
  JObj [("roundId", JStr roundId); ("roundNumber", JNum (roundNumber round));
        ("quizType", JStr (QuizType_name (quizType round)));
        ("isReady", JBool (rd_isReady r)); ("canStart", JBool (rd_canStart r));
        ("questionRequirements",
         JObj [("required", JNat (rd_required r)); ("available", JNat (rd_available r));
               ("shortage", JNat (rd_shortage r)); ("overallRequirements", JRequirements q)]);
        ("prerequisites",
         JObj [("previousRoundsCompleted", JBool (rd_previousRoundsCompleted r));
               ("incompletePreviousRounds",
                JArr (map (fun p => JObj [("roundId", JStr (round_id p));
                                          ("roundNumber", JNum (roundNumber p));
                                          ("quizType", JStr (QuizType_name (quizType p)))])
                          (rd_incompletePreviousRounds r)))])].

Definition handleCheckRoundReadiness (client quizId roundId : Id) : M World unit :=
  try_catch
    (do userInfo <- gets (fun w => connectedUsers w !! client);
     if negb (is_role MODERATOR userInfo) then
       emit (ToClient client) "error" (message "Only moderators can check round readiness")
     else
       do found <- liftDB (gets (Prisma.round_findUnique roundId));
       match found with
       | None => emit (ToClient client) "error" (message "Round not found")
       | Some round =>
           if negb (String.eqb (round_quizId round) quizId) then
             emit (ToClient client) "error" (message "Round not found")
           else
             do report <- liftDB (checkRoundReadiness quizId round);
             emit (ToClient client) "roundReadinessCheck"
               (JReadiness roundId round (fst report) (snd report))
       end)
    (fun error => emit (ToClient client) "error"
                    (JObj [("message", JStr "Failed to check round readiness");
                           ("details", JMessage error)])).

(** *** Participant order, joining, chat *)

Fixpoint distinctb (l : list string) : bool :=
  match l with
  | [] => true
  | x :: l' => negb (existsb (String.eqb x) l') && distinctb l'
  end.

Fixpoint distinctZ (l : list Z) : bool :=
  match l with
  | [] => true
  | x :: l' => negb (existsb (Z.eqb x) l') && distinctZ l'
  end.

(** [prisma.$transaction]: a throw inside rolls the database back. *)
Definition transaction {A} (m : M DB A) : M DB A :=
  fun d => match m d with
           | (Ok a, d') => (Ok a, d')
           | (Throw e, _) => (Throw e, d)
           end.

(** [deleteMany] of the quiz's order, then [createMany] of the new one:
    the order index is an [Int] column, user ids and order indices are
    unique within the quiz (the unique indexes are checked as the rows
    are inserted), and every row references a user and the quiz (the
    foreign keys are checked when the statement ends). *)
Definition replaceParticipantOrder (quizId : Id) (order : list Participant) : M DB unit :=
  transaction
    (modify (fun d => set_participantOrders
                        (List.filter (fun p => negb (String.eqb (po_quizId p) quizId))
                                     (participantOrders d)) d) ;;
     do d <- get;
     match order with
     | [] => ret tt
     | _ =>
         if negb (forallb (fun p => Prisma.int4 (p_orderIndex p)) order) then
           throw (PrismaError "P2020")
         else if distinctb (map p_userId order) && distinctZ (map p_orderIndex order) then
           if forallb (fun p => match Prisma.user_findUnique (p_userId p) d with
                                | Some _ => true
                                | None => false
                                end) order
              && match Prisma.quiz_findUnique quizId d with Some _ => true | None => false end
           then
             modify (set_participantOrders
                       (participantOrders d ++
                          map (fun p => {| po_quizId := quizId; po_userId := p_userId p;
                                           orderIndex := p_orderIndex p |}) order))
           else throw (PrismaError "P2003")
         else throw (PrismaError "P2002")
     end).

(** The [catch] block builds a log line from [payload.quizId] and then
    emits: with the body that a command carries, the log line reads a
    field and the block cannot throw.  (The same holds for
    [handleStartRound]; for a message without a body see
    [handleWithoutBody].) *)
Definition handleUpdateParticipantOrder (client quizId : Id) (order : list (Id * Z))
  : M World unit :=
  let participantOrder :=
    map (fun p => {| p_userId := fst p; p_username := None; p_orderIndex := snd p |}) order in
  try_catch
    (do userInfo <- gets (fun w => connectedUsers w !! client);
     if negb (is_role MODERATOR userInfo) then
       emit (ToClient client) "error" (message "Only moderators can update participant order")
     else
       do activeRound <-
         liftDB (gets (fun d => find (fun r => String.eqb (round_quizId r) quizId
                                              && round_isActive r) (rounds d)));
       match activeRound with
       | Some _ =>
           emit (ToClient client) "error"
             (message "Cannot change order after round has started")
       | None =>
           liftDB (replaceParticipantOrder quizId participantOrder) ;;
           redis_set (RedisService.cacheParticipantOrder quizId participantOrder) ;;
           emit (ToRoom quizId) "participantOrderUpdated"
             (JObj [("participantOrder", JArr (map JParticipant participantOrder))])
       end)
    (fun error => emit (ToClient client) "error"
                    (JObj [("message", JStr "Failed to update participant order");
                           ("error", JMessage error)])).

(** [authenticatedUser] is [client.data.user], which the guard has set
    from the token; joining the socket room itself is not modelled, the
    events name the room they are sent to. *)
Definition handleJoinQuiz (client : Id) (authenticatedUser : option User) (quizId : Id)
  : M World unit :=
  try_catch
    (match authenticatedUser with
     | None =>
         emit (ToClient client) "error"
           (JObj [("message", JStr "Authentication required"); ("code", JStr "AUTH_REQUIRED")])
     | Some authenticated =>
         if String.eqb quizId "" then
           emit (ToClient client) "error"
             (JObj [("message", JStr "Invalid request. QuizId is required.");
                    ("code", JStr "INVALID_PAYLOAD");
                    ("expectedFormat", JObj [("quizId", JStr "string")])])
         else
           do found <- liftDB (gets (Prisma.user_findUnique (user_id authenticated)));
           match found with
           | None => emit (ToClient client) "error" (message "User not found")
           | Some user =>
               do quiz <- liftDB (gets (Prisma.quiz_findUnique quizId));
               match quiz with
               | None =>
                   emit (ToClient client) "error"
                     (JObj [("message", JStr "Quiz not found");
                            ("code", JStr "QUIZ_NOT_FOUND")])
               | Some qz =>
                   if UserRole_eqb (role user) CONTESTANT
                      && negb (match user_quizId user with
                               | Some q => String.eqb q quizId
                               | None => false
                               end)
                   then emit (ToClient client) "error" (message "Not authorized for this quiz")
                   else
                     modify (fun w => set_connectedUsers
                                        (<[client := {| ui_userId := user_id user;
                                                        ui_role := role user;
                                                        ui_quizId := Some quizId;
                                                        ui_user := user |}]>
                                           (connectedUsers w)) w) ;;
                     do participantOrder <- participantOrder_or_default quizId;
                     emit (ToClient client) "quizJoined"
                       (JObj ([("quizId", JStr quizId);
                               ("role", JStr (UserRole_name (role user)));
                               ("username", JStr (username user))]
                              ++ (if UserRole_eqb (role user) AUDIENCE then []
                                  else [("participantOrder",
                                         JArr (map JParticipant participantOrder))])
                              ++ [("isActive", JBool (quiz_isActive qz))])) ;;
                     emit (ToRoomExcept quizId client) "userJoined"
                       (JObj [("userId", JStr (user_id user));
                              ("username", JStr (username user));
                              ("role", JStr (UserRole_name (role user)))])
               end
           end
     end)
    (fun error => emit (ToClient client) "error"
                    (JObj [("message", JStr "Failed to join quiz");
                           ("error", JMessage error)])).

(** The message id (time and a random suffix) is left out of the payload. *)
Definition handleSendMessage (client quizId text : string) : M World unit :=
  try_catch
    (do userInfo <- gets (fun w => connectedUsers w !! client);
     match userInfo with
     | None => emit (ToClient client) "error" (message "Authentication required")
     | Some info =>
         if String.eqb quizId "" || String.eqb text "" then
           emit (ToClient client) "error"
             (JObj [("message", JStr "Invalid message format. QuizId and message are required.");
                    ("code", JStr "INVALID_PAYLOAD");
                    ("expectedFormat", JObj [("quizId", JStr "string");
                                             ("message", JStr "string")])])
         else if negb (match ui_quizId info with
                       | Some q => String.eqb q quizId
                       | None => false
                       end) then
           emit (ToClient client) "error"
             (JObj [("message", JStr "You must join the quiz room before sending messages");
                    ("code", JStr "NOT_IN_ROOM")])
         else
           emit (ToRoom quizId) "messageReceived"
             (JObj [("quizId", JStr quizId); ("userId", JStr (ui_userId info));
                    ("username", JStr (username (ui_user info)));
                    ("role", JStr (UserRole_name (ui_role info)));
                    ("message", JStr text)]) ;;
           emit (ToClient client) "messageSent"
             (JObj [("success", JBool true); ("quizId", JStr quizId);
                    ("message", JStr text)])
     end)
    (fun error => emit (ToClient client) "error"
                    (JObj [("message", JStr "Failed to send message");
                           ("code", JStr "SEND_FAILED"); ("details", JMessage error)])).

(** *** What the gateway can be asked to do

    One constructor for each [@SubscribeMessage] handler of the class,
    [Unsubscribed] for a message whose name no handler subscribes to
    (socket.io drops it), and [TimerFired] for a callback that
    [processAnswer] has scheduled and that now runs, once.  A command
    carries the body of its message, with the fields of the handler's
    payload type; a message without a body is no command, what the
    handlers do with one is [handleWithoutBody] below.  The connection
    hooks ([handleConnection], [handleDisconnect]) register and drop
    clients in [connectedUsers]; clients are taken as connected. *)
Inductive Command : Type :=
| JoinQuiz (client : Id) (authenticatedUser : option User) (quizId : Id)
| UpdateParticipantOrder (client quizId : Id) (order : list (Id * Z))
| StartRound (client quizId roundId : Id)
| CheckRoundReadiness (client quizId roundId : Id)
| SendMessage (client quizId text : string)
| SubmitSimultaneousAnswer (client quizId roundId questionId : Id) (selected questionNumber : Z)
| SkipQuestion (client quizId roundId : Id) (questionNumber : Z)
| EndSimultaneousSession (client quizId roundId : Id)
| AutoConfirmAnswer (client quizId roundId questionId : Id) (selected : Z)
| SelectAnswer (client quizId roundId questionId : Id) (selected : Z)
| ConfirmAnswer (client quizId roundId questionId : Id)
| Unsubscribed (client : Id) (name : string) (body : JVal)
| TimerFired (quizId roundId : Id).

Fixpoint remove_first (quizId roundId : Id) (l : list (Id * Id)) : list (Id * Id) :=
  match l with
  | [] => []
  | t :: l' =>
      if String.eqb (fst t) quizId && String.eqb (snd t) roundId then l'
      else t :: remove_first quizId roundId l'
  end.

Definition handle (c : Command) : M World unit :=
  match c with
  | JoinQuiz client u quizId => handleJoinQuiz client u quizId
  | UpdateParticipantOrder client quizId order => handleUpdateParticipantOrder client quizId order
  | StartRound client quizId roundId => handleStartRound client quizId roundId
  | CheckRoundReadiness client quizId roundId => handleCheckRoundReadiness client quizId roundId
  | SendMessage client quizId text => handleSendMessage client quizId text
  | SubmitSimultaneousAnswer client quizId roundId questionId selected n =>
      handleSubmitSimultaneousAnswer client quizId roundId questionId selected n
  | SkipQuestion client quizId roundId n => handleSkipQuestion client quizId roundId n
  | EndSimultaneousSession client quizId roundId =>
      handleEndSimultaneousSession client quizId roundId
  | AutoConfirmAnswer client quizId roundId questionId selected =>
      handleAutoConfirmAnswer client quizId roundId questionId selected
  | SelectAnswer client quizId roundId questionId selected =>
      handleSelectAnswer client quizId roundId questionId selected
  | ConfirmAnswer client quizId roundId questionId =>
      handleConfirmAnswer client quizId roundId questionId
  | Unsubscribed _ _ _ => ret tt
  | TimerFired quizId roundId =>
      do pending <- gets timers;
      if existsb (fun t => String.eqb (fst t) quizId && String.eqb (snd t) roundId) pending
      then
        modify (fun w => set_timers (remove_first quizId roundId (timers w)) w) ;;
        autoAdvanceAfterBonus quizId roundId
      else ret tt
  end.

(** The world after a command, and after a sequence of commands. *)
Definition step (c : Command) (w : World) : World := snd (handle c w).
Definition run (cs : list Command) (w : World) : World := fold_left (fun w c => step c w) cs w.

(** *** Disconnection

    [handleDisconnect]: the client's entry is dropped and, if it had
    joined a quiz, the others in that room are told (the time stamp is
    left out of the payload). *)
Definition handleDisconnect (client : Id) : M World unit :=
  do userConnection <- gets (fun w => connectedUsers w !! client);
  match userConnection with
  | Some info =>
      modify (fun w => set_connectedUsers (delete client (connectedUsers w)) w) ;;
      match ui_quizId info with
      | Some quizId =>
          if String.eqb quizId "" then ret tt
          else
            emit (ToRoomExcept quizId client) "userDisconnected"
              (JObj [("userId", JStr (user_id (ui_user info)));
                     ("username", JStr (username (ui_user info)));
                     ("role", JStr (UserRole_name (role (ui_user info))))])
      | None => ret tt
      end
  | None => ret tt
  end.

(** *** Messages without a body

    A message that is sent without data reaches its handler with
    [payload] undefined (or [null]), and reading a property of it throws
    a [TypeError].  [handleJoinQuiz] and [handleSendMessage] test
    [!payload] before they read it.  The other handlers check the
    sender's role and then read [payload], inside their [try]; their
    [catch] block reports the failure to the client, but those of
    [handleUpdateParticipantOrder] and [handleStartRound] first build a
    log line from [payload.quizId], so that they throw again before
    their [client.emit]. *)
Inductive Subscription : Type :=
| OnJoinQuiz | OnUpdateParticipantOrder | OnStartRound | OnCheckRoundReadiness
| OnSendMessage | OnSubmitSimultaneousAnswer | OnSkipQuestion | OnEndSimultaneousSession
| OnAutoConfirmAnswer | OnSelectAnswer | OnConfirmAnswer.

Definition handleWithoutBody (name : Subscription) (client : Id)
    (authenticatedUser : option User) : M World unit :=
  let guarded (r : UserRole) (refusal : string) : M World unit :=
    do userInfo <- gets (fun w => connectedUsers w !! client);
    if negb (is_role r userInfo) then emit (ToClient client) "error" (message refusal)
    else throw TypeError in
  let reported (failure : string) (error : Exn) : M World unit :=
    emit (ToClient client) "error"
      (JObj [("message", JStr failure); ("details", JMessage error)]) in
  match name with
  | OnJoinQuiz =>
      try_catch
        (match authenticatedUser with
         | None =>
             emit (ToClient client) "error"
               (JObj [("message", JStr "Authentication required");
                      ("code", JStr "AUTH_REQUIRED")])
         | Some _ =>
             emit (ToClient client) "error"
               (JObj [("message", JStr "Invalid request. QuizId is required.");
                      ("code", JStr "INVALID_PAYLOAD");
                      ("expectedFormat", JObj [("quizId", JStr "string")])])
         end)
        (fun error => emit (ToClient client) "error"
                        (JObj [("message", JStr "Failed to join quiz");
                               ("error", JMessage error)]))
  | OnSendMessage =>
      try_catch
        (do userInfo <- gets (fun w => connectedUsers w !! client);
         match userInfo with
         | None => emit (ToClient client) "error" (message "Authentication required")
         | Some _ =>
             emit (ToClient client) "error"
               (JObj [("message",
                       JStr "Invalid message format. QuizId and message are required.");
                      ("code", JStr "INVALID_PAYLOAD");
                      ("expectedFormat", JObj [("quizId", JStr "string");
                                               ("message", JStr "string")])])
         end)
        (fun error => emit (ToClient client) "error"
                        (JObj [("message", JStr "Failed to send message");
                               ("code", JStr "SEND_FAILED"); ("details", JMessage error)]))
  | OnUpdateParticipantOrder =>
      try_catch (guarded MODERATOR "Only moderators can update participant order")
                (fun _ => throw TypeError)
  | OnStartRound =>
      try_catch (guarded MODERATOR "Only moderators can start rounds")
                (fun _ => throw TypeError)
  | OnCheckRoundReadiness =>
      try_catch (guarded MODERATOR "Only moderators can check round readiness")
                (reported "Failed to check round readiness")
  | OnSubmitSimultaneousAnswer =>
      try_catch (guarded CONTESTANT "Only contestants can submit answers")
                (reported "Failed to submit answer")
  | OnSkipQuestion =>
      try_catch (guarded CONTESTANT "Only contestants can skip questions")
                (reported "Failed to skip question")
  | OnEndSimultaneousSession =>
      try_catch (guarded CONTESTANT "Only contestants can end sessions")
                (reported "Failed to end session")
  | OnAutoConfirmAnswer =>
      try_catch (guarded MODERATOR "Only moderators can auto-confirm answers")
                (reported "Failed to auto-confirm answer")
  | OnSelectAnswer =>
      try_catch (guarded CONTESTANT "Only contestants can select answers")
                (reported "Failed to select answer")
  | OnConfirmAnswer =>
      try_catch (guarded MODERATOR "Only moderators can confirm answers")
                (reported "Failed to confirm answer")
  end.

End Gateway.

(** ** Definitions used by the statements *)

(** The scoring table of the specification: mode, kind, correct, points. *)
Inductive Mode := Sequential | Simultaneous.

Definition mode_of (t : QuizType) : Mode :=
  match t with
  | simultaneous => Simultaneous
  | _ => Sequential
  end.

Definition pointsFor (m : Mode) (kind : AnswerType) (correct : bool) : option Z :=
  match m, kind, correct with
  | Simultaneous, normal, true => Some 5
  | Simultaneous, normal, false => Some 0
  | Sequential, normal, true => Some 2
  | Sequential, normal, false => Some 0
  | Sequential, bonus, true => Some 1
  | Sequential, bonus, false => Some 0
  | Sequential, original_return, true => Some 2
  | Sequential, original_return, false => Some 0
  | Simultaneous, _, _ => None
  end.

(** The kind of an answer of the table, by the round's mode and the
    bonus state of the quiz when the answer is scored: in a sequential
    round the bonus participant's answer while the bonus is pending is
    the bonus answer, the original participant's answer once the bonus
    is answered is the original's return, and every other answer is
    normal; in simultaneous mode every answer is normal. *)
Definition answerKind (m : Mode) (bs : option BonusState) (userId : Id) : AnswerType :=
  match m, bs with
  | Simultaneous, _ => normal
  | Sequential, Some b =>
      if bs_isActive b && String.eqb (bonusUserId b) userId then bonus
      else if negb (bs_isActive b) && String.eqb (originalUserId b) userId
           then original_return
           else normal
  | Sequential, None => normal
  end.

(** A computation keeps a relation between the state before and after,
    whatever it returns or throws. *)
Definition preserves {S A} (R : S -> S -> Prop) (m : M S A) : Prop :=
  forall s, R s (snd (m s)).

(** The responses of a participant to a question. *)
Definition responses_of (userId questionId : Id) (d : DB) : list Response :=
  List.filter (fun r => String.eqb (resp_userId r) userId
                        && String.eqb (resp_questionId r) questionId) (responses d).

Definition one_response_per_pair (d : DB) : Prop :=
  forall userId questionId, (length (responses_of userId questionId d) <= 1)%nat.

Definition positions_of (quizId : Id) (d : DB) : list QuizPosition :=
  List.filter (fun p => String.eqb (pos_quizId p) quizId) (quizPositions d).

Definition positions_elsewhere (quizId : Id) (d : DB) : list QuizPosition :=
  List.filter (fun p => negb (String.eqb (pos_quizId p) quizId)) (quizPositions d).

(** What scoring (round score, leaderboard, positions, winner) leaves
    alone: every table but [scores], [quizPositions] and [quizzes]. *)
Definition scoring_frame (d d' : DB) : Prop :=
  responses d' = responses d /\ questions d' = questions d /\ users d' = users d
  /\ rounds d' = rounds d /\ participantOrders d' = participantOrders d.

(** The database is as before. *)
Definition db_frame (w w' : World) : Prop := db w' = db w.

(** The part of the session state that decides whose turn it is: the
    cached order, active participant, question index and round questions. *)
Definition turn_frame (w w' : World) : Prop :=
  c_participants (cache w') = c_participants (cache w)
  /\ c_activeParticipant (cache w') = c_activeParticipant (cache w)
  /\ c_currentQuestion (cache w') = c_currentQuestion (cache w)
  /\ c_roundQuestions (cache w') = c_roundQuestions (cache w)
  /\ connectedUsers w' = connectedUsers w.

(** No event is sent. *)
Definition silent (w w' : World) : Prop := emitted w' = emitted w.





(** No quiz gains a bonus state. *)
Definition bonus_frame (w w' : World) : Prop := bonusState w' ⊆ bonusState w.

(** The unanswered questions of a quiz that have the type a sequential
    round asks for. *)
Definition available_for (quizId : Id) (roundType : QuizType) (d : DB) : list Question :=
  List.filter (fun q => String.eqb (question_quizId q) quizId
                        && QuestionType_eqb (questionType q)
                             (QuestionsService.mapRoundTypeToQuestionType roundType)
                        && negb (isAnswered q)) (questions d).

(** ** A quiz to run the code on

    Quiz [qz]: a moderator, contestants A, B and C, round [r1]
    (multiple choice) and round [r2] (yes/no) with one question per
    participant, four questions of each type. *)
Module Examples.

Import Gateway.

Definition user (id : Id) (r : UserRole) : User :=
  {| user_id := id; username := id; user_quizId := Some "qz"; role := r |}.

Definition mc (id : Id) (number answer : Z) : Question :=
  {| question_id := id; question_quizId := "qz"; questionNumber := number;
     questionText := "Which one?"; questionType := qt_multiple_choice;
     options := ["a"; "b"; "c"; "d"]; correctAnswerIndex := answer; isAnswered := false |}.

Definition yn (id : Id) (number answer : Z) : Question :=
  {| question_id := id; question_quizId := "qz"; questionNumber := number;
     questionText := "Is it?"; questionType := qt_yes_no;
     options := ["Yes"; "No"]; correctAnswerIndex := answer; isAnswered := false |}.

Definition all_questions : list Question :=
  [mc "m2" 2 1; mc "m1" 1 0; yn "y1" 5 0; mc "m3" 3 2; yn "y2" 6 1;
   mc "m4" 4 3; yn "y3" 7 0; yn "y4" 8 1].

Definition round1 : Round :=
  {| round_id := "r1"; round_quizId := "qz"; roundNumber := 1; quizType := multiple_choice;
     timePerQuestion := Some 30; questionsPerParticipant := 1%nat; round_isActive := false |}.

Definition round2 : Round :=
  {| round_id := "r2"; round_quizId := "qz"; roundNumber := 2; quizType := yes_no;
     timePerQuestion := Some 15; questionsPerParticipant := 1%nat; round_isActive := false |}.

Definition database : DB :=
  {| quizzes := [{| quiz_id := "qz"; quiz_name := "Teenage quiz"; quiz_isActive := true;
                    winnerId := None |}];
     rounds := [round1; round2];
     questions := all_questions;
     users := [user "mod" MODERATOR; user "A" CONTESTANT; user "B" CONTESTANT;
               user "C" CONTESTANT];
     responses := []; scores := []; quizPositions := []; participantOrders := [] |}.

Definition session_cache : Cache :=
  {| c_questions := {["qz" := all_questions]}; c_roundQuestions := ∅; c_participants := ∅;
     c_activeParticipant := ∅; c_currentQuestion := ∅; c_answeredQuestions := ∅;
     c_selectedAnswer := ∅; c_quizCache := ∅ |}.

Definition connection (id : Id) (r : UserRole) : UserInfo :=
  {| ui_userId := id; ui_role := r; ui_quizId := Some "qz"; ui_user := user id r |}.

(** Everybody is connected; nothing has started. *)
Definition lobby : World :=
  {| db := database; cache := session_cache; bonusState := ∅;
     connectedUsers := {["cm" := connection "mod" MODERATOR; "ca" := connection "A" CONTESTANT;
                         "cb" := connection "B" CONTESTANT; "cc" := connection "C" CONTESTANT]};
     emitted := []; timers := [] |}.

(** The moderator has fixed the order A, B, C and started round 1. *)
Definition started : World :=
  run [UpdateParticipantOrder "cm" "qz" [("A", 0); ("B", 1); ("C", 2)];
       StartRound "cm" "qz" "r1"] lobby.

(** A has selected option 0 (the right one) for question m1. *)
Definition selected : World := step (SelectAnswer "ca" "qz" "r1" "m1" 0) started.



(** A has selected option 3 (a wrong one) and the moderator has confirmed. *)
Definition answered_wrong : World :=
  run [SelectAnswer "ca" "qz" "r1" "m1" 3; ConfirmAnswer "cm" "qz" "r1" "m1"] started.

(** Round 1 played to its end: A, B and C each answer m1. *)
Definition round1_played : World :=
  run [SelectAnswer "ca" "qz" "r1" "m1" 0; ConfirmAnswer "cm" "qz" "r1" "m1";
       SelectAnswer "cb" "qz" "r1" "m1" 1; ConfirmAnswer "cm" "qz" "r1" "m1";
       SelectAnswer "cc" "qz" "r1" "m1" 0; ConfirmAnswer "cm" "qz" "r1" "m1"] started.

Definition order_ABC : list Participant :=
  [{| p_userId := "A"; p_username := None; p_orderIndex := 0 |};
   {| p_userId := "B"; p_username := None; p_orderIndex := 1 |};
   {| p_userId := "C"; p_username := None; p_orderIndex := 2 |}].

Definition round1_active : Round :=
  {| round_id := "r1"; round_quizId := "qz"; roundNumber := 1; quizType := multiple_choice;
     timePerQuestion := Some 30; questionsPerParticipant := 1%nat; round_isActive := true |}.

Definition round_two_each : Round :=
  {| round_id := "r3"; round_quizId := "qz"; roundNumber := 3; quizType := simultaneous;
     timePerQuestion := Some 45; questionsPerParticipant := 2%nat; round_isActive := false |}.

(** The quiz once that simultaneous round is created, nothing started;
    the six questions that the question supply gives it for three
    participants, and the default order of the quiz. *)
Definition lobby_three_rounds : World :=
  set_db (set_rounds [round1; round2; round_two_each] database) lobby.

Definition pool_of_six : list Question :=
  [mc "m1" 1 0; mc "m2" 2 1; mc "m3" 3 2; mc "m4" 4 3; yn "y1" 5 0; yn "y2" 6 1].

Definition default_ABC : list Participant :=
  [{| p_userId := "A"; p_username := Some "A"; p_orderIndex := 0 |};
   {| p_userId := "B"; p_username := Some "B"; p_orderIndex := 1 |};
   {| p_userId := "C"; p_username := Some "C"; p_orderIndex := 2 |}].

Definition report_of {A} (o : Outcome A) : option A :=
  match o with
  | Ok r => Some r
  | Throw _ => None
  end.


Definition response_of (o : Outcome Response) : Response :=
  match o with
  | Ok r => r
  | Throw _ => {| resp_userId := ""; resp_quizId := ""; resp_roundId := "";
                  resp_questionId := ""; selectedIndex := 0; isCorrect := false;
                  pointsEarned := 0 |}
  end.

(** The leaderboard once round 1 is played, and C's entry in it. *)
Definition leaderboard_after_round1 : list LeaderboardEntry :=
  match fst (QuizService.getQuizLeaderboard "qz" (db round1_played)) with
  | Ok lb => lb
  | Throw _ => []
  end.

Definition entry_of_C : LeaderboardEntry :=
  {| le_position := 2;
     le_entry :=
       {| ut_user := {| us_id := "C"; us_username := "C"; us_role := CONTESTANT |};
          totalScore := 2; totalQuestionsAnswered := 1; totalQuestionsCorrect := 1;
          ut_rounds := [{| re_roundNumber := 1; re_roundScore := 2;
                           re_questionsAnswered := 1; re_questionsCorrect := 1 |}] |} |}.

(** Two more questions for the quiz, and the ids they will get. *)
Definition new_ids (i : nat) : Id :=
  match i with
  | O => "m5"
  | S O => "y5"
  | _ => "z"
  end.

Definition more_questions : list CreateQuestionDto :=
  [{| dto_questionText := "Which?"; dto_questionType := qt_multiple_choice;
      dto_options := ["a"; "b"; "c"]; dto_correctAnswerIndex := 2 |};
   {| dto_questionText := "Is it?"; dto_questionType := qt_yes_no;
      dto_options := ["Yes"; "No"]; dto_correctAnswerIndex := 1 |}].

(** The round log before anything is answered. *)
Definition empty_log : RedisService.AnswerLog :=
  {| RedisService.l_lists := ∅; RedisService.l_counts := ∅ |}.

(** The stored question [y1], and an update of it that gives only a
    correct answer index. *)
Definition y1 : Question := yn "y1" 5 0.

Definition index_only : UpdateQuestionDto :=
  {| upd_questionText := None; upd_questionType := None; upd_options := None;
     upd_correctAnswerIndex := Some 7; upd_isAnswered := None |}.

End Examples.

(** ** Definitions used by the further properties *)

(** The responses of a participant in a round of a quiz, as
    [calculateRoundScore] selects them. *)
Definition responses_for (userId quizId roundId : Id) (d : DB) : list Response :=
  List.filter (fun r => String.eqb (resp_userId r) userId
                        && String.eqb (resp_quizId r) quizId
                        && String.eqb (resp_roundId r) roundId) (responses d).

(** A score row says what the stored responses of its participant and
    round add up to. *)
Definition row_matches (d : DB) (s : Score) : Prop :=
  roundScore s
  = QuizService.sum_points (responses_for (score_userId s) (score_quizId s) (score_roundId s) d)
  /\ questionsAnswered s
     = length (responses_for (score_userId s) (score_quizId s) (score_roundId s) d)
  /\ questionsCorrect s
     = length (List.filter isCorrect
                 (responses_for (score_userId s) (score_quizId s) (score_roundId s) d)).

Definition scores_match_responses (d : DB) : Prop :=
  forall s, In s (scores d) -> row_matches d s.

(** What the gateway does to the stored data, at most: questions and
    users stay as they are, the responses of before are all kept in
    their order, no (participant, question) pair gains a second one, and
    score rows that matched the responses still do. *)
Definition stored_frame (d d' : DB) : Prop :=
  questions d' = questions d /\ users d' = users d
  /\ (exists added, responses d' = responses d ++ added)
  /\ (one_response_per_pair d -> one_response_per_pair d')
  /\ (scores_match_responses d -> scores_match_responses d').

(** The same for a world, with the events: nothing sent is taken back. *)
Definition history_frame (w w' : World) : Prop :=
  stored_frame (db w) (db w') /\ exists sent, emitted w' = emitted w ++ sent.

(** The client that sends a command; a timer callback has none. *)
Definition sender (c : Gateway.Command) : option Id :=
  match c with
  | Gateway.JoinQuiz client _ _ | Gateway.UpdateParticipantOrder client _ _
  | Gateway.StartRound client _ _ | Gateway.CheckRoundReadiness client _ _
  | Gateway.SendMessage client _ _
  | Gateway.SubmitSimultaneousAnswer client _ _ _ _ _
  | Gateway.SkipQuestion client _ _ _ | Gateway.EndSimultaneousSession client _ _
  | Gateway.AutoConfirmAnswer client _ _ _ _ | Gateway.SelectAnswer client _ _ _ _
  | Gateway.ConfirmAnswer client _ _ _ | Gateway.Unsubscribed client _ _ => Some client
  | Gateway.TimerFired _ _ => None
  end.

(** The role a handler asks of the sender before it does anything. *)
Definition required_role (c : Gateway.Command) : option UserRole :=
  match c with
  | Gateway.UpdateParticipantOrder _ _ _ | Gateway.StartRound _ _ _
  | Gateway.CheckRoundReadiness _ _ _ | Gateway.AutoConfirmAnswer _ _ _ _ _
  | Gateway.ConfirmAnswer _ _ _ _ => Some MODERATOR
  | Gateway.SubmitSimultaneousAnswer _ _ _ _ _ _ | Gateway.SkipQuestion _ _ _ _
  | Gateway.EndSimultaneousSession _ _ _ | Gateway.SelectAnswer _ _ _ _ _ => Some CONTESTANT
  | _ => None
  end.

(** The subscriptions whose [catch] block reads the payload again. *)
Definition catch_reads_payload (name : Gateway.Subscription) : bool :=
  match name with
  | Gateway.OnUpdateParticipantOrder | Gateway.OnStartRound => true
  | _ => false
  end.

(** The world [w'] is [w] with one more event: an [error] sent to
    [client] alone. *)
Definition refused (client : Id) (w w' : World) : Prop :=
  exists payload,
    w' = set_emitted (emitted w ++ [{| ev_target := ToClient client; ev_name := "error";
                                       ev_payload := payload |}]) w.

(** The cached questions of every quiz (the entries that
    [validateAnswer] reads) are as before. *)
Definition quizQuestions_frame (w w' : World) : Prop :=
  c_questions (cache w') = c_questions (cache w).

(** The rows and the cache entry that an order given as
    [(userId, orderIndex)] pairs stands for. *)
Definition order_rows (quizId : Id) (order : list (Id * Z)) : list ParticipantOrder :=
  map (fun p => {| po_quizId := quizId; po_userId := fst p; orderIndex := snd p |}) order.

Definition order_entries (order : list (Id * Z)) : list Participant :=
  map (fun p => {| p_userId := fst p; p_username := None; p_orderIndex := snd p |}) order.

(** The default order entry and row of a contestant at an index. *)
Definition default_entry (index : nat) (user : User) : Participant :=
  {| p_userId := user_id user; p_username := Some (username user);
     p_orderIndex := Z.of_nat index |}.

Definition entry_row (quizId : Id) (p : Participant) : ParticipantOrder :=
  {| po_quizId := quizId; po_userId := p_userId p; orderIndex := p_orderIndex p |}.

(** The totals of a user over a list of score rows, summed as
    [calculateQuizTotalScore] sums them. *)
Definition scores_of_user (userId : Id) (l : list Score) : list Score :=
  List.filter (fun s => String.eqb (score_userId s) userId) l.

Definition totals_match (userId : Id) (t : UserTotal) (l : list Score) : Prop :=
  us_id (ut_user t) = userId
  /\ totalScore t
     = fold_left (fun total score => total + roundScore score) (scores_of_user userId l) 0
  /\ totalQuestionsAnswered t
     = fold_left (fun total score => (total + questionsAnswered score)%nat)
         (scores_of_user userId l) 0%nat
  /\ totalQuestionsCorrect t
     = fold_left (fun total score => (total + questionsCorrect score)%nat)
         (scores_of_user userId l) 0%nat.

(** A row of the leaderboard query carries the user that its score names. *)
Definition row_ok (row : Score * UserSummary * Z) : Prop :=
  us_id (snd (fst row)) = score_userId (fst (fst row)).

(** The rows that a bulk creation makes from its requests: the [i]-th
    gets the [i]-th generated id and the number [start + i]. *)
Definition bulk_rows (cuid : nat -> Id) (quizId : Id) (start : Z) (first : nat)
    (dtos : list CreateQuestionDto) : list Question :=
  imap (fun i dto => QuestionsService.new_question (cuid (first + i)%nat) quizId
                       (start + Z.of_nat (first + i)) dto) dtos.

(** The round log is consistent: for every participant of every round
    (of ids without a colon), the question count is the number of
    questions listed as answered by the participant, that list has no
    question twice, and each of its questions is among the answered
    questions of the round, which has no question twice either. *)
Definition log_consistent (l : RedisService.AnswerLog) : Prop :=
  forall quizId roundId userId,
    colon_free quizId -> colon_free roundId -> colon_free userId ->
    RedisService.getParticipantQuestionCount quizId roundId userId l
    = length (RedisService.getParticipantAnsweredQuestions quizId roundId userId l)
    /\ NoDup (RedisService.getParticipantAnsweredQuestions quizId roundId userId l)
    /\ NoDup (RedisService.getAnsweredQuestionIds quizId roundId l)
    /\ (forall questionId,
           In questionId (RedisService.getParticipantAnsweredQuestions quizId roundId userId l) ->
           In questionId (RedisService.getAnsweredQuestionIds quizId roundId l)).

(** * Properties *)

Import Gateway.

(** ** Reasoning about the monad *)

Lemma bind_Ok {S A B} (m : M S A) (k : A -> M S B) s b s' :
  bind m k s = (Ok b, s') ->
  exists a s1, m s = (Ok a, s1) /\ k a s1 = (Ok b, s').
Proof.
  unfold bind. destruct (m s) as [[a | e] s1]; intros H.
  - exists a, s1. split; [reflexivity | exact H].
  - discriminate H.
Qed.

Lemma liftDB_Ok {A} (m : M DB A) w a w' :
  liftDB m w = (Ok a, w') ->
  exists d', m (db w) = (Ok a, d') /\ w' = set_db d' w.
Proof.
  unfold liftDB. destruct (m (db w)) as [r d'] eqn:E. intros H.
  inversion H; subst. exists d'. split; reflexivity.
Qed.

Ltac inv_bind H :=
  let a := fresh "a" in
  let s1 := fresh "s" in
  let H1 := fresh "Hm" in
  apply bind_Ok in H; destruct H as (a & s1 & H1 & H).

Tactic Notation "inv_bind" hyp(H) "as" ident(a) ident(s) ident(Hm) :=
  apply bind_Ok in H; destruct H as (a & s & Hm & H).

Ltac inv_pair H := inversion H; subst; clear H.

Section Preserves.
Context {S : Type} (R : S -> S -> Prop).
Hypothesis R_refl : forall s, R s s.
Hypothesis R_trans : forall a b c, R a b -> R b c -> R a c.

Lemma preserves_ret {A} (a : A) : preserves R (ret a).
Proof. intros s. apply R_refl. Qed.

Lemma preserves_throw {A} e : preserves R (@throw S A e).
Proof. intros s. apply R_refl. Qed.

Lemma preserves_get : preserves R (@get S).
Proof. intros s. apply R_refl. Qed.

Lemma preserves_gets {A} (f : S -> A) : preserves R (gets f).
Proof. intros s. apply R_refl. Qed.

Lemma preserves_modify (f : S -> S) : (forall s, R s (f s)) -> preserves R (modify f).
Proof. intros H s. apply H. Qed.

Lemma preserves_bind {A B} (m : M S A) (k : A -> M S B) :
  preserves R m -> (forall a, preserves R (k a)) -> preserves R (bind m k).
Proof.
  intros Hm Hk s. unfold bind. specialize (Hm s).
  destruct (m s) as [[a | e] s1]; simpl in *.
  - eapply R_trans; [exact Hm | apply Hk].
  - exact Hm.
Qed.

Lemma preserves_try_catch {A} (m : M S A) (h : Exn -> M S A) :
  preserves R m -> (forall e, preserves R (h e)) -> preserves R (try_catch m h).
Proof.
  intros Hm Hh s. unfold try_catch. specialize (Hm s).
  destruct (m s) as [[a | e] s1]; simpl in *.
  - exact Hm.
  - eapply R_trans; [exact Hm | apply Hh].
Qed.
End Preserves.

Ltac pres_step Rrefl Rtrans :=
  first
    [ apply (preserves_ret _ Rrefl)
    | apply (preserves_throw _ Rrefl)
    | apply (preserves_get _ Rrefl)
    | apply (preserves_gets _ Rrefl)
    | apply (preserves_bind _ Rtrans)
    | apply (preserves_try_catch _ Rtrans)
    | match goal with
      | |- preserves _ (let _ := _ in _) => cbv zeta
      | |- preserves _ (match ?x with _ => _ end) => destruct x
      end ].

Create HintDb frames.

Ltac pres Rrefl Rtrans :=
  repeat first
    [ match goal with |- forall _, _ => intro end
    | solve [auto with frames nocore]
    | pres_step Rrefl Rtrans ].

(** ** QuizService: what scoring reads and writes *)

Lemma scoring_frame_refl d : scoring_frame d d.
Proof. repeat split. Qed.

Lemma scoring_frame_trans a b c : scoring_frame a b -> scoring_frame b c -> scoring_frame a c.
Proof.
  unfold scoring_frame. intros (?&?&?&?&?) (?&?&?&?&?). repeat split; congruence.
Qed.

Lemma score_upsert_frame userId quizId roundId rs qa qc :
  preserves scoring_frame (Prisma.score_upsert userId quizId roundId rs qa qc).
Proof.
  unfold Prisma.score_upsert.
  pres scoring_frame_refl scoring_frame_trans.
Qed.

Lemma calculateRoundScore_frame userId quizId roundId :
  preserves scoring_frame (QuizService.calculateRoundScore userId quizId roundId).
Proof.
  unfold QuizService.calculateRoundScore.
  pres scoring_frame_refl scoring_frame_trans.
Qed.

Lemma findQuizById_state id d : snd (QuizService.findQuizById id d) = d.
Proof.
  unfold QuizService.findQuizById, bind, get. simpl.
  destruct (Prisma.quiz_findUnique id d); reflexivity.
Qed.

Lemma score_findMany_include_state d0 l d :
  snd (QuizService.score_findMany_include d0 l d) = d.
Proof.
  revert d. induction l as [| s l IH]; intros d; simpl; [reflexivity |].
  destruct (QuizService.include_user_round d0 s); [| reflexivity].
  unfold bind. specialize (IH d).
  destruct (QuizService.score_findMany_include d0 l d) as [[a | e] d1]; simpl in *; exact IH.
Qed.

Lemma getQuizLeaderboard_state quizId d : snd (QuizService.getQuizLeaderboard quizId d) = d.
Proof.
  unfold QuizService.getQuizLeaderboard, bind.
  pose proof (findQuizById_state quizId d) as Hq.
  destruct (QuizService.findQuizById quizId d) as [[q | e] d1]; simpl in Hq; subst;
    [| reflexivity].
  unfold get.
  match goal with
  | |- context [QuizService.score_findMany_include ?a ?l ?b] =>
      pose proof (score_findMany_include_state a l b) as Hs;
      destruct (QuizService.score_findMany_include a l b) as [[r | e] d2]
  end; simpl in Hs; subst; reflexivity.
Qed.

Lemma getQuizLeaderboard_frame quizId :
  preserves scoring_frame (QuizService.getQuizLeaderboard quizId).
Proof. intros d. rewrite getQuizLeaderboard_state. apply scoring_frame_refl. Qed.

#[local] Hint Resolve score_upsert_frame calculateRoundScore_frame
  getQuizLeaderboard_frame : frames.

Lemma quiz_update_winnerId_frame quizId w :
  preserves scoring_frame (Prisma.quiz_update_winnerId quizId w).
Proof.
  unfold Prisma.quiz_update_winnerId.
  pres scoring_frame_refl scoring_frame_trans.
Qed.

Lemma updateQuizPositions_frame quizId :
  preserves scoring_frame (QuizService.updateQuizPositions quizId).
Proof.
  unfold QuizService.updateQuizPositions.
  pres scoring_frame_refl scoring_frame_trans.
Qed.

#[local] Hint Resolve quiz_update_winnerId_frame updateQuizPositions_frame : frames.

Lemma preserves_run {S A} (R : S -> S -> Prop) (m : M S A) s r s' :
  preserves R m -> m s = (r, s') -> R s s'.
Proof. intros H E. specialize (H s). rewrite E in H. exact H. Qed.

Lemma response_create_Ok r d a d' :
  Prisma.response_create r d = (Ok a, d') ->
  a = r /\ d' = set_responses (responses d ++ [r]) d
  /\ Prisma.response_findUnique (resp_userId r) (resp_questionId r) d = None.
Proof.
  unfold Prisma.response_create, bind, get, modify, ret, throw.
  destruct (negb _); [discriminate |].
  destruct (Prisma.user_findUnique _ d); [| discriminate].
  destruct (Prisma.question_findUnique _ d); [| discriminate].
  destruct (Prisma.quiz_findUnique _ d); [| discriminate].
  destruct (Prisma.response_findUnique _ _ d); [discriminate |].
  intros H. inv_pair H. auto.
Qed.

Lemma score_upsert_Ok userId quizId roundId rs qa qc d a d' :
  Prisma.score_upsert userId quizId roundId rs qa qc d = (Ok a, d') ->
  exists s, In s (scores d') /\ score_quizId s = quizId
            /\ quizzes d' = quizzes d /\ quizPositions d' = quizPositions d.
Proof.
  unfold Prisma.score_upsert, bind, get, modify, throw.
  destruct (existsb _ (scores d)) eqn:E.
  - intros H. inv_pair H. apply existsb_exists in E. destruct E as (s0 & Hin & Hk).
    eexists. split; [| split; [| split]]; [| | reflexivity | reflexivity].
    + simpl. apply in_or_app. right. left. reflexivity.
    + reflexivity.
  - destruct (Prisma.user_findUnique _ d); [| discriminate].
    destruct (Prisma.quiz_findUnique _ d); [| discriminate].
    destruct (Prisma.round_findUnique _ d); [| discriminate].
    intros H. inv_pair H. eexists. split; [| split; [| split]];
      [| | reflexivity | reflexivity].
    + simpl. apply in_or_app. right. left. reflexivity.
    + reflexivity.
Qed.

Lemma calculateRoundScore_Ok userId quizId roundId d a d' :
  QuizService.calculateRoundScore userId quizId roundId d = (Ok a, d') ->
  exists s, In s (scores d') /\ score_quizId s = quizId
            /\ quizzes d' = quizzes d /\ quizPositions d' = quizPositions d.
Proof.
  unfold QuizService.calculateRoundScore. intros H.
  inv_bind H as d0 d1 Hget. unfold get in Hget. inv_pair Hget.
  inv_bind H as u d2 Hup. unfold ret in H. inv_pair H.
  eapply score_upsert_Ok. exact Hup.
Qed.

(** *** The leaderboard *)

Lemma insert_by_length {A} (le : A -> A -> bool) x l :
  length (insert_by le x l) = S (length l).
Proof.
  induction l as [| y l IH]; simpl; [reflexivity |].
  destruct (le x y); simpl; [reflexivity | rewrite IH; reflexivity].
Qed.

Lemma sort_by_length {A} (le : A -> A -> bool) l : length (sort_by le l) = length l.
Proof.
  induction l as [| x l IH]; simpl; [reflexivity |].
  rewrite insert_by_length. f_equal. exact IH.
Qed.

Lemma insert_by_Permutation {A} (le : A -> A -> bool) x l :
  Permutation.Permutation (insert_by le x l) (x :: l).
Proof.
  induction l as [| y l IH]; simpl; [reflexivity |].
  destruct (le x y); [reflexivity |].
  rewrite IH. apply Permutation.perm_swap.
Qed.

Lemma sort_by_Permutation {A} (le : A -> A -> bool) l :
  Permutation.Permutation (sort_by le l) l.
Proof.
  induction l as [| x l IH]; simpl; [reflexivity |].
  rewrite insert_by_Permutation. constructor. exact IH.
Qed.

Lemma rank_length totals : length (QuizService.rank totals) = length totals.
Proof. unfold QuizService.rank. rewrite length_imap. apply sort_by_length. Qed.

Lemma add_score_length m row : (length m <= length (QuizService.add_score m row))%nat.
Proof.
  unfold QuizService.add_score. destruct row as [[s u] rn].
  rewrite length_map. destruct (QuizService.has_key _ m); [lia |].
  rewrite length_app. simpl. lia.
Qed.

Lemma add_score_nonempty m row : (0 < length (QuizService.add_score m row))%nat.
Proof.
  unfold QuizService.add_score. destruct row as [[s u] rn].
  rewrite length_map. destruct (QuizService.has_key _ m) eqn:E.
  - destruct m; [discriminate E | simpl; lia].
  - rewrite length_app. simpl. lia.
Qed.

Lemma fold_add_score_length rows m :
  (length m <= length (fold_left QuizService.add_score rows m))%nat.
Proof.
  revert m. induction rows as [| r rows IH]; intros m; simpl; [lia |].
  specialize (IH (QuizService.add_score m r)).
  pose proof (add_score_length m r). lia.
Qed.

Lemma fold_add_score_nonempty rows m :
  rows <> [] -> (0 < length (fold_left QuizService.add_score rows m))%nat.
Proof.
  destruct rows as [| r rows]; [congruence |]. intros _. simpl.
  pose proof (fold_add_score_length rows (QuizService.add_score m r)).
  pose proof (add_score_nonempty m r). lia.
Qed.

Lemma score_findMany_include_Ok d0 l d rows d' :
  QuizService.score_findMany_include d0 l d = (Ok rows, d') -> length rows = length l.
Proof.
  revert d rows d'. induction l as [| s l IH]; intros d rows d'; simpl.
  - unfold ret. intros H. inv_pair H. reflexivity.
  - destruct (QuizService.include_user_round d0 s); [| discriminate].
    intros H. inv_bind H as rest d1 Hrest. unfold ret in H. inv_pair H. simpl.
    f_equal. eapply IH. exact Hrest.
Qed.

Lemma include_user_round_ext d1 d2 s :
  users d1 = users d2 -> rounds d1 = rounds d2 ->
  QuizService.include_user_round d1 s = QuizService.include_user_round d2 s.
Proof.
  intros Hu Hr. unfold QuizService.include_user_round, Prisma.user_findUnique,
    Prisma.round_findUnique. rewrite Hu, Hr. reflexivity.
Qed.

Lemma score_findMany_include_ext d1 d2 l s1 s2 :
  users d1 = users d2 -> rounds d1 = rounds d2 ->
  fst (QuizService.score_findMany_include d1 l s1)
  = fst (QuizService.score_findMany_include d2 l s2).
Proof.
  intros Hu Hr. induction l as [| s l IH]; simpl; [reflexivity |].
  rewrite (include_user_round_ext d1 d2 s Hu Hr).
  destruct (QuizService.include_user_round d2 s); [| reflexivity].
  unfold bind.
  destruct (QuizService.score_findMany_include d1 l s1) as [[a1 | e1] t1];
    destruct (QuizService.score_findMany_include d2 l s2) as [[a2 | e2] t2];
    simpl in IH; inversion IH; subst; reflexivity.
Qed.

Lemma getQuizLeaderboard_ext quizId d1 d2 q1 q2 :
  scores d1 = scores d2 -> users d1 = users d2 -> rounds d1 = rounds d2 ->
  Prisma.quiz_findUnique quizId d1 = Some q1 ->
  Prisma.quiz_findUnique quizId d2 = Some q2 ->
  fst (QuizService.getQuizLeaderboard quizId d1)
  = fst (QuizService.getQuizLeaderboard quizId d2).
Proof.
  intros Hs Hu Hr H1 H2.
  unfold QuizService.getQuizLeaderboard, QuizService.findQuizById, bind, get, ret.
  rewrite H1, H2. simpl. rewrite Hs.
  match goal with
  | |- context [QuizService.score_findMany_include d1 ?l d1] =>
      pose proof (score_findMany_include_ext d1 d2 l d1 d2 Hu Hr) as E;
      destruct (QuizService.score_findMany_include d1 l d1) as [[a1 | e1] t1];
      destruct (QuizService.score_findMany_include d2 l d2) as [[a2 | e2] t2]
  end; simpl in E; inversion E; subst; reflexivity.
Qed.

Lemma getQuizLeaderboard_nonempty quizId d lb d' s :
  QuizService.getQuizLeaderboard quizId d = (Ok lb, d') ->
  In s (scores d) -> score_quizId s = quizId -> lb <> [].
Proof.
  unfold QuizService.getQuizLeaderboard. intros H Hin Hq. subst quizId.
  set (quizId := score_quizId s) in *.
  inv_bind H as qz d1 Hfind.
  pose proof (findQuizById_state quizId d) as Hst. rewrite Hfind in Hst. simpl in Hst. subst d1.
  inv_bind H as d1 d2 Hget. unfold get in Hget. inv_pair Hget.
  inv_bind H as rows d3 Hrows. unfold ret in H. inv_pair H.
  apply score_findMany_include_Ok in Hrows.
  assert (Hne : rows <> []).
  { intros ->. simpl in Hrows.
    assert (Hf : In s (List.filter (fun s0 => String.eqb (score_quizId s0) quizId) (scores d2))).
    { apply filter_In. split; [exact Hin |]. apply String.eqb_refl. }
    destruct (List.filter _ (scores d2)); [destruct Hf | discriminate Hrows]. }
  intros E. apply (f_equal (@length _)) in E.
  rewrite rank_length, length_map in E.
  pose proof (fold_add_score_nonempty rows [] Hne). simpl in E. lia.
Qed.

Lemma getQuizLeaderboard_Ok_quiz quizId d lb d' :
  QuizService.getQuizLeaderboard quizId d = (Ok lb, d') ->
  exists q, Prisma.quiz_findUnique quizId d = Some q.
Proof.
  unfold QuizService.getQuizLeaderboard, QuizService.findQuizById, bind, get.
  destruct (Prisma.quiz_findUnique quizId d) as [q |]; [eauto | discriminate].
Qed.

Lemma find_quiz_update quizId w l q :
  find (fun q => String.eqb (quiz_id q) quizId) l = Some q ->
  exists q',
    find (fun q => String.eqb (quiz_id q) quizId)
         (map (fun q => if String.eqb (quiz_id q) quizId then
                          {| quiz_id := quiz_id q; quiz_name := quiz_name q;
                             quiz_isActive := quiz_isActive q; winnerId := Some w |}
                        else q) l) = Some q'
    /\ winnerId q' = Some w.
Proof.
  induction l as [| x l IH]; simpl; [discriminate |].
  destruct (String.eqb (quiz_id x) quizId) eqn:E; simpl.
  - intros _. rewrite E. eexists. split; reflexivity.
  - rewrite E. exact IH.
Qed.

Lemma quiz_update_winnerId_Ok quizId w d a d' :
  Prisma.quiz_update_winnerId quizId w d = (Ok a, d') ->
  (exists q, Prisma.quiz_findUnique quizId d' = Some q /\ winnerId q = Some w)
  /\ scores d' = scores d /\ quizPositions d' = quizPositions d.
Proof.
  unfold Prisma.quiz_update_winnerId, bind, get, modify, throw.
  destruct (Prisma.quiz_findUnique quizId d) as [q |] eqn:E; [| discriminate].
  intros H. inv_pair H. split; [| split; reflexivity].
  unfold Prisma.quiz_findUnique in *. simpl. eapply find_quiz_update. exact E.
Qed.

Lemma updateQuizPositions_Ok quizId d lb d' :
  QuizService.updateQuizPositions quizId d = (Ok lb, d') ->
  QuizService.getQuizLeaderboard quizId d = (Ok lb, d)
  /\ scores d' = scores d
  /\ match lb with
     | [] => quizPositions d' = positions_elsewhere quizId d
     | first :: _ =>
         quizPositions d'
         = positions_elsewhere quizId d ++ map (QuizService.position_row quizId) lb
         /\ exists q, Prisma.quiz_findUnique quizId d' = Some q
                      /\ winnerId q = Some (us_id (ut_user (le_entry first)))
     end.
Proof.
  unfold QuizService.updateQuizPositions. intros H.
  inv_bind H as lb0 d1 Hlb.
  pose proof (getQuizLeaderboard_state quizId d) as Hst. rewrite Hlb in Hst.
  simpl in Hst. subst d1.
  inv_bind H as u1 d2 Hdel. unfold modify in Hdel. inv_pair Hdel.
  inv_bind H as u2 d3 Hrest. unfold ret in H. inv_pair H.
  split; [exact Hlb |].
  destruct lb as [| first rest].
  - unfold ret in Hrest. inv_pair Hrest. split; reflexivity.
  - inv_bind Hrest as u3 d4 Hadd. unfold modify in Hadd. inv_pair Hadd.
    apply quiz_update_winnerId_Ok in Hrest. destruct Hrest as (Hq & Hs & Hp).
    split; [rewrite Hs; reflexivity |]. split; [rewrite Hp; reflexivity | exact Hq].
Qed.

Lemma submitResponse_Ok userId questionId selected roundId points correct d r d' :
  QuizService.submitResponse userId questionId selected roundId points correct d = (Ok r, d') ->
  exists question d1 d2 x lb,
    Prisma.question_findUnique questionId d = Some question
    /\ Prisma.response_findUnique userId questionId d = None
    /\ r = {| resp_userId := userId; resp_quizId := question_quizId question;
              resp_roundId := roundId; resp_questionId := questionId;
              selectedIndex := selected; isCorrect := correct; pointsEarned := points |}
    /\ d1 = set_responses (responses d ++ [r]) d
    /\ QuizService.calculateRoundScore userId (question_quizId question) roundId d1 = (Ok x, d2)
    /\ QuizService.updateQuizPositions (question_quizId question) d2 = (Ok lb, d').
Proof.
  unfold QuizService.submitResponse. intros H.
  inv_bind H as d0 d1 Hget. unfold get in Hget. inv_pair Hget.
  destruct (Prisma.question_findUnique questionId d1) as [question |] eqn:Eq;
    [| discriminate H].
  destruct (Prisma.response_findUnique userId questionId d1) eqn:Er; [discriminate H |].
  inv_bind H as r0 d2 Hcreate. apply response_create_Ok in Hcreate.
  destruct Hcreate as (-> & -> & _).
  inv_bind H as x d3 Hcalc. inv_bind H as lb d4 Hupd. unfold ret in H. inv_pair H.
  exists question. do 4 eexists. repeat split; eauto.
Qed.

Lemma submitResponse_responses userId questionId selected roundId points correct d r d' :
  QuizService.submitResponse userId questionId selected roundId points correct d = (Ok r, d') ->
  responses d' = responses d ++ [r] /\ questions d' = questions d
  /\ resp_userId r = userId /\ resp_questionId r = questionId
  /\ pointsEarned r = points /\ isCorrect r = correct /\ selectedIndex r = selected.
Proof.
  intros H. apply submitResponse_Ok in H.
  destruct H as (question & d1 & d2 & x & lb & Hq & Hr & -> & -> & Hcalc & Hupd).
  apply (preserves_run scoring_frame _ _ _ _ (calculateRoundScore_frame _ _ _)) in Hcalc.
  apply (preserves_run scoring_frame _ _ _ _ (updateQuizPositions_frame _)) in Hupd.
  destruct Hcalc as (Hc1 & Hc2 & _). destruct Hupd as (Hu1 & Hu2 & _).
  simpl in *. repeat split; congruence.
Qed.

(** *** Filtering the position table *)

Lemma filter_neg_nil {A} (f : A -> bool) l :
  List.filter f (List.filter (fun x => negb (f x)) l) = [].
Proof.
  induction l as [| x l IH]; simpl; [reflexivity |].
  destruct (f x) eqn:E; simpl; [exact IH | rewrite E; exact IH].
Qed.

Lemma filter_idem {A} (f : A -> bool) l : List.filter f (List.filter f l) = List.filter f l.
Proof.
  induction l as [| x l IH]; simpl; [reflexivity |].
  destruct (f x) eqn:E; simpl; [rewrite E, IH; reflexivity | exact IH].
Qed.

Lemma positions_of_rows quizId lb :
  List.filter (fun p => String.eqb (pos_quizId p) quizId)
              (map (QuizService.position_row quizId) lb)
  = map (QuizService.position_row quizId) lb.
Proof.
  induction lb as [| e lb IH]; simpl; [reflexivity |].
  rewrite String.eqb_refl, IH. reflexivity.
Qed.

Lemma positions_elsewhere_rows quizId lb :
  List.filter (fun p => negb (String.eqb (pos_quizId p) quizId))
              (map (QuizService.position_row quizId) lb) = [].
Proof.
  induction lb as [| e lb IH]; simpl; [reflexivity |].
  rewrite String.eqb_refl. simpl. exact IH.
Qed.

(** ** C10 *)

(** C10. Every successful answer submission leaves at least one score
    record for the quiz, replaces the stored positions of the quiz by the
    rows of the leaderboard as it now stands (other quizzes' positions
    are kept) and stores the first-ranked participant as the quiz's
    winner; no condition on the rounds being finished is involved. *)
Theorem C10_submit_recreates_positions_and_winner
    userId questionId selected roundId points correct d r d' :
  QuizService.submitResponse userId questionId selected roundId points correct d = (Ok r, d') ->
  exists first rest,
    (exists s, In s (scores d') /\ score_quizId s = resp_quizId r)
    /\ QuizService.getQuizLeaderboard (resp_quizId r) d' = (Ok (first :: rest), d')
    /\ positions_of (resp_quizId r) d'
       = map (QuizService.position_row (resp_quizId r)) (first :: rest)
    /\ positions_elsewhere (resp_quizId r) d' = positions_elsewhere (resp_quizId r) d
    /\ exists q, Prisma.quiz_findUnique (resp_quizId r) d' = Some q
                 /\ winnerId q = Some (us_id (ut_user (le_entry first))).
Proof.
  intros H. apply submitResponse_Ok in H.
  destruct H as (question & d1 & d2 & x & lb & Hq & Hr & -> & -> & Hcalc & Hupd).
  simpl. set (quizId := question_quizId question) in *.
  pose proof (preserves_run scoring_frame _ _ _ _ (updateQuizPositions_frame _) Hupd)
    as (_ & _ & Hu & Hro & _).
  apply calculateRoundScore_Ok in Hcalc. destruct Hcalc as (s & Hin & Hsq & _ & Hpos).
  apply updateQuizPositions_Ok in Hupd. destruct Hupd as (Hlb & Hsc & Hrows).
  pose proof (getQuizLeaderboard_nonempty _ _ _ _ _ Hlb Hin Hsq) as Hne.
  destruct lb as [| first rest]; [congruence |].
  destruct Hrows as (Hrows & q' & Hq' & Hw).
  exists first, rest. split; [| split; [| split; [| split]]].
  - exists s. rewrite Hsc. auto.
  - destruct (getQuizLeaderboard_Ok_quiz _ _ _ _ Hlb) as (q2 & Hq2).
    pose proof (getQuizLeaderboard_ext quizId d' d2 q' q2 Hsc Hu Hro Hq' Hq2) as E.
    pose proof (getQuizLeaderboard_state quizId d') as Hst.
    rewrite Hlb in E. simpl in E.
    destruct (QuizService.getQuizLeaderboard quizId d') as [o st]. simpl in *. congruence.
  - unfold positions_of. rewrite Hrows, List.filter_app. unfold positions_elsewhere.
    rewrite filter_neg_nil, positions_of_rows. reflexivity.
  - unfold positions_elsewhere at 1. rewrite Hrows, List.filter_app.
    unfold positions_elsewhere. rewrite filter_idem, positions_elsewhere_rows, app_nil_r.
    rewrite Hpos. reflexivity.
  - exists q'. auto.
Qed.

(** ** C2 *)

Lemma find_none_filter {A} (f : A -> bool) l : find f l = None -> List.filter f l = [].
Proof.
  induction l as [| x l IH]; simpl; [reflexivity |].
  destruct (f x); [discriminate | exact IH].
Qed.

Lemma find_app_l {A} (f : A -> bool) l1 l2 x :
  find f l1 = Some x -> find f (l1 ++ l2) = Some x.
Proof.
  induction l1 as [| y l1 IH]; simpl; [discriminate |].
  destruct (f y); [trivial | exact IH].
Qed.

Lemma find_app_r {A} (f : A -> bool) l1 x :
  find f l1 = None -> f x = true -> find f (l1 ++ [x]) = Some x.
Proof.
  induction l1 as [| y l1 IH]; simpl.
  - intros _ ->. reflexivity.
  - destruct (f y); [discriminate | exact IH].
Qed.

Lemma response_create_any r d :
  snd (Prisma.response_create r d) = d
  \/ (Prisma.response_create r d = (Ok r, set_responses (responses d ++ [r]) d)
      /\ Prisma.response_findUnique (resp_userId r) (resp_questionId r) d = None).
Proof.
  unfold Prisma.response_create, bind, get, modify, ret, throw.
  destruct (negb _); [left; reflexivity |].
  destruct (Prisma.user_findUnique _ d); [| left; reflexivity].
  destruct (Prisma.question_findUnique _ d); [| left; reflexivity].
  destruct (Prisma.quiz_findUnique _ d); [| left; reflexivity].
  destruct (Prisma.response_findUnique _ _ d); [left; reflexivity |].
  right. split; reflexivity.
Qed.

Lemma submitResponse_any userId questionId selected roundId points correct d o d' :
  QuizService.submitResponse userId questionId selected roundId points correct d = (o, d') ->
  responses d' = responses d
  \/ (Prisma.response_findUnique userId questionId d = None
      /\ exists r, resp_userId r = userId /\ resp_questionId r = questionId
                   /\ responses d' = responses d ++ [r]).
Proof.
  unfold QuizService.submitResponse, bind at 1, get.
  destruct (Prisma.question_findUnique questionId d) as [question |];
    [| intros H; inv_pair H; left; reflexivity].
  destruct (Prisma.response_findUnique userId questionId d) eqn:Er;
    [intros H; inv_pair H; left; reflexivity |].
  match goal with
  | |- context [Prisma.response_create ?r] =>
      destruct (response_create_any r d) as [Hsame | (Hok & _)]; set (row := r) in *
  end.
  - intros H. left. unfold bind at 1 in H.
    destruct (Prisma.response_create row d) as [[a | e] d1]; simpl in Hsame; subst d1;
      [| inv_pair H; reflexivity].
    match type of H with
    | ?m d = _ =>
        assert (Hp : preserves scoring_frame m)
          by (pres scoring_frame_refl scoring_frame_trans);
        destruct (preserves_run _ _ _ _ _ Hp H) as (Hres & _); exact Hres
    end.
  - intros H. right. split; [reflexivity |]. exists row.
    split; [reflexivity |]. split; [reflexivity |].
    unfold bind at 1 in H. rewrite Hok in H.
    match type of H with
    | ?m ?d1 = _ =>
        assert (Hp : preserves scoring_frame m)
          by (pres scoring_frame_refl scoring_frame_trans);
        destruct (preserves_run _ _ _ _ _ Hp H) as (Hres & _); rewrite Hres; reflexivity
    end.
Qed.

Lemma responses_of_app userId questionId d l :
  List.filter (fun r => String.eqb (resp_userId r) userId
                        && String.eqb (resp_questionId r) questionId) (responses d ++ l)
  = responses_of userId questionId d
    ++ List.filter (fun r => String.eqb (resp_userId r) userId
                             && String.eqb (resp_questionId r) questionId) l.
Proof. unfold responses_of. apply List.filter_app. Qed.

Lemma one_response_per_pair_add d d' r :
  one_response_per_pair d ->
  Prisma.response_findUnique (resp_userId r) (resp_questionId r) d = None ->
  responses d' = responses d ++ [r] ->
  one_response_per_pair d'.
Proof.
  intros Hinv Hnone Hres u q. unfold responses_of at 1. rewrite Hres, responses_of_app.
  rewrite length_app. simpl.
  destruct (String.eqb (resp_userId r) u && String.eqb (resp_questionId r) q) eqn:E.
  - apply andb_true_iff in E. destruct E as (Eu & Eq).
    apply String.eqb_eq in Eu. apply String.eqb_eq in Eq. subst u q.
    unfold responses_of. unfold Prisma.response_findUnique in Hnone.
    rewrite (find_none_filter _ _ Hnone). simpl. lia.
  - specialize (Hinv u q). simpl. lia.
Qed.

(** Whatever a submission returns or throws, no pair ever gets a second
    response. *)
Lemma submitResponse_keeps_one_response userId questionId selected roundId points correct :
  preserves (fun d d' => one_response_per_pair d -> one_response_per_pair d')
            (QuizService.submitResponse userId questionId selected roundId points correct).
Proof.
  intros d Hinv.
  destruct (QuizService.submitResponse userId questionId selected roundId points correct d)
    as [o d'] eqn:E. simpl.
  destruct (submitResponse_any _ _ _ _ _ _ _ _ _ E) as [Hsame | (Hnone & r & Hu & Hq & Happ)].
  - intros u q. unfold responses_of. rewrite Hsame. apply Hinv.
  - eapply one_response_per_pair_add; [exact Hinv | | exact Happ].
    rewrite Hu, Hq. exact Hnone.
Qed.

(** C2. After a successful submit for a (participant, question) pair, the
    pair has exactly that one response; a second submit for the pair,
    whatever it selects, throws the duplicate-response conflict and
    leaves the whole database as it was (responses, round scores, and so
    the leaderboard computed from them); and no pair has two responses. *)
Theorem C2_second_submit_is_rejected
    userId questionId sel1 round1 pts1 ok1 sel2 round2 pts2 ok2 d r d' :
  one_response_per_pair d ->
  QuizService.submitResponse userId questionId sel1 round1 pts1 ok1 d = (Ok r, d') ->
  QuizService.submitResponse userId questionId sel2 round2 pts2 ok2 d'
  = (Throw (ConflictException "User has already answered this question"), d')
  /\ responses_of userId questionId d' = [r]
  /\ one_response_per_pair d'.
Proof.
  intros Hinv H.
  pose proof (submitResponse_keeps_one_response userId questionId sel1 round1 pts1 ok1 d) as Hk.
  rewrite H in Hk. simpl in Hk.
  pose proof (submitResponse_responses _ _ _ _ _ _ _ _ _ H)
    as (Hres & Hqs & Hu & Hq & _).
  apply submitResponse_Ok in H.
  destruct H as (question & d1 & d2 & x & lb & Hquestion & Hnone & Hr & _).
  assert (Hmatch : String.eqb (resp_userId r) userId && String.eqb (resp_questionId r) questionId
                   = true).
  { rewrite Hu, Hq, !String.eqb_refl. reflexivity. }
  split; [| split].
  - unfold QuizService.submitResponse, bind, get.
    unfold Prisma.question_findUnique in *. rewrite Hqs, Hquestion.
    unfold Prisma.response_findUnique in *. rewrite Hres.
    rewrite (find_app_r _ _ r Hnone Hmatch). reflexivity.
  - unfold responses_of. rewrite Hres, List.filter_app.
    unfold Prisma.response_findUnique in Hnone. rewrite (find_none_filter _ _ Hnone).
    simpl. rewrite Hmatch. reflexivity.
  - apply Hk. exact Hinv.
Qed.

(** ** The gateway: frames *)

Lemma set_db_same w : set_db (db w) w = w.
Proof. destruct w; reflexivity. Qed.



Lemma bonus_frame_refl w : bonus_frame w w.
Proof. unfold bonus_frame. reflexivity. Qed.
Lemma bonus_frame_trans a b c : bonus_frame a b -> bonus_frame b c -> bonus_frame a c.
Proof. unfold bonus_frame. intros H1 H2. etrans; eassumption. Qed.

(** A service call changes nothing but the database. *)
Lemma liftDB_turn_frame {A} (m : M DB A) : preserves turn_frame (liftDB m).
Proof. intros w. unfold liftDB. destruct (m (db w)). repeat split. Qed.

Lemma liftDB_bonus_frame {A} (m : M DB A) : preserves bonus_frame (liftDB m).
Proof. intros w. unfold liftDB, bonus_frame. destruct (m (db w)). reflexivity. Qed.

Lemma liftDB_db_frame {A} (m : M DB A) :
  (forall d, snd (m d) = d) -> preserves db_frame (liftDB m).
Proof.
  intros H w. unfold liftDB. specialize (H (db w)).
  destruct (m (db w)). simpl in *. subst. reflexivity.
Qed.

Lemma redis_set_bonus_frame f : preserves bonus_frame (redis_set f).
Proof. intros w. unfold bonus_frame. reflexivity. Qed.

Lemma emit_frames t n p :
  preserves db_frame (emit t n p) /\ preserves turn_frame (emit t n p)
  /\ preserves bonus_frame (emit t n p).
Proof. repeat split. intros w. unfold bonus_frame. reflexivity. Qed.

#[local] Hint Resolve liftDB_turn_frame liftDB_bonus_frame redis_set_bonus_frame : frames.

Lemma getQuizLeaderboard_db_frame quizId :
  preserves db_frame (liftDB (QuizService.getQuizLeaderboard quizId)).
Proof. apply liftDB_db_frame. apply getQuizLeaderboard_state. Qed.

#[local] Hint Resolve getQuizLeaderboard_db_frame : frames.


(** ** C1 *)

Lemma pointsFor_answerKind t bs userId correct :
  pointsFor (mode_of t) (answerKind (mode_of t) bs userId) correct
  = Some (match mode_of t, answerKind (mode_of t) bs userId with
          | Simultaneous, _ => if correct then 5 else 0
          | Sequential, bonus => if correct then 1 else 0
          | Sequential, _ => if correct then 2 else 0
          end).
Proof.
  destruct (mode_of t); simpl; [| destruct correct; reflexivity].
  destruct bs as [b |]; [| destruct correct; reflexivity].
  destruct (bs_isActive b && _); [destruct correct; reflexivity |].
  destruct (negb (bs_isActive b) && _); destruct correct; reflexivity.
Qed.

(** [processAnswer] once the question is found in the cache and the
    round in storage: the kind and the points are decided, the bonus
    state is dropped for the original's return, and the rest runs. *)
Lemma processAnswer_scored quizId roundId userId questionId selected w qs question round
    points :
  RedisService.getQuizQuestions quizId (cache w) = Some qs ->
  find (fun q => String.eqb (question_id q) questionId) qs = Some question ->
  Prisma.round_findUnique roundId (db w) = Some round ->
  let correct := selected =? correctAnswerIndex question in
  let kind := answerKind (mode_of (quizType round)) (bonusState w !! quizId) userId in
  pointsFor (mode_of (quizType round)) kind correct = Some points ->
  processAnswer quizId roundId userId questionId selected w
  = (liftDB (QuizService.submitResponse userId questionId selected (round_id round)
               points correct) ;;
     match kind with
     | bonus => ret tt
     | _ => redis_set (RedisService.markQuestionAsAnswered quizId questionId)
     end ;;
     emit (ToRoom quizId) "answerResult"
       (JObj [("userId", JStr userId); ("questionId", JStr questionId);
              ("isCorrect", JBool correct); ("points", JNum points);
              ("answerType", JStr (AnswerType_name kind));
              ("message", JStr (if correct then "Correct!" else "Incorrect!"))]) ;;
     do leaderboard <- liftDB (QuizService.getQuizLeaderboard quizId);
     emit (ToRoom quizId) "leaderboardUpdate"
       (JObj [("leaderboard", JArr (map JLeaderboardEntry leaderboard))]) ;;
     match kind with
     | original_return => modify (fun w => set_timers (timers w ++ [(quizId, roundId)]) w)
     | _ => ret tt
     end ;;
     ret {| ar_isCorrect := correct; ar_points := points;
            ar_correctAnswerIndex := correctAnswerIndex question;
            ar_answerType := kind |})
      (match kind with
       | original_return =>
           set_cache (RedisService.deleteQuizCache quizId "bonusState" (cache w))
             (set_bonusState (delete quizId (bonusState w)) w)
       | _ => w
       end).
Proof.
  intros Hqs Hfind Hround correct kind Hpts.
  unfold kind in Hpts. rewrite pointsFor_answerKind in Hpts.
  inversion Hpts as [Hp]. clear Hpts. subst points.
  unfold processAnswer. unfold bind at 1. unfold RedisService.validateAnswer.
  rewrite Hqs, Hfind. cbv beta iota.
  unfold bind at 1, liftDB at 1, gets at 1. cbv beta iota. rewrite set_db_same, Hround.
  unfold bind at 1, gets at 1. cbv beta iota.
  cbn [v_isCorrect v_correctAnswerIndex option_map]. fold correct.
  subst kind. unfold answerKind, mode_of.
  destruct (quizType round); destruct (bonusState w !! quizId) as [b |];
    try reflexivity;
    (destruct (bs_isActive b && String.eqb (bonusUserId b) userId); [reflexivity |]);
    (destruct (negb (bs_isActive b) && String.eqb (originalUserId b) userId); reflexivity).
Qed.

(** C1. An answer to a question of the quiz's cache, in a round that is
    in storage, is scored by the table.  Its correctness is whether the
    selected option is the question's correct one; its kind is the one
    that the round's mode and the bonus state of the quiz give; and the
    table has points for that mode, kind and correctness: 5 for a correct
    answer in simultaneous mode; in a sequential mode 2 for a correct
    normal answer, 1 for a correct bonus answer, 2 for a correct
    original-return answer; 0 for every incorrect answer.  Whenever the
    response with these points can be stored and the leaderboard read,
    [processAnswer] returns; and whenever it returns, it returns this
    correctness, these points and this kind, the response stored for
    the participant and the question carries them, and they are what the
    [answerResult] event announces to the quiz's room. *)
Theorem C1_processAnswer_awards_table_points
    (quizId roundId userId questionId : Id) (selected : Z) (w : World)
    (qs : list Question) (question : Question) (round : Round) :
  RedisService.getQuizQuestions quizId (cache w) = Some qs ->
  find (fun q => String.eqb (question_id q) questionId) qs = Some question ->
  Prisma.round_findUnique roundId (db w) = Some round ->
  let correct := selected =? correctAnswerIndex question in
  let kind := answerKind (mode_of (quizType round)) (bonusState w !! quizId) userId in
  exists points,
    pointsFor (mode_of (quizType round)) kind correct = Some points
    /\ (correct = false -> points = 0)
    /\ (forall resp d1 lb d2,
           QuizService.submitResponse userId questionId selected (round_id round)
             points correct (db w) = (Ok resp, d1) ->
           QuizService.getQuizLeaderboard quizId d1 = (Ok lb, d2) ->
           exists w',
             processAnswer quizId roundId userId questionId selected w
             = (Ok {| ar_isCorrect := correct; ar_points := points;
                      ar_correctAnswerIndex := correctAnswerIndex question;
                      ar_answerType := kind |}, w'))
    /\ (forall res w',
           processAnswer quizId roundId userId questionId selected w = (Ok res, w') ->
           res = {| ar_isCorrect := correct; ar_points := points;
                    ar_correctAnswerIndex := correctAnswerIndex question;
                    ar_answerType := kind |}
           /\ (exists r,
                  responses (db w') = responses (db w) ++ [r]
                  /\ resp_userId r = userId /\ resp_questionId r = questionId
                  /\ selectedIndex r = selected
                  /\ isCorrect r = correct /\ pointsEarned r = points)
           /\ exists leaderboard,
                emitted w'
                = emitted w ++
                  [{| ev_target := ToRoom quizId; ev_name := "answerResult";
                      ev_payload :=
                        JObj [("userId", JStr userId); ("questionId", JStr questionId);
                              ("isCorrect", JBool correct); ("points", JNum points);
                              ("answerType", JStr (AnswerType_name kind));
                              ("message",
                               JStr (if correct then "Correct!" else "Incorrect!"))] |};
                   {| ev_target := ToRoom quizId; ev_name := "leaderboardUpdate";
                      ev_payload := JObj [("leaderboard", leaderboard)] |}]).
Proof.
  intros Hqs Hfind Hround correct kind.
  pose proof (pointsFor_answerKind (quizType round) (bonusState w !! quizId) userId correct)
    as Hpts.
  fold kind in Hpts.
  match type of Hpts with _ = Some ?p => exists p; set (points := p) in * end.
  split; [exact Hpts |].
  split.
  { intros Hfalse. subst points. rewrite Hfalse.
    destruct (mode_of (quizType round)), kind; reflexivity. }
  pose proof (processAnswer_scored quizId roundId userId questionId selected w qs question
                round points Hqs Hfind Hround Hpts) as Hrun.
  cbv zeta in Hrun. fold correct kind in Hrun.
  assert (Hdb : db (match kind with
                    | original_return =>
                        set_cache (RedisService.deleteQuizCache quizId "bonusState" (cache w))
                          (set_bonusState (delete quizId (bonusState w)) w)
                    | _ => w
                    end) = db w) by (destruct kind; reflexivity).
  assert (Hem : emitted (match kind with
                         | original_return =>
                             set_cache
                               (RedisService.deleteQuizCache quizId "bonusState" (cache w))
                               (set_bonusState (delete quizId (bonusState w)) w)
                         | _ => w
                         end) = emitted w) by (destruct kind; reflexivity).
  revert Hrun Hdb Hem.
  generalize (match kind with
              | original_return =>
                  set_cache (RedisService.deleteQuizCache quizId "bonusState" (cache w))
                    (set_bonusState (delete quizId (bonusState w)) w)
              | _ => w
              end).
  intros w0 Hrun Hdb Hem.
  clear Hpts. clearbody points. clearbody kind correct.
  split.
  - intros resp d1 lb d2 Hsub Hlb. rewrite Hrun.
    unfold bind at 1. unfold liftDB at 1. rewrite Hdb, Hsub. cbv beta iota.
    assert (Hstep : forall (m : M World unit) w1,
               (forall w2, m w2 = (Ok tt, snd (m w2))) ->
               forall (k : unit -> M World AnswerResult), bind m k w1 = k tt (snd (m w1))).
    { intros m w1 Hm k. unfold bind. rewrite (Hm w1). reflexivity. }
    assert (Hmark : forall w2,
               match kind with
               | bonus => ret tt
               | _ => redis_set (RedisService.markQuestionAsAnswered quizId questionId)
               end w2
               = (Ok tt, snd (match kind with
                              | bonus => ret tt
                              | _ => redis_set
                                       (RedisService.markQuestionAsAnswered quizId questionId)
                              end w2))) by (intros w2; destruct kind; reflexivity).
    rewrite (Hstep _ _ Hmark). clear Hmark.
    assert (Hmdb : forall w2,
               db (snd (match kind with
                        | bonus => ret tt
                        | _ => redis_set
                                 (RedisService.markQuestionAsAnswered quizId questionId)
                        end w2)) = db w2) by (intros w2; destruct kind; reflexivity).
    unfold bind at 1. unfold emit at 1, modify. cbv beta iota.
    unfold bind at 1. unfold liftDB at 1. cbn [db set_emitted]. rewrite Hmdb.
    cbn [db set_db]. rewrite Hlb. cbv beta iota.
    unfold bind at 1. unfold emit at 1, modify. cbv beta iota.
    unfold bind at 1.
    destruct kind; unfold modify, ret; cbv beta iota; eexists; reflexivity.
  - intros res w' H. rewrite Hrun in H. clear Hrun.
    inv_bind H as resp w1 Hsub. apply liftDB_Ok in Hsub. destruct Hsub as (d1 & Hsub & ->).
    rewrite Hdb in Hsub.
    apply submitResponse_responses in Hsub.
    destruct Hsub as (Hres & _ & Hu & Hq & Hp & Hc & Hs).
    inv_bind H as u2 w2 H2.
    assert (H2' : db w2 = d1 /\ emitted w2 = emitted w0).
    { destruct kind; unfold ret, redis_set, modify in H2; inversion H2; split; reflexivity. }
    destruct H2' as (Hdb2 & Hem2). clear H2.
    inv_bind H as u3 w3 H3. unfold emit, modify in H3. inversion H3; subst w3; clear H3.
    inv_bind H as lb w4 H4. apply liftDB_Ok in H4. destruct H4 as (d4 & H4 & ->).
    pose proof (getQuizLeaderboard_state quizId) as Hstate.
    match type of H4 with ?m ?d = _ => specialize (Hstate d); rewrite H4 in Hstate end.
    simpl in Hstate. subst d4. clear H4.
    inv_bind H as u5 w5 H5. unfold emit, modify in H5. inversion H5; subst w5; clear H5.
    inv_bind H as u6 w6 H6.
    assert (H6' : db w6 = d1
                  /\ emitted w6
                     = emitted w ++
                       [{| ev_target := ToRoom quizId; ev_name := "answerResult";
                           ev_payload :=
                             JObj [("userId", JStr userId); ("questionId", JStr questionId);
                                   ("isCorrect", JBool correct); ("points", JNum points);
                                   ("answerType", JStr (AnswerType_name kind));
                                   ("message",
                                    JStr (if correct then "Correct!" else "Incorrect!"))] |};
                        {| ev_target := ToRoom quizId; ev_name := "leaderboardUpdate";
                           ev_payload :=
                             JObj [("leaderboard", JArr (map JLeaderboardEntry lb))] |}]).
    { assert (Hw6 : db w6 = db w2 /\ emitted w6
                    = (emitted w2 ++ [{| ev_target := ToRoom quizId; ev_name := "answerResult";
                           ev_payload :=
                             JObj [("userId", JStr userId); ("questionId", JStr questionId);
                                   ("isCorrect", JBool correct); ("points", JNum points);
                                   ("answerType", JStr (AnswerType_name kind));
                                   ("message",
                                    JStr (if correct then "Correct!" else "Incorrect!"))] |}])
                      ++ [{| ev_target := ToRoom quizId; ev_name := "leaderboardUpdate";
                           ev_payload :=
                             JObj [("leaderboard", JArr (map JLeaderboardEntry lb))] |}]).
      { destruct kind; unfold ret, modify in H6; inversion H6; split; reflexivity. }
      destruct Hw6 as (Ha & Hb). rewrite Ha, Hb, Hdb2, Hem2, Hem, <- app_assoc.
      split; reflexivity. }
    destruct H6' as (Hdb6 & Hem6). clear H6.
    unfold ret in H. inversion H; subst res w'. clear H.
    split; [reflexivity |].
    split.
    + exists resp. rewrite Hdb6, Hres. repeat split; assumption.
    + eexists. exact Hem6.
Qed.

Lemma C1_witness :
  let w := Examples.started in
  exists points,
    pointsFor Sequential normal true = Some points
    /\ (true = false -> points = 0)
    /\ (forall resp d1 lb d2,
           QuizService.submitResponse "A" "m1" 0 "r1" points true (db w) = (Ok resp, d1) ->
           QuizService.getQuizLeaderboard "qz" d1 = (Ok lb, d2) ->
           exists w',
             processAnswer "qz" "r1" "A" "m1" 0 w
             = (Ok {| ar_isCorrect := true; ar_points := points;
                      ar_correctAnswerIndex := 0; ar_answerType := normal |}, w'))
    /\ (forall res w',
           processAnswer "qz" "r1" "A" "m1" 0 w = (Ok res, w') ->
           res = {| ar_isCorrect := true; ar_points := points;
                    ar_correctAnswerIndex := 0; ar_answerType := normal |}
           /\ (exists r,
                  responses (db w') = responses (db w) ++ [r]
                  /\ resp_userId r = "A" /\ resp_questionId r = "m1"
                  /\ selectedIndex r = 0
                  /\ isCorrect r = true /\ pointsEarned r = points)
           /\ exists leaderboard,
                emitted w'
                = emitted w ++
                  [{| ev_target := ToRoom "qz"; ev_name := "answerResult";
                      ev_payload :=
                        JObj [("userId", JStr "A"); ("questionId", JStr "m1");
                              ("isCorrect", JBool true); ("points", JNum points);
                              ("answerType", JStr "normal");
                              ("message", JStr "Correct!")] |};
                   {| ev_target := ToRoom "qz"; ev_name := "leaderboardUpdate";
                      ev_payload := JObj [("leaderboard", leaderboard)] |}]).
Proof.
  refine (C1_processAnswer_awards_table_points "qz" "r1" "A" "m1" 0 Examples.started
            Examples.all_questions (Examples.mc "m1" 1 0) Examples.round1_active _ _ _).
  - vm_compute. reflexivity.
  - vm_compute. reflexivity.
  - vm_compute. reflexivity.
Defined.

(** ** Turn advancement *)


Lemma find_round_update roundId b l r :
  find (fun r => String.eqb (round_id r) roundId) l = Some r ->
  exists r',
    find (fun r => String.eqb (round_id r) roundId)
         (map (fun r => if String.eqb (round_id r) roundId then
                          {| round_id := round_id r; round_quizId := round_quizId r;
                             roundNumber := roundNumber r; quizType := quizType r;
                             timePerQuestion := timePerQuestion r;
                             questionsPerParticipant := questionsPerParticipant r;
                             round_isActive := b |}
                        else r) l) = Some r'
    /\ round_isActive r' = b.
Proof.
  induction l as [| x l IH]; simpl; [discriminate |].
  destruct (String.eqb (round_id x) roundId) eqn:E; simpl.
  - intros _. rewrite E. eexists. split; reflexivity.
  - rewrite E. exact IH.
Qed.


Section Advance.
Variables (quizId roundId : Id) (w : World) (order : list Participant) (active : Id).
Variables (i qi next nq : nat) (qs : list Question).
Hypothesis Hi : findIndex (fun p => String.eqb (p_userId p) active) order = Some i.
Hypothesis Hqs : RedisService.getRoundQuestions quizId roundId (cache w) = Some qs.
Hypothesis Hnext : next = ((i + 1) mod length order)%nat.
Hypothesis Hnq : nq = if (next =? 0)%nat then (qi + 1)%nat else qi.

End Advance.

Lemma round_update_isActive_found roundId b d r :
  Prisma.round_findUnique roundId d = Some r ->
  exists d', Prisma.round_update_isActive roundId b d = (Ok tt, d')
             /\ exists r', Prisma.round_findUnique roundId d' = Some r' /\ round_isActive r' = b.
Proof.
  intros Hr. unfold Prisma.round_update_isActive, bind, get, modify. rewrite Hr.
  eexists. split; [reflexivity |].
  unfold Prisma.round_findUnique in *. simpl. eapply find_round_update. exact Hr.
Qed.




(** ** C5 *)

Lemma delete_bonus_frame quizId :
  preserves bonus_frame (modify (fun w => set_bonusState (delete quizId (bonusState w)) w)).
Proof. intros w. unfold bonus_frame. simpl. apply delete_subseteq. Qed.

#[local] Hint Resolve delete_bonus_frame : frames.

Ltac bonus := pres bonus_frame_refl bonus_frame_trans.

Lemma processAnswer_bonus_frame quizId roundId userId questionId selected :
  preserves bonus_frame (Gateway.processAnswer quizId roundId userId questionId selected).
Proof. unfold Gateway.processAnswer. bonus. Qed.

Lemma advance_bonus_frame quizId roundId order active index :
  preserves bonus_frame (Gateway.advance quizId roundId order active index).
Proof. unfold Gateway.advance. bonus. Qed.

#[local] Hint Resolve processAnswer_bonus_frame advance_bonus_frame : frames.

Lemma proceedToNext_bonus_frame quizId roundId wasCorrect :
  preserves bonus_frame (Gateway.proceedToNext quizId roundId wasCorrect).
Proof. unfold Gateway.proceedToNext. bonus. Qed.

Lemma autoAdvanceAfterBonus_bonus_frame quizId roundId :
  preserves bonus_frame (Gateway.autoAdvanceAfterBonus quizId roundId).
Proof. unfold Gateway.autoAdvanceAfterBonus. bonus. Qed.

Lemma participantOrder_or_default_bonus_frame quizId :
  preserves bonus_frame (Gateway.participantOrder_or_default quizId).
Proof. unfold Gateway.participantOrder_or_default. bonus. Qed.

Lemma roundQuestions_or_load_bonus_frame quizId roundId round :
  preserves bonus_frame (Gateway.roundQuestions_or_load quizId roundId round).
Proof. unfold Gateway.roundQuestions_or_load. bonus. Qed.

#[local] Hint Resolve proceedToNext_bonus_frame autoAdvanceAfterBonus_bonus_frame
  participantOrder_or_default_bonus_frame roundQuestions_or_load_bonus_frame : frames.

Lemma handle_bonus_frame c : preserves bonus_frame (Gateway.handle c).
Proof.
  destruct c; unfold Gateway.handle.
  - unfold Gateway.handleJoinQuiz. bonus.
  - unfold Gateway.handleUpdateParticipantOrder. bonus.
  - unfold Gateway.handleStartRound. bonus.
  - unfold Gateway.handleCheckRoundReadiness. bonus.
  - unfold Gateway.handleSendMessage. bonus.
  - unfold Gateway.handleSubmitSimultaneousAnswer. bonus.
  - unfold Gateway.handleSkipQuestion. bonus.
  - unfold Gateway.handleEndSimultaneousSession. bonus.
  - unfold Gateway.handleAutoConfirmAnswer. bonus.
  - unfold Gateway.handleSelectAnswer. bonus.
  - unfold Gateway.handleConfirmAnswer. bonus.
  - bonus.
  - bonus.
Qed.

(** After A's wrong answer the turn has passed to B and there is no
    bonus state; the moderator's [dispatchBonus] message changes nothing. *)
Lemma dispatchBonus_is_dropped :
  bonusState Examples.answered_wrong = ∅
  /\ RedisService.getActiveParticipant "qz" (cache Examples.answered_wrong) = Some "B"
  /\ step (Unsubscribed "cm" "dispatchBonus"
             (JObj [("quizId", JStr "qz"); ("questionId", JStr "m1")]))
          Examples.answered_wrong
     = Examples.answered_wrong.
Proof. split; [| split]; [vm_compute; reflexivity | vm_compute; reflexivity | reflexivity]. Qed.

(** C5. No operation of the gateway creates a bonus state: whatever
    command is handled (every subscribed message, a message such as
    [dispatchBonus] that no handler subscribes to, a timer callback), the
    bonus-state map afterwards is included in the one before. *)
Theorem C5_no_command_creates_bonus_state (c : Gateway.Command) (w : World) :
  bonusState (Gateway.step c w) ⊆ bonusState w.
Proof. apply (handle_bonus_frame c w). Qed.

(** ** Witnesses for C2 and C10 *)

Lemma C2_witness :
  let out := QuizService.submitResponse "A" "m1" 0 "r1" 2 true (db Examples.started) in
  QuizService.submitResponse "A" "m1" 3 "r1" 0 false (snd out)
  = (Throw (ConflictException "User has already answered this question"), snd out)
  /\ responses_of "A" "m1" (snd out) = [Examples.response_of (fst out)]
  /\ one_response_per_pair (snd out).
Proof.
  intros out.
  apply (C2_second_submit_is_rejected "A" "m1" 0 "r1" 2 true 3 "r1" 0 false
           (db Examples.started) (Examples.response_of (fst out)) (snd out)).
  - intros u q. vm_compute. lia.
  - vm_compute. reflexivity.
Defined.

Lemma C10_witness :
  let out := QuizService.submitResponse "A" "m1" 0 "r1" 2 true (db Examples.started) in
  exists first rest,
    (exists s, In s (scores (snd out)) /\ score_quizId s = "qz")
    /\ QuizService.getQuizLeaderboard "qz" (snd out) = (Ok (first :: rest), snd out)
    /\ positions_of "qz" (snd out) = map (QuizService.position_row "qz") (first :: rest)
    /\ positions_elsewhere "qz" (snd out) = positions_elsewhere "qz" (db Examples.started)
    /\ exists q, Prisma.quiz_findUnique "qz" (snd out) = Some q
                 /\ winnerId q = Some (us_id (ut_user (le_entry first))).
Proof.
  intros out.
  apply (C10_submit_recreates_positions_and_winner "A" "m1" 0 "r1" 2 true
           (db Examples.started) (Examples.response_of (fst out)) (snd out)).
  vm_compute. reflexivity.
Defined.

(** ** C4 *)

(** C4. After A's selection for question m1, the moderator confirms it
    and the auto-confirm for m1 then fires: the confirmation has moved
    the turn to B, so the auto-confirm scores the same selection for B,
    and two scored responses are persisted for m1. *)
Theorem C4_confirm_then_auto_confirm_scores_twice :
  map (fun r => (resp_userId r, resp_questionId r, pointsEarned r))
      (responses (db (Gateway.run [Gateway.ConfirmAnswer "cm" "qz" "r1" "m1";
                                   Gateway.AutoConfirmAnswer "cm" "qz" "r1" "m1" 0]
                                  Examples.selected)))
  = [("A", "m1", 2); ("B", "m1", 2)].
Proof. vm_compute. reflexivity. Qed.

(** ** C6 *)

(** What the report says about the earlier rounds, in general: the
    prerequisite counts as met exactly when the round is numbered 1 or
    below, or every earlier round of the quiz is flagged active. *)
Lemma roundReadiness_previousRoundsCompleted quizId round requirements available d :
  rd_previousRoundsCompleted (Gateway.roundReadiness quizId round requirements available d)
  = true
  <-> (roundNumber round <= 1
       \/ forall r, In r (rounds d) -> round_quizId r = quizId ->
                    roundNumber r < roundNumber round -> round_isActive r = true).
Proof.
  unfold Gateway.roundReadiness. cbv zeta. simpl.
  rewrite Nat.eqb_eq, length_zero_iff_nil.
  destruct (1 <? roundNumber round) eqn:E1.
  - apply Z.ltb_lt in E1. split.
    + intros Hnil. right. intros r Hin Hq Hlt.
      destruct (round_isActive r) eqn:Ea; [reflexivity | exfalso].
      assert (Hf : In r (List.filter
                           (fun r0 => negb (round_isActive r0) && true)
                           (sort_by (fun a b => roundNumber a <=? roundNumber b)
                              (List.filter (fun r0 => String.eqb (round_quizId r0) quizId
                                                      && (roundNumber r0 <? roundNumber round))
                                           (rounds d))))).
      { apply filter_In. split; [| rewrite Ea; reflexivity].
        apply (Permutation.Permutation_in r
                 (Permutation.Permutation_sym (sort_by_Permutation _ _))).
        apply filter_In. split; [exact Hin |].
        rewrite Hq, String.eqb_refl. simpl. apply Z.ltb_lt. exact Hlt. }
      rewrite Hnil in Hf. destruct Hf.
    + intros [Hle | Hall]; [lia |].
      match goal with |- ?l = [] => destruct l as [| r l'] eqn:El; [reflexivity | exfalso] end.
      assert (Hin : In r (r :: l')) by (left; reflexivity). rewrite <- El in Hin.
      apply filter_In in Hin. destruct Hin as (Hin & Hact).
      apply (Permutation.Permutation_in r (sort_by_Permutation _ _)) in Hin.
      apply filter_In in Hin. destruct Hin as (Hin & Hcond).
      apply andb_true_iff in Hcond. destruct Hcond as (Hq & Hlt).
      apply String.eqb_eq in Hq. apply Z.ltb_lt in Hlt.
      rewrite (Hall r Hin Hq Hlt) in Hact. discriminate Hact.
  - apply Z.ltb_ge in E1. split; [intros _; left; exact E1 | intros _].
    match goal with |- List.filter ?f ?l = [] => generalize l end.
    intros l. induction l as [| x l IH]; simpl; [reflexivity |].
    rewrite andb_false_r. exact IH.
Qed.

(** C6. Round 1 of the quiz has been played to its end and is flagged
    inactive; the readiness report for round 2 has enough questions
    ([isReady]), yet lists round 1 as an incomplete previous round and
    reports [previousRoundsCompleted] and [canStart] false.  Before that,
    with round 1 still flagged active, the same check reports both true. *)
Theorem C6_completed_round_blocks_next :
  option_map snd (Examples.report_of
                    (fst (Gateway.checkRoundReadiness "qz" Examples.round2
                            (db Examples.round1_played))))
  = Some {| rd_isReady := true; rd_canStart := false; rd_required := 4; rd_available := 4;
            rd_shortage := 0; rd_previousRoundsCompleted := false;
            rd_incompletePreviousRounds := [Examples.round1] |}
  /\ option_map snd (Examples.report_of
                       (fst (Gateway.checkRoundReadiness "qz" Examples.round2
                               (db Examples.started))))
     = Some {| rd_isReady := true; rd_canStart := true; rd_required := 4; rd_available := 4;
               rd_shortage := 0; rd_previousRoundsCompleted := true;
               rd_incompletePreviousRounds := [] |}.
Proof. split; vm_compute; reflexivity. Qed.

(** ** C8 *)

(** C8, as the code has it.  When a moderator confirms a question for
    which no selection is pending, nothing is processed and the session
    state (database, cache, bonus state, connections, timers) stays as it
    was, but the handler does answer the moderator with an [error] event
    saying that no answer is selected for the question. *)
Theorem C8_confirm_without_selection_reports_error
    client quizId roundId questionId w info :
  connectedUsers w !! client = Some info ->
  ui_role info = MODERATOR ->
  RedisService.getSelectedAnswer quizId questionId (cache w) = None ->
  Gateway.handleConfirmAnswer client quizId roundId questionId w
  = (Ok tt,
     set_emitted (emitted w ++
                    [{| ev_target := ToClient client; ev_name := "error";
                        ev_payload := message "No answer selected for this question" |}]) w).
Proof.
  intros Hc Hrole Hsel.
  unfold Gateway.handleConfirmAnswer, try_catch, bind, redis_get, gets, Gateway.is_role.
  cbv beta. rewrite Hc, Hrole. cbv beta iota delta [UserRole_eqb negb]. rewrite Hsel.
  reflexivity.
Qed.

Lemma C8_witness :
  Gateway.handleConfirmAnswer "cm" "qz" "r1" "m1" Examples.started
  = (Ok tt,
     set_emitted (emitted Examples.started ++
                    [{| ev_target := ToClient "cm"; ev_name := "error";
                        ev_payload := message "No answer selected for this question" |}])
                 Examples.started).
Proof.
  apply (C8_confirm_without_selection_reports_error "cm" "qz" "r1" "m1" Examples.started
           (Examples.connection "mod" MODERATOR)).
  - vm_compute. reflexivity.
  - reflexivity.
  - vm_compute. reflexivity.
Defined.

(** The claim as written fails: an error is surfaced to the client. *)
Lemma C8_counterexample :
  exists e,
    In e (emitted (Gateway.step (Gateway.ConfirmAnswer "cm" "qz" "r1" "m1") Examples.started))
    /\ ~ In e (emitted Examples.started)
    /\ ev_target e = ToClient "cm" /\ ev_name e = "error".
Proof.
  exists {| ev_target := ToClient "cm"; ev_name := "error";
            ev_payload := message "No answer selected for this question" |}.
  split; [| split; [| split; reflexivity]].
  - vm_compute. right. right. left. reflexivity.
  - vm_compute. intros [H | [H | H]]; [discriminate H | discriminate H | exact H].
Qed.

(** ** Distributing the questions of a simultaneous round *)

Lemma obj_get_set_eq {A} key (value : A) obj : obj_get key (obj_set key value obj) = Some value.
Proof.
  induction obj as [| [k v] obj IH]; simpl.
  - rewrite String.eqb_refl. reflexivity.
  - destruct (String.eqb k key) eqn:E; simpl; rewrite E; [reflexivity | exact IH].
Qed.

Lemma obj_get_set_ne {A} key key' (value : A) obj :
  key <> key' -> obj_get key' (obj_set key value obj) = obj_get key' obj.
Proof.
  intros Hne. induction obj as [| [k v] obj IH]; simpl.
  - apply String.eqb_neq in Hne. rewrite Hne. reflexivity.
  - destruct (String.eqb k key) eqn:E; simpl.
    + apply String.eqb_eq in E. subst k.
      apply String.eqb_neq in Hne. rewrite Hne. reflexivity.
    + destruct (String.eqb k key'); [reflexivity | exact IH].
Qed.

Lemma distribute_from_other key i order perParticipant qs acc :
  key ∉ map p_userId order ->
  obj_get key (distribute_from i order perParticipant qs acc) = obj_get key acc.
Proof.
  revert i acc. induction order as [| p rest IH]; intros i acc Hnot; simpl; [reflexivity |].
  simpl in Hnot. apply not_elem_of_cons in Hnot. destruct Hnot as (Hne & Hrest).
  rewrite IH by exact Hrest. apply obj_get_set_ne. congruence.
Qed.

Lemma distribute_from_lookup i j order perParticipant qs acc p :
  NoDup (map p_userId order) ->
  order !! j = Some p ->
  obj_get (p_userId p) (distribute_from i order perParticipant qs acc)
  = Some (slice qs ((i + j) * perParticipant) ((i + j) * perParticipant + perParticipant)).
Proof.
  revert i j acc. induction order as [| p0 rest IH]; intros i j acc Hnd Hj;
    [discriminate Hj |].
  simpl in Hnd. apply NoDup_cons in Hnd. destruct Hnd as (Hnot & Hnd).
  destruct j as [| j]; simpl in Hj.
  - inversion Hj; subst p0. simpl.
    rewrite distribute_from_other by exact Hnot.
    rewrite obj_get_set_eq. rewrite Nat.add_0_r. reflexivity.
  - simpl. rewrite (IH (S i) j _ Hnd Hj).
    replace (S i + j)%nat with (i + S j)%nat by lia. reflexivity.
Qed.

Lemma slice_length {A} (l : list A) a n :
  (a + n <= length l)%nat -> length (slice l a (a + n)) = n.
Proof.
  intros H. unfold slice. rewrite length_take, length_drop. lia.
Qed.

Lemma slice_elem {A} (l : list A) a n x :
  In x (slice l a (a + n)) -> exists k, (k < n)%nat /\ l !! (a + k)%nat = Some x.
Proof.
  unfold slice. intros H. apply list_elem_of_In, elem_of_take in H.
  destruct H as (k & Hk & Hlt). rewrite lookup_drop in Hk.
  exists k. split; [lia | exact Hk].
Qed.

(** An order that [handleUpdateParticipantOrder] stores and caches has
    distinct users: the unique index on [(quizId, userId)] rejects any
    other. *)
Lemma distinctb_NoDup l : distinctb l = true -> NoDup l.
Proof.
  induction l as [| x l IH]; simpl; intros H; [constructor |].
  apply andb_true_iff in H. destruct H as (Hx & Hl).
  apply NoDup_cons. split; [| apply IH; exact Hl].
  intros Hin. apply negb_true_iff in Hx.
  assert (Ht : existsb (String.eqb x) l = true).
  { apply existsb_exists. exists x. split; [apply list_elem_of_In; exact Hin |].
    apply String.eqb_refl. }
  congruence.
Qed.

Lemma replaceParticipantOrder_distinct quizId order d d' :
  replaceParticipantOrder quizId order d = (Ok tt, d') -> NoDup (map p_userId order).
Proof.
  unfold replaceParticipantOrder, transaction, bind, modify, get, throw, ret.
  destruct order as [| p rest]; [intros _; constructor |].
  destruct (negb _); [discriminate |].
  destruct (distinctb (map p_userId (p :: rest)) && _) eqn:E; [| discriminate].
  intros _. apply andb_true_iff in E. apply distinctb_NoDup. tauto.
Qed.

(** For a participant order of distinct users and a pool of distinct
    questions that holds at least one chunk per participant,
    [distributeQuestions] assigns participant i the slice of the pool
    from [i * questionsPerParticipant] to
    [(i + 1) * questionsPerParticipant], a full chunk, and questions of
    different participants' chunks are different. *)
Lemma distributeQuestions_chunks
    (order : list Participant) (round : Round) (qs : list Question) :
  (1 <= questionsPerParticipant round)%nat ->
  NoDup (map p_userId order) ->
  NoDup (map question_id qs) ->
  (length order * questionsPerParticipant round <= length qs)%nat ->
  let perParticipant := questionsPerParticipant round in
  let assigned :=
    distributeQuestions order (js_or (Some (questionsPerParticipant round)) 3) qs in
  (forall i p,
      order !! i = Some p ->
      obj_get (p_userId p) assigned
      = Some (slice qs (i * perParticipant) ((i + 1) * perParticipant))
      /\ length (slice qs (i * perParticipant) ((i + 1) * perParticipant)) = perParticipant)
  /\ (forall i j p1 p2 chunk1 chunk2 q1 q2,
         i <> j ->
         order !! i = Some p1 -> order !! j = Some p2 ->
         obj_get (p_userId p1) assigned = Some chunk1 ->
         obj_get (p_userId p2) assigned = Some chunk2 ->
         In q1 chunk1 -> In q2 chunk2 ->
         question_id q1 <> question_id q2).
Proof.
  intros Hpos Hu Hq Hlen perParticipant assigned.
  assert (Hjs : js_or (Some (questionsPerParticipant round)) 3 = perParticipant).
  { subst perParticipant. unfold js_or. destruct (questionsPerParticipant round); [lia |].
    reflexivity. }
  assert (Hget : forall i p, order !! i = Some p ->
                 obj_get (p_userId p) assigned
                 = Some (slice qs (i * perParticipant) (i * perParticipant + perParticipant))).
  { intros i p Hi. subst assigned. rewrite Hjs. unfold distributeQuestions.
    rewrite (distribute_from_lookup 0 i order perParticipant qs [] p Hu Hi). reflexivity. }
  assert (Hmul : forall i, ((i + 1) * perParticipant = i * perParticipant + perParticipant)%nat)
    by (intros; lia).
  split.
  - intros i p Hi. rewrite Hmul. split; [apply Hget; exact Hi |].
    apply slice_length. apply lookup_lt_Some in Hi. fold perParticipant in Hlen. nia.
  - intros i j p1 p2 chunk1 chunk2 q1 q2 Hij Hi Hj H1 H2 Hin1 Hin2 Heq.
    rewrite (Hget i p1 Hi) in H1. rewrite (Hget j p2 Hj) in H2.
    inversion H1; subst chunk1. inversion H2; subst chunk2.
    apply slice_elem in Hin1. destruct Hin1 as (k1 & Hk1 & Hl1).
    apply slice_elem in Hin2. destruct Hin2 as (k2 & Hk2 & Hl2).
    assert (E1 : map question_id qs !! (i * perParticipant + k1)%nat = Some (question_id q1))
      by (rewrite list_lookup_fmap, Hl1; reflexivity).
    assert (E2 : map question_id qs !! (j * perParticipant + k2)%nat = Some (question_id q1))
      by (rewrite list_lookup_fmap, Hl2, Heq; reflexivity).
    pose proof (NoDup_lookup _ _ _ _ Hq E1 E2) as Hidx.
    apply Hij. nia.
Qed.

(** The pool that [getQuestionsForRound] loads has distinct questions
    when the table has (the id is its primary key). *)
Lemma filter_map_NoDup {A B} (f : A -> B) (g : A -> bool) l :
  NoDup (map f l) -> NoDup (map f (List.filter g l)).
Proof.
  induction l as [| x l IH]; simpl; intros H; [constructor |].
  apply NoDup_cons in H. destruct H as (Hnot & Hnd).
  destruct (g x); simpl; [| apply IH; exact Hnd].
  apply NoDup_cons. split; [| apply IH; exact Hnd].
  intros Hin. apply Hnot. apply list_elem_of_In in Hin. apply list_elem_of_In.
  apply in_map_iff in Hin. destruct Hin as (y & Hy & Hin).
  apply filter_In in Hin. apply in_map_iff. exists y. tauto.
Qed.

Lemma getQuestionsForRound_NoDup quizId roundType participantCount perParticipant d qs d' :
  NoDup (map question_id (questions d)) ->
  QuestionsService.getQuestionsForRound quizId roundType participantCount perParticipant d
  = (Ok qs, d') ->
  NoDup (map question_id qs).
Proof.
  intros Hnd H.
  assert (Hsorted : forall g, NoDup (map question_id
                                       (QuestionsService.orderBy_questionNumber
                                          (List.filter g (questions d))))).
  { intros g. unfold QuestionsService.orderBy_questionNumber.
    rewrite (Permutation.Permutation_map question_id (sort_by_Permutation _ _)).
    apply filter_map_NoDup. exact Hnd. }
  assert (Htake : forall n g, NoDup (map question_id
                                       (take n (QuestionsService.orderBy_questionNumber
                                                  (List.filter g (questions d)))))).
  { intros n g. specialize (Hsorted g).
    rewrite <- (take_drop n (QuestionsService.orderBy_questionNumber _)) in Hsorted.
    rewrite map_app in Hsorted. apply NoDup_app in Hsorted. tauto. }
  unfold QuestionsService.getQuestionsForRound, bind, get, ret in H.
  destruct roundType; try destruct perParticipant as [[| n] |];
    inversion H; subst; auto.
Qed.

(** ** C7 *)

Section Sorting.
Context {A : Type} (key : A -> Z).

Lemma insert_by_HdRel y x l :
  Sorted.HdRel (fun a b => key a <= key b) y l ->
  key y <= key x ->
  Sorted.HdRel (fun a b => key a <= key b) y (insert_by (fun a b => key a <=? key b) x l).
Proof.
  intros Hhd Hyx. destruct l as [| z l]; simpl; [constructor; exact Hyx |].
  destruct (key x <=? key z); constructor; [exact Hyx |].
  inversion Hhd; assumption.
Qed.

Lemma insert_by_Sorted x l :
  Sorted.Sorted (fun a b => key a <= key b) l ->
  Sorted.Sorted (fun a b => key a <= key b) (insert_by (fun a b => key a <=? key b) x l).
Proof.
  induction l as [| y l IH]; simpl; intros Hs.
  - constructor; constructor.
  - destruct (key x <=? key y) eqn:E.
    + constructor; [exact Hs |]. constructor. apply Z.leb_le. exact E.
    + inversion Hs as [| ? ? Hs' Hhd]; subst.
      constructor; [apply IH; exact Hs' |].
      apply insert_by_HdRel; [exact Hhd |].
      apply Z.leb_gt in E. lia.
Qed.

Lemma sort_by_Sorted l :
  Sorted.Sorted (fun a b => key a <= key b) (sort_by (fun a b => key a <=? key b) l).
Proof.
  induction l as [| x l IH]; simpl; [constructor |].
  apply insert_by_Sorted. exact IH.
Qed.

Lemma Sorted_take n l :
  Sorted.Sorted (fun a b => key a <= key b) l ->
  Sorted.Sorted (fun a b => key a <= key b) (take n l).
Proof.
  revert n. induction l as [| x l IH]; intros n Hs; destruct n; simpl;
    try constructor.
  - apply IH. inversion Hs; assumption.
  - inversion Hs as [| ? ? Hs' Hhd]; subst.
    destruct l as [| y l]; destruct n; simpl; constructor.
    inversion Hhd; assumption.
Qed.
Lemma Sorted_app_le l1 l2 :
  Sorted.Sorted (fun a b => key a <= key b) (l1 ++ l2) ->
  Forall (fun r => Forall (fun q => key q <= key r) l1) l2.
Proof.
  intros Hs. apply Sorted.Sorted_StronglySorted in Hs; [| intros a b c; lia].
  induction l1 as [| x l1 IH]; simpl in Hs.
  - apply List.Forall_forall. intros r _. constructor.
  - inversion Hs as [| ? ? Hs' Hall]; subst. specialize (IH Hs').
    apply List.Forall_forall. intros r Hr. constructor.
    + rewrite List.Forall_forall in Hall. apply Hall. apply in_or_app. right. exact Hr.
    + rewrite List.Forall_forall in IH. apply IH. exact Hr.
Qed.
End Sorting.

(** C7, as the code has it.  For a sequential round the question supply
    never fails and never looks at the participant count: it returns the
    quiz's unanswered questions of the round's type in ascending question
    number, cut to the [questionsPerParticipant] lowest-numbered of them
    (or to as many as there are, when fewer are available, also none; all
    of them when no count is given), and leaves the database as it is. *)
Theorem C7_sequential_supply_takes_questionsPerParticipant
    quizId roundType participantCount perParticipant d :
  roundType <> simultaneous ->
  exists qs,
    QuestionsService.getQuestionsForRound quizId roundType participantCount perParticipant d
    = (Ok qs, d)
    /\ Forall (fun q => In q (questions d) /\ question_quizId q = quizId
                        /\ isAnswered q = false
                        /\ questionType q = QuestionsService.mapRoundTypeToQuestionType roundType)
              qs
    /\ Sorted.Sorted (fun a b => questionNumber a <= questionNumber b) qs
    /\ length qs = match perParticipant with
                   | Some (S n) => Nat.min (S n) (length (available_for quizId roundType d))
                   | _ => length (available_for quizId roundType d)
                   end
    /\ exists rest,
         Permutation (qs ++ rest) (available_for quizId roundType d)
         /\ Forall (fun r => Forall (fun q => questionNumber q <= questionNumber r) qs) rest.
Proof.
  intros Hseq.
  set (found := QuestionsService.orderBy_questionNumber (available_for quizId roundType d)).
  assert (Hall : Forall (fun q => In q (questions d) /\ question_quizId q = quizId
                                  /\ isAnswered q = false
                                  /\ questionType q
                                     = QuestionsService.mapRoundTypeToQuestionType roundType)
                        found).
  { apply List.Forall_forall. intros q Hin.
    apply (Permutation.Permutation_in q (sort_by_Permutation _ _)) in Hin.
    apply filter_In in Hin. destruct Hin as (Hin & Hc).
    apply andb_true_iff in Hc. destruct Hc as (Hc & Ha).
    apply andb_true_iff in Hc. destruct Hc as (Hq & Ht).
    apply String.eqb_eq in Hq. apply negb_true_iff in Ha.
    repeat split; try assumption.
    destruct (questionType q), (QuestionsService.mapRoundTypeToQuestionType roundType);
      simpl in Ht; congruence. }
  assert (Hsorted : Sorted.Sorted (fun a b => questionNumber a <= questionNumber b) found)
    by apply (sort_by_Sorted questionNumber).
  assert (Hlen : length found = length (available_for quizId roundType d))
    by apply sort_by_length.
  exists (match perParticipant with
          | Some (S n) => take (S n) found
          | _ => found
          end).
  split; [| split; [| split; [| split]]].
  - unfold QuestionsService.getQuestionsForRound, bind, get, ret.
    destruct roundType; [reflexivity | reflexivity | congruence].
  - destruct perParticipant as [[| n] |]; try exact Hall. apply Forall_take. exact Hall.
  - destruct perParticipant as [[| n] |]; try exact Hsorted.
    apply (Sorted_take questionNumber). exact Hsorted.
  - destruct perParticipant as [[| n] |]; try exact Hlen.
    rewrite length_take, Hlen. reflexivity.
  - assert (Hnone : Permutation (found ++ []) (available_for quizId roundType d)
                    /\ Forall (fun r => Forall (fun q => questionNumber q <= questionNumber r)
                                               found) []).
    { split; [rewrite app_nil_r; apply sort_by_Permutation | constructor]. }
    destruct perParticipant as [[| n] |]; try (exists []; exact Hnone).
    exists (drop (S n) found). split.
    + rewrite take_drop. apply sort_by_Permutation.
    + apply (Sorted_app_le questionNumber). rewrite take_drop. exact Hsorted.
Qed.

Lemma C7_witness :
  exists qs,
    QuestionsService.getQuestionsForRound "qz" multiple_choice (Some 3%nat) (Some 2%nat)
      Examples.database = (Ok qs, Examples.database)
    /\ Forall (fun q => In q (questions Examples.database) /\ question_quizId q = "qz"
                        /\ isAnswered q = false
                        /\ questionType q = qt_multiple_choice) qs
    /\ Sorted.Sorted (fun a b => questionNumber a <= questionNumber b) qs
    /\ length qs = Nat.min 2 (length (available_for "qz" multiple_choice Examples.database))
    /\ exists rest,
         Permutation (qs ++ rest) (available_for "qz" multiple_choice Examples.database)
         /\ Forall (fun r => Forall (fun q => questionNumber q <= questionNumber r) qs) rest.
Proof.
  apply (C7_sequential_supply_takes_questionsPerParticipant "qz" multiple_choice
           (Some 3%nat) (Some 2%nat) Examples.database).
  intros H. discriminate H.
Defined.

(** The claim as written fails: with three participants and two
    questions per participant, four multiple-choice questions are
    available, fewer than the six the participants need; the supply does
    not fail, and it returns two questions, not six or more. *)
Lemma C7_counterexample :
  exists qs,
    fst (QuestionsService.getQuestionsForRound "qz" multiple_choice (Some 3%nat) (Some 2%nat)
           Examples.database) = Ok qs
    /\ (length (available_for "qz" multiple_choice Examples.database) < 3 * 2)%nat
    /\ (length qs < 3 * 2)%nat.
Proof.
  exists [Examples.mc "m1" 1 0; Examples.mc "m2" 2 1].
  split; [vm_compute; reflexivity | split; vm_compute; lia].
Qed.

(** ** Confirmation and auto-confirmation reach turn advancement *)


Lemma markQuestionAsAnswered_turn_frame quizId questionId :
  preserves turn_frame (redis_set (RedisService.markQuestionAsAnswered quizId questionId)).
Proof.
  intros w. unfold redis_set, modify, RedisService.markQuestionAsAnswered. simpl.
  destruct (existsb _ _); repeat split.
Qed.

#[local] Hint Resolve markQuestionAsAnswered_turn_frame : frames.




(** Round start in simultaneous mode broadcasts exactly that assignment:
    the [participantQuestions] of [simultaneousRoundStarted] are the
    chunks of [distributeQuestions], taken from the round's questions
    (cached or just loaded) for the participant order in force. *)
Lemma handleStartRound_simultaneous client quizId roundId w info round qs w1 order w2 :
  connectedUsers w !! client = Some info ->
  ui_role info = MODERATOR ->
  Prisma.round_findUnique roundId (db w) = Some round ->
  round_quizId round = quizId ->
  quizType round = simultaneous ->
  roundQuestions_or_load quizId roundId round
    (snd (liftDB (Prisma.round_update_isActive roundId true) w)) = (Ok qs, w1) ->
  qs <> [] ->
  participantOrder_or_default quizId
    (set_cache (RedisService.setCurrentQuestionIndex quizId roundId 0 (cache w1)) w1)
  = (Ok order, w2) ->
  order <> [] ->
  handleStartRound client quizId roundId w
  = (Ok tt,
     set_emitted
       (emitted w2 ++
          [{| ev_target := ToRoom quizId; ev_name := "simultaneousRoundStarted";
              ev_payload :=
                JObj [("roundId", JStr roundId);
                      ("quizType", JStr "simultaneous");
                      ("participantQuestions",
                       JObj (map (fun kv => (fst kv, JArr (map numberedQuestion (snd kv))))
                                 (distributeQuestions order
                                    (js_or (Some (questionsPerParticipant round)) 3) qs)));
                      ("totalRoundTime", JOptNum (timePerQuestion round));
                      ("questionsPerParticipant",
                       JNat (js_or (Some (questionsPerParticipant round)) 3));
                      ("pointsPerCorrect", JNum 5)] |}]) w2).
Proof.
  intros Hc Hrole Hr Hq Hsim Hqs Hne Ho Hone.
  destruct (round_update_isActive_found roundId true (db w) round Hr) as (d1 & Hupd & _).
  unfold handleStartRound, try_catch. unfold bind at 1. unfold gets at 1. cbv beta.
  rewrite Hc. unfold is_role. rewrite Hrole. cbv beta iota delta [UserRole_eqb negb].
  unfold bind at 1. unfold liftDB at 1, gets at 1. cbv beta iota. rewrite set_db_same, Hr.
  rewrite Hq, String.eqb_refl. cbv beta iota delta [negb].
  unfold liftDB at 1 in Hqs. rewrite Hupd in Hqs. simpl snd in Hqs.
  unfold bind at 1. unfold liftDB at 1. rewrite Hupd.
  cbv beta iota. unfold bind at 1. rewrite Hqs.
  destruct qs as [| firstQuestion rest]; [congruence |].
  unfold bind at 1. unfold redis_set at 1, modify at 1. cbv beta iota.
  rewrite Hsim. unfold bind at 1.
  assert (Hpc : forall w0, liftDB (getParticipantCount quizId) w0
                           = (fst (liftDB (getParticipantCount quizId) w0), w0)).
  { intros w0. unfold liftDB, getParticipantCount, bind, get, ret.
    destruct (Prisma.quiz_findUnique quizId (db w0)); rewrite set_db_same; reflexivity. }
  rewrite Hpc.
  assert (Hok : forall w0, exists n, fst (liftDB (getParticipantCount quizId) w0) = Ok n).
  { intros w0. unfold liftDB, getParticipantCount, bind, get, ret.
    destruct (Prisma.quiz_findUnique quizId (db w0)); eexists; reflexivity. }
  match goal with
  | |- context [fst (liftDB (getParticipantCount quizId) ?w0)] =>
      destruct (Hok w0) as (n & Hn); rewrite Hn
  end.
  cbv zeta. unfold bind at 1. rewrite Ho.
  destruct order as [| p0 others]; [congruence |].
  reflexivity.
Qed.

(** ** C3 *)











(** The run that shows it: round 1 is started on the default order, A
    selects the right option for m1 and the moderator confirms.  A's
    answer is stored with its 2 points, and A is still the active
    participant on question index 0; the events are those of the round
    start, the selection and the scoring, with no [nextParticipant].
    On the order that the moderator has fixed, the same confirmation
    makes B active. *)
Example round_on_default_order_stalls :
  let w' := run [StartRound "cm" "qz" "r1"; SelectAnswer "ca" "qz" "r1" "m1" 0;
                 ConfirmAnswer "cm" "qz" "r1" "m1"] Examples.lobby in
  RedisService.getParticipantOrder "qz" (cache w') = None
  /\ map (fun r => (resp_userId r, resp_questionId r, pointsEarned r)) (responses (db w'))
     = [("A", "m1", 2)]
  /\ RedisService.getActiveParticipant "qz" (cache w') = Some "A"
  /\ RedisService.getCurrentQuestionIndex "qz" "r1" (cache w') = Some 0%nat
  /\ map ev_name (emitted w')
     = ["roundStarted"; "answerSelected"; "answerResult"; "leaderboardUpdate"]
  /\ RedisService.getActiveParticipant "qz"
       (cache (step (ConfirmAnswer "cm" "qz" "r1" "m1") Examples.selected)) = Some "B".
Proof. vm_compute. repeat split; reflexivity. Qed.

(** ** C9 *)

Lemma silent_refl w : silent w w.
Proof. reflexivity. Qed.
Lemma silent_trans a b c : silent a b -> silent b c -> silent a c.
Proof. unfold silent. congruence. Qed.

Lemma liftDB_silent {A} (m : M DB A) : preserves silent (liftDB m).
Proof. intros w. unfold liftDB, silent. destruct (m (db w)). reflexivity. Qed.

Lemma redis_set_silent f : preserves silent (redis_set f).
Proof. intros w. reflexivity. Qed.

Lemma roundQuestions_or_load_silent quizId roundId round :
  preserves silent (roundQuestions_or_load quizId roundId round).
Proof.
  unfold roundQuestions_or_load, redis_get.
  pose proof (@liftDB_silent). pose proof redis_set_silent.
  pres silent_refl silent_trans; auto.
Qed.

Lemma participantOrder_or_default_silent quizId :
  preserves silent (participantOrder_or_default quizId).
Proof.
  unfold participantOrder_or_default, redis_get.
  pose proof (@liftDB_silent).
  pres silent_refl silent_trans; auto.
Qed.

(** C9. A moderator starts a simultaneous round of the quiz; the
    participant order in force (the cached one, or else the default
    order) has n distinct users, and the pool of round questions (the
    cached one, or else the one just loaded) has distinct questions, at
    least n * [questionsPerParticipant] of them.  Then the handler ends
    normally and sends one event, [simultaneousRoundStarted] to the
    quiz's room, whose [participantQuestions] give participant i of the
    order the slice of the pool from [i * questionsPerParticipant] to
    [(i + 1) * questionsPerParticipant], a full chunk; questions of
    different participants' chunks are different. *)
Theorem C9_simultaneous_round_start_assigns_disjoint_chunks
    (client quizId roundId : Id) (w w1 w2 : World) (info : UserInfo) (round : Round)
    (qs : list Question) (order : list Participant) :
  connectedUsers w !! client = Some info ->
  ui_role info = MODERATOR ->
  Prisma.round_findUnique roundId (db w) = Some round ->
  round_quizId round = quizId ->
  quizType round = simultaneous ->
  roundQuestions_or_load quizId roundId round
    (snd (liftDB (Prisma.round_update_isActive roundId true) w)) = (Ok qs, w1) ->
  participantOrder_or_default quizId
    (set_cache (RedisService.setCurrentQuestionIndex quizId roundId 0 (cache w1)) w1)
  = (Ok order, w2) ->
  order <> [] ->
  (1 <= questionsPerParticipant round)%nat ->
  NoDup (map p_userId order) ->
  NoDup (map question_id qs) ->
  (length order * questionsPerParticipant round <= length qs)%nat ->
  let perParticipant := questionsPerParticipant round in
  exists assigned,
    fst (handleStartRound client quizId roundId w) = Ok tt
    /\ emitted (step (StartRound client quizId roundId) w)
       = emitted w ++
         [{| ev_target := ToRoom quizId; ev_name := "simultaneousRoundStarted";
             ev_payload :=
               JObj [("roundId", JStr roundId);
                     ("quizType", JStr "simultaneous");
                     ("participantQuestions",
                      JObj (map (fun kv => (fst kv, JArr (map numberedQuestion (snd kv))))
                                assigned));
                     ("totalRoundTime", JOptNum (timePerQuestion round));
                     ("questionsPerParticipant", JNat perParticipant);
                     ("pointsPerCorrect", JNum 5)] |}]
    /\ (forall i p,
           order !! i = Some p ->
           obj_get (p_userId p) assigned
           = Some (slice qs (i * perParticipant) ((i + 1) * perParticipant))
           /\ length (slice qs (i * perParticipant) ((i + 1) * perParticipant))
              = perParticipant)
    /\ (forall i j p1 p2 chunk1 chunk2 q1 q2,
           i <> j ->
           order !! i = Some p1 -> order !! j = Some p2 ->
           obj_get (p_userId p1) assigned = Some chunk1 ->
           obj_get (p_userId p2) assigned = Some chunk2 ->
           In q1 chunk1 -> In q2 chunk2 ->
           question_id q1 <> question_id q2).
Proof.
  intros Hc Hrole Hr Hq Hsim Hqs Ho Hone Hpos Hu Hnd Hlen perParticipant.
  assert (Hne : qs <> []).
  { intros ->. destruct order as [| p rest]; [congruence |]. simpl in Hlen. lia. }
  assert (Hjs : js_or (Some (questionsPerParticipant round)) 3 = perParticipant).
  { subst perParticipant. unfold js_or. destruct (questionsPerParticipant round); [lia |].
    reflexivity. }
  pose proof (handleStartRound_simultaneous client quizId roundId w info round qs w1 order w2
                Hc Hrole Hr Hq Hsim Hqs Hne Ho Hone) as Hrun.
  assert (Hsilent : emitted w2 = emitted w).
  { pose proof (participantOrder_or_default_silent quizId
                  (set_cache (RedisService.setCurrentQuestionIndex quizId roundId 0 (cache w1))
                             w1)) as H2.
    rewrite Ho in H2.
    pose proof (roundQuestions_or_load_silent quizId roundId round
                  (snd (liftDB (Prisma.round_update_isActive roundId true) w))) as H1.
    rewrite Hqs in H1.
    pose proof (liftDB_silent (Prisma.round_update_isActive roundId true) w) as H0.
    unfold silent in *. simpl in *. congruence. }
  pose proof (distributeQuestions_chunks order round qs Hpos Hu Hnd Hlen) as Hchunks.
  cbv zeta in Hchunks. rewrite Hjs in Hrun, Hchunks.
  exists (distributeQuestions order perParticipant qs).
  split; [rewrite Hrun; reflexivity |].
  split; [| exact Hchunks].
  unfold step, handle. rewrite Hrun. simpl. rewrite Hsilent. reflexivity.
Qed.

Lemma C9_witness :
  let w := Examples.lobby_three_rounds in
  let qs := Examples.pool_of_six in
  let order := Examples.default_ABC in
  exists assigned,
    fst (handleStartRound "cm" "qz" "r3" w) = Ok tt
    /\ emitted (step (StartRound "cm" "qz" "r3") w)
       = emitted w ++
         [{| ev_target := ToRoom "qz"; ev_name := "simultaneousRoundStarted";
             ev_payload :=
               JObj [("roundId", JStr "r3");
                     ("quizType", JStr "simultaneous");
                     ("participantQuestions",
                      JObj (map (fun kv => (fst kv, JArr (map numberedQuestion (snd kv))))
                                assigned));
                     ("totalRoundTime", JOptNum (Some 45));
                     ("questionsPerParticipant", JNat 2);
                     ("pointsPerCorrect", JNum 5)] |}]
    /\ (forall i p,
           order !! i = Some p ->
           obj_get (p_userId p) assigned = Some (slice qs (i * 2) ((i + 1) * 2))
           /\ length (slice qs (i * 2) ((i + 1) * 2)) = 2%nat)
    /\ (forall i j p1 p2 chunk1 chunk2 q1 q2,
           i <> j ->
           order !! i = Some p1 -> order !! j = Some p2 ->
           obj_get (p_userId p1) assigned = Some chunk1 ->
           obj_get (p_userId p2) assigned = Some chunk2 ->
           In q1 chunk1 -> In q2 chunk2 ->
           question_id q1 <> question_id q2).
Proof.
  refine (C9_simultaneous_round_start_assigns_disjoint_chunks
            "cm" "qz" "r3" Examples.lobby_three_rounds
            (snd (roundQuestions_or_load "qz" "r3" Examples.round_two_each
                    (snd (liftDB (Prisma.round_update_isActive "r3" true)
                            Examples.lobby_three_rounds))))
            (snd (participantOrder_or_default "qz"
                    (set_cache
                       (RedisService.setCurrentQuestionIndex "qz" "r3" 0
                          (cache (snd (roundQuestions_or_load "qz" "r3" Examples.round_two_each
                                         (snd (liftDB (Prisma.round_update_isActive "r3" true)
                                                 Examples.lobby_three_rounds))))))
                       (snd (roundQuestions_or_load "qz" "r3" Examples.round_two_each
                               (snd (liftDB (Prisma.round_update_isActive "r3" true)
                                       Examples.lobby_three_rounds)))))))
            (Examples.connection "mod" MODERATOR) Examples.round_two_each
            Examples.pool_of_six Examples.default_ABC _ _ _ _ _ _ _ _ _ _ _ _).
  - vm_compute. reflexivity.
  - reflexivity.
  - vm_compute. reflexivity.
  - reflexivity.
  - reflexivity.
  - vm_compute. reflexivity.
  - vm_compute. reflexivity.
  - discriminate.
  - simpl. lia.
  - apply (bool_decide_unpack _). vm_compute. exact I.
  - apply (bool_decide_unpack _). vm_compute. exact I.
  - vm_compute. lia.
Defined.

(** * Further properties of the gateway *)

(** ** What no command does *)

Lemma stored_frame_refl d : stored_frame d d.
Proof.
  split; [reflexivity | split; [reflexivity | split; [| split; auto]]].
  exists []. symmetry. apply app_nil_r.
Qed.

Lemma stored_frame_trans a b c : stored_frame a b -> stored_frame b c -> stored_frame a c.
Proof.
  intros (Hq1 & Hu1 & (l1 & Hr1) & Hi1 & Hs1) (Hq2 & Hu2 & (l2 & Hr2) & Hi2 & Hs2).
  split; [congruence | split; [congruence | split; [| split; auto]]].
  exists (l1 ++ l2). rewrite Hr2, Hr1. symmetry. apply app_assoc.
Qed.

Lemma history_frame_refl w : history_frame w w.
Proof. split; [apply stored_frame_refl |]. exists []. symmetry. apply app_nil_r. Qed.

Lemma history_frame_trans a b c : history_frame a b -> history_frame b c -> history_frame a c.
Proof.
  intros (H1 & l1 & E1) (H2 & l2 & E2). split; [eapply stored_frame_trans; eassumption |].
  exists (l1 ++ l2). rewrite E2, E1. symmetry. apply app_assoc.
Qed.

(** A write to a part of the state that the relation does not read. *)
Ltac pres_modify :=
  match goal with
  | |- preserves _ (modify _) =>
      solve [ let s := fresh "s" in
              intros s; simpl; repeat split; try reflexivity; auto ]
  end.

Ltac pres_with Rrefl Rtrans :=
  repeat first
    [ match goal with |- forall _, _ => intro end
    | solve [auto with frames nocore]
    | pres_step Rrefl Rtrans
    | pres_modify ].

Ltac stored := pres_with stored_frame_refl stored_frame_trans.
Ltac history := pres_with history_frame_refl history_frame_trans.

Lemma same_state_stored_frame {A} (m : M DB A) :
  (forall d, snd (m d) = d) -> preserves stored_frame m.
Proof. intros H d. rewrite H. apply stored_frame_refl. Qed.

(** *** The score rows follow the responses *)

Lemma row_matches_ext d d' s : responses d' = responses d -> row_matches d s -> row_matches d' s.
Proof. unfold row_matches, responses_for. intros ->. auto. Qed.

Lemma row_matches_other d d' r s :
  responses d' = responses d ++ [r] ->
  Prisma.score_key (resp_userId r) (resp_quizId r) (resp_roundId r) s = false ->
  row_matches d s -> row_matches d' s.
Proof.
  unfold row_matches, responses_for, Prisma.score_key. intros -> Hk H.
  rewrite List.filter_app. simpl.
  rewrite (String.eqb_sym (resp_userId r)), (String.eqb_sym (resp_quizId r)),
    (String.eqb_sym (resp_roundId r)), Hk, app_nil_r.
  exact H.
Qed.

Lemma score_key_eq userId quizId roundId s :
  Prisma.score_key userId quizId roundId s = true ->
  score_userId s = userId /\ score_quizId s = quizId /\ score_roundId s = roundId.
Proof.
  unfold Prisma.score_key. intros H. apply andb_true_iff in H. destruct H as (H & H3).
  apply andb_true_iff in H. destruct H as (H1 & H2).
  apply String.eqb_eq in H1. apply String.eqb_eq in H2. apply String.eqb_eq in H3. auto.
Qed.

(** Whatever [calculateRoundScore] returns or throws, it leaves the
    responses alone, and if every score row of another participant or
    round matched the responses, every score row does afterwards. *)
Lemma calculateRoundScore_matches userId quizId roundId d :
  (forall s, In s (scores d) -> Prisma.score_key userId quizId roundId s = false ->
             row_matches d s) ->
  responses (snd (QuizService.calculateRoundScore userId quizId roundId d)) = responses d
  /\ scores_match_responses (snd (QuizService.calculateRoundScore userId quizId roundId d)).
Proof.
  intros Hother.
  unfold QuizService.calculateRoundScore, Prisma.score_upsert, bind, get, modify, ret, throw.
  fold (responses_for userId quizId roundId d).
  destruct (existsb (Prisma.score_key userId quizId roundId) (scores d)) eqn:Ex.
  - simpl. split; [reflexivity |]. intros s Hs. simpl in Hs. apply in_app_or in Hs.
    destruct Hs as [Hs | [<- | []]].
    + apply filter_In in Hs. destruct Hs as (Hs & Hk). apply negb_true_iff in Hk.
      apply (row_matches_ext d); [reflexivity |]. apply Hother; assumption.
    + unfold row_matches, responses_for. simpl. auto.
  - assert (Hall : forall s, In s (scores d) -> row_matches d s).
    { intros s Hs. apply Hother; [exact Hs |].
      destruct (Prisma.score_key userId quizId roundId s) eqn:Ek; [| reflexivity].
      assert (existsb (Prisma.score_key userId quizId roundId) (scores d) = true)
        by (apply existsb_exists; exists s; auto).
      congruence. }
    destruct (Prisma.user_findUnique userId d); [| simpl; split; [reflexivity | exact Hall]].
    destruct (Prisma.quiz_findUnique quizId d); [| simpl; split; [reflexivity | exact Hall]].
    destruct (Prisma.round_findUnique roundId d); [| simpl; split; [reflexivity | exact Hall]].
    simpl. split; [reflexivity |]. intros s Hs. simpl in Hs. apply in_app_or in Hs.
    destruct Hs as [Hs | [<- | []]].
    + apply (row_matches_ext d); [reflexivity |]. apply Hall. exact Hs.
    + unfold row_matches, responses_for. simpl. auto.
Qed.

Lemma updateQuizPositions_scores quizId d :
  scores (snd (QuizService.updateQuizPositions quizId d)) = scores d
  /\ responses (snd (QuizService.updateQuizPositions quizId d)) = responses d.
Proof.
  assert (H : preserves (fun a b => scores b = scores a /\ responses b = responses a)
                (QuizService.updateQuizPositions quizId)).
  { assert (Hl : preserves (fun a b => scores b = scores a /\ responses b = responses a)
                   (QuizService.getQuizLeaderboard quizId))
      by (intros a; rewrite getQuizLeaderboard_state; auto).
    unfold QuizService.updateQuizPositions, Prisma.quiz_update_winnerId.
    pres_with (fun a : DB => conj (eq_refl (scores a)) (eq_refl (responses a)))
              (fun (a b c : DB) (H1 : scores b = scores a /\ responses b = responses a)
                   (H2 : scores c = scores b /\ responses c = responses b) =>
                 conj (eq_trans (proj1 H2) (proj1 H1)) (eq_trans (proj2 H2) (proj2 H1))). }
  apply H.
Qed.

(** Whatever a submission returns or throws, score rows that matched
    the responses still match them. *)
Lemma submitResponse_keeps_scores_matching userId questionId selected roundId points correct :
  preserves (fun d d' => scores_match_responses d -> scores_match_responses d')
            (QuizService.submitResponse userId questionId selected roundId points correct).
Proof.
  intros d Hinv. unfold QuizService.submitResponse, bind at 1, get at 1. cbv beta iota.
  destruct (Prisma.question_findUnique questionId d) as [question |]; [| exact Hinv].
  destruct (Prisma.response_findUnique userId questionId d); [exact Hinv |].
  match goal with
  | |- context [Prisma.response_create ?r] =>
      destruct (response_create_any r d) as [Hsame | (Hok & _)]; set (row := r) in *
  end.
  - unfold bind at 1.
    destruct (Prisma.response_create row d) as [[a | e] d1]; simpl in Hsame; subst d1;
      [| exact Hinv].
    unfold bind at 1.
    destruct (calculateRoundScore_matches userId (question_quizId question) roundId d
                (fun s Hs _ => Hinv s Hs)) as (Hr & Hm).
    destruct (QuizService.calculateRoundScore userId (question_quizId question) roundId d)
      as [[x | e] d2]; simpl in Hr, Hm; [| exact Hm].
    unfold bind at 1. destruct (updateQuizPositions_scores (question_quizId question) d2)
      as (Hs3 & Hr3).
    destruct (QuizService.updateQuizPositions (question_quizId question) d2)
      as [[y | e] d3]; simpl in Hs3, Hr3 |- *;
      intros s Hs; rewrite Hs3 in Hs; apply (row_matches_ext d2); auto.
  - unfold bind at 1. rewrite Hok. unfold bind at 1.
    set (d1 := set_responses (responses d ++ [row]) d).
    assert (Hpre : forall s, In s (scores d1) ->
                             Prisma.score_key userId (question_quizId question) roundId s = false ->
                             row_matches d1 s).
    { intros s Hs Hk. apply (row_matches_other d d1 row); [reflexivity | exact Hk |].
      apply Hinv. exact Hs. }
    destruct (calculateRoundScore_matches userId (question_quizId question) roundId d1 Hpre)
      as (Hr & Hm).
    destruct (QuizService.calculateRoundScore userId (question_quizId question) roundId d1)
      as [[x | e] d2]; simpl in Hr, Hm; [| exact Hm].
    unfold bind at 1. destruct (updateQuizPositions_scores (question_quizId question) d2)
      as (Hs3 & Hr3).
    destruct (QuizService.updateQuizPositions (question_quizId question) d2)
      as [[y | e] d3]; simpl in Hs3, Hr3 |- *;
      intros s Hs; rewrite Hs3 in Hs; apply (row_matches_ext d2); auto.
Qed.

Lemma submitResponse_stored_frame userId questionId selected roundId points correct :
  preserves stored_frame
    (QuizService.submitResponse userId questionId selected roundId points correct).
Proof.
  intros d.
  pose proof (submitResponse_keeps_one_response userId questionId selected roundId points
                correct d) as Hone.
  pose proof (submitResponse_keeps_scores_matching userId questionId selected roundId points
                correct d) as Hmatch.
  destruct (QuizService.submitResponse userId questionId selected roundId points correct d)
    as [o d'] eqn:E. simpl in *.
  assert (Hp : preserves (fun a b => questions b = questions a /\ users b = users a)
                 (QuizService.submitResponse userId questionId selected roundId points correct)).
  { unfold QuizService.submitResponse, Prisma.response_create.
    assert (Hc : forall u q r,
               preserves (fun a b => questions b = questions a /\ users b = users a)
                 (QuizService.calculateRoundScore u q r)).
    { intros u q r d0. destruct (calculateRoundScore_frame u q r d0) as (_ & ? & ? & _). auto. }
    assert (Hu : forall q,
               preserves (fun a b => questions b = questions a /\ users b = users a)
                 (QuizService.updateQuizPositions q)).
    { intros q d0. destruct (updateQuizPositions_frame q d0) as (_ & ? & ? & _). auto. }
    pres_with (fun a : DB => conj (eq_refl (questions a)) (eq_refl (users a)))
         (fun (a b c : DB) (H1 : questions b = questions a /\ users b = users a)
              (H2 : questions c = questions b /\ users c = users b) =>
            conj (eq_trans (proj1 H2) (proj1 H1)) (eq_trans (proj2 H2) (proj2 H1))). }
  destruct (preserves_run _ _ _ _ _ Hp E) as (Hq & Hu).
  split; [exact Hq | split; [exact Hu | split; [| split; [exact Hone | exact Hmatch]]]].
  destruct (submitResponse_any _ _ _ _ _ _ _ _ _ E) as [Hsame | (_ & r & _ & _ & Happ)].
  - exists []. rewrite Hsame. symmetry. apply app_nil_r.
  - exists [r]. exact Happ.
Qed.

Lemma transaction_preserves {A} (R : DB -> DB -> Prop) (m : M DB A) :
  (forall d, R d d) -> preserves R m -> preserves R (transaction m).
Proof.
  intros Hrefl H d. unfold transaction. specialize (H d).
  destruct (m d) as [[a | e] d1]; simpl in *; [exact H | apply Hrefl].
Qed.

Lemma include_username_state d0 l d : snd (include_username d0 l d) = d.
Proof.
  revert d. induction l as [| p l IH]; intros d; simpl; [reflexivity |].
  destruct (Prisma.user_findUnique (po_userId p) d0); [| reflexivity].
  unfold bind. specialize (IH d).
  destruct (include_username d0 l d) as [[rest | e] d1]; simpl in *; exact IH.
Qed.

Lemma getQuestionsForRound_state quizId roundType participantCount perParticipant d :
  snd (QuestionsService.getQuestionsForRound quizId roundType participantCount perParticipant d)
  = d.
Proof. unfold QuestionsService.getQuestionsForRound. destruct roundType; reflexivity. Qed.

Lemma getQuestionRequirements_state quizId d :
  snd (QuestionsService.getQuestionRequirements quizId d) = d.
Proof.
  unfold QuestionsService.getQuestionRequirements, bind, get.
  destruct (Prisma.quiz_findUnique quizId d); reflexivity.
Qed.

Lemma getParticipantCount_state quizId d : snd (getParticipantCount quizId d) = d.
Proof.
  unfold getParticipantCount, bind, get. destruct (Prisma.quiz_findUnique quizId d); reflexivity.
Qed.

Lemma checkRoundReadiness_state quizId round d : snd (checkRoundReadiness quizId round d) = d.
Proof.
  unfold checkRoundReadiness, bind.
  pose proof (getQuestionRequirements_state quizId d) as H1.
  destruct (QuestionsService.getQuestionRequirements quizId d) as [[r | e] d1];
    simpl in H1; subst d1; [| reflexivity].
  pose proof (getQuestionsForRound_state quizId (quizType round) None None d) as H2.
  destruct (QuestionsService.getQuestionsForRound quizId (quizType round) None None d)
    as [[qs | e] d1]; simpl in H2; subst d1; reflexivity.
Qed.

Lemma round_update_isActive_stored_frame roundId b :
  preserves stored_frame (Prisma.round_update_isActive roundId b).
Proof. unfold Prisma.round_update_isActive. stored. Qed.

Lemma getDefaultParticipantOrder_stored_frame quizId :
  preserves stored_frame (getDefaultParticipantOrder quizId).
Proof.
  assert (H : forall d0 l, preserves stored_frame (include_username d0 l))
    by (intros d0 l; apply same_state_stored_frame, include_username_state).
  unfold getDefaultParticipantOrder. stored.
Qed.

Lemma replaceParticipantOrder_stored_frame quizId order :
  preserves stored_frame (replaceParticipantOrder quizId order).
Proof.
  unfold replaceParticipantOrder. apply transaction_preserves; [apply stored_frame_refl |].
  stored.
Qed.

Lemma getQuizLeaderboard_stored_frame quizId :
  preserves stored_frame (QuizService.getQuizLeaderboard quizId).
Proof. apply same_state_stored_frame, getQuizLeaderboard_state. Qed.

Lemma getParticipantCount_stored_frame quizId :
  preserves stored_frame (getParticipantCount quizId).
Proof. apply same_state_stored_frame, getParticipantCount_state. Qed.

Lemma getQuestionsForRound_stored_frame quizId t n k :
  preserves stored_frame (QuestionsService.getQuestionsForRound quizId t n k).
Proof. apply same_state_stored_frame, getQuestionsForRound_state. Qed.

Lemma calculateUserRoundScore_stored_frame quizId roundId userId :
  preserves stored_frame (calculateUserRoundScore quizId roundId userId).
Proof. apply same_state_stored_frame. reflexivity. Qed.

Lemma checkRoundReadiness_stored_frame quizId round :
  preserves stored_frame (checkRoundReadiness quizId round).
Proof. apply same_state_stored_frame, checkRoundReadiness_state. Qed.

Lemma liftDB_history_frame {A} (m : M DB A) :
  preserves stored_frame m -> preserves history_frame (liftDB m).
Proof.
  intros H w. unfold liftDB. specialize (H (db w)).
  destruct (m (db w)) as [r d']. simpl in *. split; [exact H |].
  exists []. symmetry. apply app_nil_r.
Qed.

Lemma liftDB_gets_history_frame {A} (f : DB -> A) : preserves history_frame (liftDB (gets f)).
Proof. apply liftDB_history_frame. intros d. apply stored_frame_refl. Qed.

Lemma redis_set_history_frame f : preserves history_frame (redis_set f).
Proof. intros w. exact (history_frame_refl w). Qed.

Lemma emit_history_frame t n p : preserves history_frame (emit t n p).
Proof. intros w. split; [exact (stored_frame_refl (db w)) |]. eexists. reflexivity. Qed.

#[local] Hint Resolve liftDB_history_frame liftDB_gets_history_frame redis_set_history_frame
  emit_history_frame submitResponse_stored_frame round_update_isActive_stored_frame
  getDefaultParticipantOrder_stored_frame replaceParticipantOrder_stored_frame : frames.
#[local] Hint Resolve getQuizLeaderboard_stored_frame getParticipantCount_stored_frame
  getQuestionsForRound_stored_frame calculateUserRoundScore_stored_frame
  checkRoundReadiness_stored_frame : frames.

Lemma processAnswer_history_frame quizId roundId userId questionId selected :
  preserves history_frame (processAnswer quizId roundId userId questionId selected).
Proof. unfold processAnswer. history. Qed.

Lemma advance_history_frame quizId roundId order active index :
  preserves history_frame (advance quizId roundId order active index).
Proof. unfold advance. history. Qed.

#[local] Hint Resolve processAnswer_history_frame advance_history_frame : frames.

Lemma proceedToNext_history_frame quizId roundId wasCorrect :
  preserves history_frame (proceedToNext quizId roundId wasCorrect).
Proof. unfold proceedToNext. history. Qed.

Lemma autoAdvanceAfterBonus_history_frame quizId roundId :
  preserves history_frame (autoAdvanceAfterBonus quizId roundId).
Proof. unfold autoAdvanceAfterBonus. history. Qed.

Lemma participantOrder_or_default_history_frame quizId :
  preserves history_frame (participantOrder_or_default quizId).
Proof. unfold participantOrder_or_default. history. Qed.

Lemma roundQuestions_or_load_history_frame quizId roundId round :
  preserves history_frame (roundQuestions_or_load quizId roundId round).
Proof. unfold roundQuestions_or_load. history. Qed.

#[local] Hint Resolve proceedToNext_history_frame autoAdvanceAfterBonus_history_frame
  participantOrder_or_default_history_frame roundQuestions_or_load_history_frame : frames.

Lemma handle_history_frame c : preserves history_frame (handle c).
Proof.
  destruct c; unfold handle.
  - unfold handleJoinQuiz. history.
  - unfold handleUpdateParticipantOrder. history.
  - unfold handleStartRound. history.
  - unfold handleCheckRoundReadiness. history.
  - unfold handleSendMessage. history.
  - unfold handleSubmitSimultaneousAnswer. history.
  - unfold handleSkipQuestion. history.
  - unfold handleEndSimultaneousSession. history.
  - unfold handleAutoConfirmAnswer. history.
  - unfold handleSelectAnswer. history.
  - unfold handleConfirmAnswer. history.
  - history.
  - history.
Qed.

Lemma run_history_frame cs w : history_frame w (run cs w).
Proof.
  revert w. induction cs as [| c cs IH]; intros w; simpl.
  - apply history_frame_refl.
  - eapply history_frame_trans; [apply (handle_history_frame c w) | apply IH].
Qed.

(** ** Handlers end normally *)

Lemma try_catch_returns {S} (m : M S unit) (h : Exn -> M S unit) s :
  (forall e s', fst (h e s') = Ok tt) -> fst (try_catch m h s) = Ok tt.
Proof.
  intros Hh. unfold try_catch. destruct (m s) as [[[] | e] s1]; [reflexivity | apply Hh].
Qed.

(** X1. A message with a body never makes its handler throw, and no
    handler takes an event back: whatever the command and the state,
    handling it ends normally (a failure inside is caught and reported
    as an event), and the events sent before are still there, in their
    order, at the head of the list.  A message without a body makes a
    handler throw in exactly one case: [updateParticipantOrder] or
    [startRound] sent by a connected moderator, where the [TypeError]
    escapes the handler with no event sent and nothing changed.  In
    every other case a message without a body ends normally, and all it
    does is send one [error] event to its sender. *)
Theorem X1_only_a_moderator_message_without_body_escapes_its_handler
    (c : Command) (name : Subscription) (client : Id) (authenticatedUser : option User)
    (w : World) :
  (fst (handle c w) = Ok tt
   /\ exists sent, emitted (step c w) = emitted w ++ sent)
  /\ (if catch_reads_payload name && is_role MODERATOR (connectedUsers w !! client) then
        handleWithoutBody name client authenticatedUser w = (Throw TypeError, w)
      else
        fst (handleWithoutBody name client authenticatedUser w) = Ok tt
        /\ refused client w (snd (handleWithoutBody name client authenticatedUser w))).
Proof.
  split.
  - split; [| exact (proj2 (handle_history_frame c w))].
    destruct c; unfold handle;
      try (apply try_catch_returns; intros e s'; reflexivity).
    + reflexivity.
    + unfold bind at 1, gets at 1. cbv beta iota.
      destruct (existsb _ (timers w)); [| reflexivity].
      unfold bind, modify. cbv beta iota.
      unfold autoAdvanceAfterBonus. apply try_catch_returns. reflexivity.
  - unfold refused.
    destruct name; cbn [catch_reads_payload andb];
      unfold handleWithoutBody, try_catch, bind, gets, emit, modify, throw, is_role;
      cbv beta iota zeta.
    1: destruct authenticatedUser; simpl; split;
         [reflexivity | eexists; reflexivity | reflexivity | eexists; reflexivity].
    all: (destruct (connectedUsers w !! client) as [info |]; [destruct (ui_role info) |]);
      simpl; first [reflexivity | split; [reflexivity | eexists; reflexivity]].
Qed.

(** X3. No command writes the question table or the user table.  In
    particular no command sets [isAnswered], so the question supply
    gives a round the same questions after any sequence of commands as
    before it: a question answered in one round is supplied again. *)
Theorem X3_commands_never_write_questions (cs : list Command) (w : World)
    (quizId : Id) (roundType : QuizType) (participantCount perParticipant : option nat) :
  questions (db (run cs w)) = questions (db w)
  /\ users (db (run cs w)) = users (db w)
  /\ fst (QuestionsService.getQuestionsForRound quizId roundType participantCount
            perParticipant (db (run cs w)))
     = fst (QuestionsService.getQuestionsForRound quizId roundType participantCount
              perParticipant (db w)).
Proof.
  destruct (run_history_frame cs w) as ((Hq & Hu & _) & _).
  split; [exact Hq | split; [exact Hu |]].
  unfold QuestionsService.getQuestionsForRound, bind, get, ret.
  destruct roundType; simpl; rewrite Hq; reflexivity.
Qed.

(** X4. The gateway keeps the responses it has stored and never gives a
    (participant, question) pair a second one: if no pair has two
    responses, no sequence of commands (confirmations, auto-confirmations,
    simultaneous submissions, in any order and from any client) leads to
    a state where one has, and the earlier responses are still stored. *)
Theorem X4_commands_keep_one_response_per_pair (cs : list Command) (w : World) :
  one_response_per_pair (db w) ->
  one_response_per_pair (db (run cs w))
  /\ exists added, responses (db (run cs w)) = responses (db w) ++ added.
Proof.
  intros Hinv. destruct (run_history_frame cs w) as ((_ & _ & Hadd & Hone & _) & _).
  split; [apply Hone; exact Hinv | exact Hadd].
Qed.

Lemma X4_witness :
  one_response_per_pair
    (db (run [ConfirmAnswer "cm" "qz" "r1" "m1"; AutoConfirmAnswer "cm" "qz" "r1" "m1" 0]
           Examples.selected))
  /\ exists added,
       responses (db (run [ConfirmAnswer "cm" "qz" "r1" "m1";
                           AutoConfirmAnswer "cm" "qz" "r1" "m1" 0] Examples.selected))
       = responses (db Examples.selected) ++ added.
Proof.
  apply (X4_commands_keep_one_response_per_pair
           [ConfirmAnswer "cm" "qz" "r1" "m1"; AutoConfirmAnswer "cm" "qz" "r1" "m1" 0]
           Examples.selected).
  intros userId questionId. vm_compute. lia.
Defined.

(** ** The keys of the cache *)

Lemma colons_app a b : colons (a +:+ b) = (colons a + colons b)%nat.
Proof. induction a as [| c a IH]; simpl; [reflexivity | rewrite IH; lia]. Qed.

Lemma append_assoc a b c : (a +:+ b) +:+ c = a +:+ b +:+ c.
Proof.
  induction a as [| x a IH]; [reflexivity |].
  change (String x ((a +:+ b) +:+ c) = String x (a +:+ b +:+ c)).
  rewrite IH. reflexivity.
Qed.

(** Two strings that are equal and start with ids without a colon, each
    followed by a colon, have the same id and the same rest. *)
Lemma app_colon_inj a a' b b' :
  colon_free a -> colon_free a' ->
  a +:+ String ":"%char b = a' +:+ String ":"%char b' -> a = a' /\ b = b'.
Proof.
  unfold colon_free. revert a'. induction a as [| c a IH]; intros [| c' a']; simpl.
  - intros _ _ H. inversion H. auto.
  - intros _ H' H. inversion H; subst c'. simpl in H'. discriminate H'.
  - intros H' _ H. inversion H; subst c. simpl in H'. discriminate H'.
  - intros Ha Ha' H. inversion H; subst c'.
    destruct (IH a') as (-> & ->); auto; destruct (Ascii.eqb c ":"%char); simpl in *; lia.
Qed.

(** Equal keys have the same number of colons. *)
Ltac count_colons H :=
  apply (f_equal colons) in H; unfold colon_free in *;
  repeat (rewrite ?colons_app in H; simpl in H); lia.

Ltac split_key H :=
  let E := fresh "E" in
  apply app_colon_inj in H; [destruct H as (E & H); try subst | assumption..].

(** A key [quiz:ID:NAME] with a name without a colon determines the id
    and the name, when one of the two ids is known to have no colon. *)
Lemma single_key_inj a b s t :
  colon_free a -> colon_free s -> colon_free t ->
  "quiz:" +:+ b +:+ String ":"%char t = "quiz:" +:+ a +:+ String ":"%char s -> b = a /\ t = s.
Proof.
  intros Ha Hs Ht H.
  assert (Hb : colon_free b) by count_colons H.
  simpl in H. inversion H as [H1]. apply app_colon_inj in H1; assumption.
Qed.

Lemma roundAnswered_inj q r q' r' :
  colon_free q -> colon_free r -> colon_free q' -> colon_free r' ->
  Keys.roundAnswered q r = Keys.roundAnswered q' r' -> q = q' /\ r = r'.
Proof.
  intros Hq Hr Hq' Hr' H. unfold Keys.roundAnswered in H. simpl in H.
  inversion H as [H1]. clear H. split_key H1. inversion H1 as [H2]. split_key H2. auto.
Qed.

Lemma participantAnswered_inj q r u q' r' u' :
  colon_free q -> colon_free r -> colon_free u ->
  colon_free q' -> colon_free r' -> colon_free u' ->
  Keys.participantAnswered q r u = Keys.participantAnswered q' r' u' ->
  q = q' /\ r = r' /\ u = u'.
Proof.
  intros Hq Hr Hu Hq' Hr' Hu' H. unfold Keys.participantAnswered in H. simpl in H.
  inversion H as [H1]. clear H. split_key H1. inversion H1 as [H2]. split_key H2.
  inversion H2 as [H3]. split_key H3. auto.
Qed.

Lemma questionCount_inj q r u q' r' u' :
  colon_free q -> colon_free r -> colon_free u ->
  colon_free q' -> colon_free r' -> colon_free u' ->
  Keys.questionCount q r u = Keys.questionCount q' r' u' ->
  q = q' /\ r = r' /\ u = u'.
Proof.
  intros Hq Hr Hu Hq' Hr' Hu' H. unfold Keys.questionCount in H. simpl in H.
  inversion H as [H1]. clear H. split_key H1. inversion H1 as [H2]. split_key H2.
  inversion H2 as [H3]. split_key H3. auto.
Qed.

Lemma roundAnswered_participantAnswered q r q' r' u' :
  colon_free q -> colon_free r ->
  Keys.roundAnswered q r <> Keys.participantAnswered q' r' u'.
Proof.
  intros Hq Hr H. unfold Keys.roundAnswered, Keys.participantAnswered in H. count_colons H.
Qed.

Lemma participantAnswered_roundAnswered q r u q' r' :
  colon_free q' -> colon_free r' ->
  Keys.participantAnswered q r u <> Keys.roundAnswered q' r'.
Proof.
  intros Hq Hr H. unfold Keys.roundAnswered, Keys.participantAnswered in H. count_colons H.
Qed.

(** The key of the questions of a quiz whose id has no colon is the key
    of no other entry. *)
Lemma questions_key_apart quizId :
  colon_free quizId ->
  forall q r x,
    Keys.questions quizId <> Keys.roundQuestions q r
    /\ Keys.questions quizId <> Keys.currentQuestion q r
    /\ Keys.questions quizId <> Keys.participants q
    /\ Keys.questions quizId <> Keys.activeParticipant q
    /\ Keys.questions quizId <> Keys.answeredQuestions q
    /\ Keys.questions quizId <> Keys.selectedAnswer q x
    /\ Keys.questions quizId <> Keys.quizCache q "bonusState".
Proof.
  intros Hq q r x.
  assert (Hshort : forall name, colon_free name -> name <> "questions" ->
             Keys.questions quizId <> "quiz:" +:+ q +:+ String ":"%char name).
  { intros name Hname Hne H. unfold Keys.questions in H. symmetry in H.
    apply single_key_inj in H; [| assumption || reflexivity ..]. tauto. }
  repeat split;
    try (apply Hshort; [reflexivity | discriminate]);
    intros H;
    unfold Keys.questions, Keys.roundQuestions, Keys.currentQuestion, Keys.selectedAnswer in H;
    count_colons H.
Qed.

(** Keys of different patterns that are built from the same quiz id are
    different strings, whatever the ids: after the common prefix they go
    on with different words.  So the entries that one handler reads and
    writes for the ids of its message are apart: what scoring and
    confirmation write (the answered questions, the bonus state, the
    selection) is none of the entries that decide the turn. *)
Lemma append_inv_head a b c : a +:+ b = a +:+ c -> b = c.
Proof.
  induction a as [| x a IH]; simpl; [auto |]. intros H. inversion H. auto.
Qed.

Lemma turn_keys_apart q r r' x key :
  In key [Keys.answeredQuestions q; Keys.quizCache q "bonusState"; Keys.selectedAnswer q x] ->
  ~ In key [Keys.participants q; Keys.activeParticipant q; Keys.currentQuestion q r;
            Keys.roundQuestions q r'; Keys.questions q].
Proof.
  unfold Keys.answeredQuestions, Keys.quizCache, Keys.selectedAnswer, Keys.participants,
    Keys.activeParticipant, Keys.currentQuestion, Keys.roundQuestions, Keys.questions.
  intros Hw Hr. simpl in Hw, Hr.
  repeat match goal with
         | H : _ \/ _ |- _ => destruct H as [H | H]
         | H : False |- _ => destruct H
         end;
    subst key;
    repeat match goal with
           | H : ?a +:+ _ = ?a +:+ _ |- _ => apply append_inv_head in H
           end;
    discriminate.
Qed.

(** ** The quiz's question cache *)

Lemma quizQuestions_frame_refl w : quizQuestions_frame w w.
Proof. reflexivity. Qed.

Lemma quizQuestions_frame_trans a b c :
  quizQuestions_frame a b -> quizQuestions_frame b c -> quizQuestions_frame a c.
Proof. unfold quizQuestions_frame. congruence. Qed.

Lemma liftDB_quizQuestions_frame {A} (m : M DB A) : preserves quizQuestions_frame (liftDB m).
Proof. intros w. unfold liftDB. destruct (m (db w)). reflexivity. Qed.

Lemma redis_set_quizQuestions_frame f :
  (forall c, c_questions (f c) = c_questions c) ->
  preserves quizQuestions_frame (redis_set f).
Proof. intros H w. apply H. Qed.

Lemma emit_quizQuestions_frame t n p : preserves quizQuestions_frame (emit t n p).
Proof. intros w. reflexivity. Qed.

Lemma markQuestionAsAnswered_questions quizId questionId c :
  c_questions (RedisService.markQuestionAsAnswered quizId questionId c) = c_questions c.
Proof. unfold RedisService.markQuestionAsAnswered. destruct (existsb _ _); reflexivity. Qed.

#[local] Hint Resolve liftDB_quizQuestions_frame emit_quizQuestions_frame : frames.
#[local] Hint Extern 1 (preserves quizQuestions_frame (redis_set _)) =>
  apply redis_set_quizQuestions_frame; intro;
  first [reflexivity | apply markQuestionAsAnswered_questions] : frames.

Ltac cached := pres_with quizQuestions_frame_refl quizQuestions_frame_trans.

Lemma processAnswer_quizQuestions_frame quizId roundId userId questionId selected :
  preserves quizQuestions_frame (processAnswer quizId roundId userId questionId selected).
Proof. unfold processAnswer. cached. Qed.

Lemma advance_quizQuestions_frame quizId roundId order active index :
  preserves quizQuestions_frame (advance quizId roundId order active index).
Proof. unfold advance. cached. Qed.

#[local] Hint Resolve processAnswer_quizQuestions_frame advance_quizQuestions_frame : frames.

Lemma proceedToNext_quizQuestions_frame quizId roundId wasCorrect :
  preserves quizQuestions_frame (proceedToNext quizId roundId wasCorrect).
Proof. unfold proceedToNext. cached. Qed.

Lemma autoAdvanceAfterBonus_quizQuestions_frame quizId roundId :
  preserves quizQuestions_frame (autoAdvanceAfterBonus quizId roundId).
Proof. unfold autoAdvanceAfterBonus. cached. Qed.

Lemma participantOrder_or_default_quizQuestions_frame quizId :
  preserves quizQuestions_frame (participantOrder_or_default quizId).
Proof. unfold participantOrder_or_default. cached. Qed.

Lemma roundQuestions_or_load_quizQuestions_frame quizId roundId round :
  preserves quizQuestions_frame (roundQuestions_or_load quizId roundId round).
Proof. unfold roundQuestions_or_load. cached. Qed.

#[local] Hint Resolve proceedToNext_quizQuestions_frame
  autoAdvanceAfterBonus_quizQuestions_frame participantOrder_or_default_quizQuestions_frame
  roundQuestions_or_load_quizQuestions_frame : frames.

Lemma handle_quizQuestions_frame c : preserves quizQuestions_frame (handle c).
Proof.
  destruct c; unfold handle.
  - unfold handleJoinQuiz. cached.
  - unfold handleUpdateParticipantOrder. cached.
  - unfold handleStartRound. cached.
  - unfold handleCheckRoundReadiness. cached.
  - unfold handleSendMessage. cached.
  - unfold handleSubmitSimultaneousAnswer. cached.
  - unfold handleSkipQuestion. cached.
  - unfold handleEndSimultaneousSession. cached.
  - unfold handleAutoConfirmAnswer. cached.
  - unfold handleSelectAnswer. cached.
  - unfold handleConfirmAnswer. cached.
  - cached.
  - cached.
Qed.

Lemma run_quizQuestions_frame cs w : quizQuestions_frame w (run cs w).
Proof.
  revert w. induction cs as [| c cs IH]; intros w; simpl.
  - reflexivity.
  - eapply quizQuestions_frame_trans; [apply (handle_quizQuestions_frame c w) | apply IH].
Qed.

(** X5. No command caches a quiz's questions: the gateway only reads
    that cache entry.  For a quiz id without a colon, the key of the
    quiz's questions is none of the keys that the handlers write or
    delete, whatever ids their messages carry; so if the questions of
    the quiz are not cached, they are not cached after any sequence of
    commands, and scoring an answer for the quiz still fails with
    "Questions not cached for this quiz" before anything is stored or
    sent. *)
Theorem X5_commands_never_cache_quiz_questions (cs : list Command) (w : World)
    (quizId roundId userId questionId : Id) (selected : Z) :
  colon_free quizId ->
  RedisService.getQuizQuestions quizId (cache w) = None ->
  (forall q r x,
      Keys.questions quizId <> Keys.roundQuestions q r
      /\ Keys.questions quizId <> Keys.currentQuestion q r
      /\ Keys.questions quizId <> Keys.participants q
      /\ Keys.questions quizId <> Keys.activeParticipant q
      /\ Keys.questions quizId <> Keys.answeredQuestions q
      /\ Keys.questions quizId <> Keys.selectedAnswer q x
      /\ Keys.questions quizId <> Keys.quizCache q "bonusState")
  /\ RedisService.getQuizQuestions quizId (cache (run cs w)) = None
  /\ processAnswer quizId roundId userId questionId selected (run cs w)
     = (Throw (JsError "Questions not cached for this quiz"), run cs w).
Proof.
  intros Hfree Hnone. split; [apply questions_key_apart; exact Hfree |].
  pose proof (run_quizQuestions_frame cs w) as Hq.
  unfold quizQuestions_frame in Hq.
  unfold RedisService.getQuizQuestions in *. rewrite Hq. split; [exact Hnone |].
  unfold processAnswer, bind at 1, RedisService.validateAnswer, RedisService.getQuizQuestions.
  rewrite Hq, Hnone. reflexivity.
Qed.

Lemma X5_witness :
  (forall q r x,
      Keys.questions "quiz2" <> Keys.roundQuestions q r
      /\ Keys.questions "quiz2" <> Keys.currentQuestion q r
      /\ Keys.questions "quiz2" <> Keys.participants q
      /\ Keys.questions "quiz2" <> Keys.activeParticipant q
      /\ Keys.questions "quiz2" <> Keys.answeredQuestions q
      /\ Keys.questions "quiz2" <> Keys.selectedAnswer q x
      /\ Keys.questions "quiz2" <> Keys.quizCache q "bonusState")
  /\ RedisService.getQuizQuestions "quiz2"
       (cache (run [StartRound "cm" "quiz2" "r9"] Examples.lobby)) = None
  /\ processAnswer "quiz2" "r9" "A" "m1" 0 (run [StartRound "cm" "quiz2" "r9"] Examples.lobby)
     = (Throw (JsError "Questions not cached for this quiz"),
        run [StartRound "cm" "quiz2" "r9"] Examples.lobby).
Proof.
  apply (X5_commands_never_cache_quiz_questions [StartRound "cm" "quiz2" "r9"] Examples.lobby
           "quiz2" "r9" "A" "m1" 0).
  - reflexivity.
  - vm_compute. reflexivity.
Defined.

(** ** Who may do what *)

(** The guard at the head of each handler. *)
Lemma role_guard (c : Command) (client : Id) (r : UserRole) (w : World) :
  sender c = Some client ->
  required_role c = Some r ->
  is_role r (connectedUsers w !! client) = false ->
  refused client w (step c w).
Proof.
  intros Hs Hr Hrole. unfold refused, step.
  destruct c; simpl in Hs, Hr; inv_pair Hs; inv_pair Hr; unfold handle;
    try (match goal with
         | |- context [?h client] => unfold h
         end;
         unfold try_catch, bind at 1, gets at 1; cbv beta iota;
         try rewrite Hrole; unfold is_role in Hrole;
         destruct (connectedUsers w !! client) as [info |];
         try rewrite Hrole; eexists; reflexivity).
Qed.

(** X6. Role guards: a moderator-only command (participant order, round
    start, readiness check, confirmation, auto-confirmation) from a
    client that is not a connected moderator, and a contestant-only
    command (selection, simultaneous submission, skip, end of session)
    from a client that is not a connected contestant, changes nothing:
    the only effect is one [error] event sent to that client. *)
Theorem X6_wrong_role_is_refused (c : Command) (client : Id) (r : UserRole) (w : World) :
  sender c = Some client ->
  required_role c = Some r ->
  is_role r (connectedUsers w !! client) = false ->
  refused client w (step c w).
Proof. apply role_guard. Qed.

Lemma X6_witness : refused "ca" Examples.lobby (step (StartRound "ca" "qz" "r1") Examples.lobby).
Proof.
  apply (X6_wrong_role_is_refused (StartRound "ca" "qz" "r1") "ca" MODERATOR Examples.lobby);
    vm_compute; reflexivity.
Defined.

Lemma handleDisconnect_drops client w :
  connectedUsers (snd (handleDisconnect client w)) !! client = None
  /\ db (snd (handleDisconnect client w)) = db w
  /\ cache (snd (handleDisconnect client w)) = cache w.
Proof.
  unfold handleDisconnect, bind, gets, modify, emit, ret.
  destruct (connectedUsers w !! client) as [info |] eqn:E; [| auto].
  destruct (ui_quizId info) as [quizId |]; [destruct (String.eqb quizId "") |]; simpl;
    (split; [apply lookup_delete_eq | split; reflexivity]).
Qed.

(** X7. After [handleDisconnect] the client is no longer a connected
    user, and every message it sends to a handler other than [joinQuiz]
    is refused: nothing is stored or cached, one [error] goes back to it. *)
Theorem X7_disconnected_client_is_refused (client : Id) (c : Command) (w : World) :
  sender c = Some client ->
  (forall u quizId, c <> JoinQuiz client u quizId) ->
  (forall name body, c <> Unsubscribed client name body) ->
  connectedUsers (snd (handleDisconnect client w)) !! client = None
  /\ refused client (snd (handleDisconnect client w))
       (step c (snd (handleDisconnect client w))).
Proof.
  intros Hs Hj Hu. destruct (handleDisconnect_drops client w) as (Hnone & _).
  split; [exact Hnone |].
  set (w1 := snd (handleDisconnect client w)) in *. clearbody w1.
  destruct (required_role c) as [r |] eqn:Hr.
  - apply (role_guard c client r w1 Hs Hr). rewrite Hnone. reflexivity.
  - destruct c; simpl in Hs, Hr; try discriminate; inv_pair Hs.
    + exfalso. eapply Hj. reflexivity.
    + unfold refused, step, handle, handleSendMessage, try_catch, bind at 1, gets at 1.
      cbv beta iota. rewrite Hnone. eexists. reflexivity.
    + exfalso. eapply Hu. reflexivity.
Qed.

Lemma X7_witness :
  connectedUsers (snd (handleDisconnect "ca" Examples.started)) !! "ca" = None
  /\ refused "ca" (snd (handleDisconnect "ca" Examples.started))
       (step (SelectAnswer "ca" "qz" "r1" "m1" 0) (snd (handleDisconnect "ca" Examples.started))).
Proof.
  apply (X7_disconnected_client_is_refused "ca" (SelectAnswer "ca" "qz" "r1" "m1" 0)
           Examples.started).
  - reflexivity.
  - intros u quizId. discriminate.
  - intros name body. discriminate.
Defined.

(** ** Selecting an answer *)

(** X8. A selection by the contestant whose turn it is becomes the
    pending answer of the question: it is stored with the contestant's
    id and the selected option (replacing any selection stored for the
    question before), every pending answer that is stored under another
    key is untouched, nothing is written to the database, and the room
    is told with one [answerSelected] event. *)
Theorem X8_active_contestant_selection_is_pending
    (client quizId roundId questionId : Id) (selected : Z) (w : World) (info : UserInfo) :
  connectedUsers w !! client = Some info ->
  ui_role info = CONTESTANT ->
  RedisService.getActiveParticipant quizId (cache w) = Some (ui_userId info) ->
  RedisService.getSelectedAnswer quizId questionId
    (cache (step (SelectAnswer client quizId roundId questionId selected) w))
  = Some {| sa_userId := ui_userId info; sa_selectedIndex := selected |}
  /\ (forall quizId' questionId',
         Keys.selectedAnswer quizId' questionId' <> Keys.selectedAnswer quizId questionId ->
         RedisService.getSelectedAnswer quizId' questionId'
           (cache (step (SelectAnswer client quizId roundId questionId selected) w))
         = RedisService.getSelectedAnswer quizId' questionId' (cache w))
  /\ db (step (SelectAnswer client quizId roundId questionId selected) w) = db w
  /\ emitted (step (SelectAnswer client quizId roundId questionId selected) w)
     = emitted w ++ [{| ev_target := ToRoom quizId; ev_name := "answerSelected";
                        ev_payload :=
                          JObj [("userId", JStr (ui_userId info));
                                ("questionId", JStr questionId);
                                ("selectedIndex", JNum selected);
                                ("username", JStr (username (ui_user info)))] |}].
Proof.
  intros Hc Hrole Ha.
  assert (E : step (SelectAnswer client quizId roundId questionId selected) w
              = set_emitted
                  (emitted w ++ [{| ev_target := ToRoom quizId; ev_name := "answerSelected";
                                    ev_payload :=
                                      JObj [("userId", JStr (ui_userId info));
                                            ("questionId", JStr questionId);
                                            ("selectedIndex", JNum selected);
                                            ("username", JStr (username (ui_user info)))] |}])
                  (set_cache (RedisService.storeSelectedAnswer quizId questionId
                                (ui_userId info) selected (cache w)) w)).
  { unfold step, handle, handleSelectAnswer, try_catch, bind, redis_get, redis_set, emit,
      gets, modify.
    cbv beta. rewrite Hc, Hrole. cbv beta iota delta [UserRole_eqb negb].
    rewrite Ha, String.eqb_refl. reflexivity. }
  rewrite E. unfold RedisService.getSelectedAnswer. simpl.
  split; [apply lookup_insert_eq | split; [| split; reflexivity]].
  intros quizId' questionId' Hne. apply lookup_insert_ne. congruence.
Qed.

Lemma X8_witness :
  RedisService.getSelectedAnswer "qz" "m1"
    (cache (step (SelectAnswer "ca" "qz" "r1" "m1" 2) Examples.selected))
  = Some {| sa_userId := "A"; sa_selectedIndex := 2 |}
  /\ (forall quizId' questionId',
         Keys.selectedAnswer quizId' questionId' <> Keys.selectedAnswer "qz" "m1" ->
         RedisService.getSelectedAnswer quizId' questionId'
           (cache (step (SelectAnswer "ca" "qz" "r1" "m1" 2) Examples.selected))
         = RedisService.getSelectedAnswer quizId' questionId' (cache Examples.selected))
  /\ db (step (SelectAnswer "ca" "qz" "r1" "m1" 2) Examples.selected) = db Examples.selected
  /\ emitted (step (SelectAnswer "ca" "qz" "r1" "m1" 2) Examples.selected)
     = emitted Examples.selected
       ++ [{| ev_target := ToRoom "qz"; ev_name := "answerSelected";
              ev_payload :=
                JObj [("userId", JStr "A"); ("questionId", JStr "m1");
                      ("selectedIndex", JNum 2); ("username", JStr "A")] |}].
Proof.
  apply (X8_active_contestant_selection_is_pending "ca" "qz" "r1" "m1" 2 Examples.selected
           (Examples.connection "A" CONTESTANT)); vm_compute; reflexivity.
Defined.

(** X9. A selection by a contestant whose turn it is not (another
    participant is active, or nobody is) is refused: no pending answer
    is stored or replaced, and the only effect is an [error] event to
    the sender. *)
Theorem X9_selection_out_of_turn_is_refused
    (client quizId roundId questionId : Id) (selected : Z) (w : World) (info : UserInfo) :
  connectedUsers w !! client = Some info ->
  ui_role info = CONTESTANT ->
  RedisService.getActiveParticipant quizId (cache w) <> Some (ui_userId info) ->
  refused client w (step (SelectAnswer client quizId roundId questionId selected) w).
Proof.
  intros Hc Hrole Ha.
  unfold refused, step, handle, handleSelectAnswer, try_catch, bind, redis_get, emit, gets,
    modify.
  cbv beta. rewrite Hc, Hrole. cbv beta iota delta [UserRole_eqb negb].
  destruct (RedisService.getActiveParticipant quizId (cache w)) as [active |] eqn:E.
  - destruct (String.eqb active (ui_userId info)) eqn:Eq.
    + apply String.eqb_eq in Eq. subst active. contradiction.
    + eexists. reflexivity.
  - eexists. reflexivity.
Qed.

Lemma X9_witness :
  refused "cb" Examples.started (step (SelectAnswer "cb" "qz" "r1" "m1" 1) Examples.started).
Proof.
  apply (X9_selection_out_of_turn_is_refused "cb" "qz" "r1" "m1" 1 Examples.started
           (Examples.connection "B" CONTESTANT)).
  - vm_compute. reflexivity.
  - reflexivity.
  - vm_compute. discriminate.
Defined.

(** ** The participant order *)

Lemma find_In_some {A} (f : A -> bool) l x :
  In x l -> f x = true -> exists y, find f l = Some y.
Proof.
  intros Hin Hf. destruct (find f l) as [y |] eqn:E; [exists y; reflexivity |].
  pose proof (List.find_none f l E x Hin). congruence.
Qed.

(** X10. The order is frozen while a round of the quiz is active: a
    moderator's [updateParticipantOrder] is then refused, with the
    stored and the cached order left as they are. *)
Theorem X10_order_is_frozen_while_a_round_is_active
    (client quizId : Id) (order : list (Id * Z)) (w : World) (info : UserInfo) (r : Round) :
  connectedUsers w !! client = Some info ->
  ui_role info = MODERATOR ->
  In r (rounds (db w)) ->
  round_quizId r = quizId ->
  round_isActive r = true ->
  refused client w (step (UpdateParticipantOrder client quizId order) w).
Proof.
  intros Hc Hrole Hin Hq Hact.
  destruct (find_In_some (fun r => String.eqb (round_quizId r) quizId && round_isActive r)
              (rounds (db w)) r Hin) as (y & Hy).
  { rewrite Hq, String.eqb_refl, Hact. reflexivity. }
  unfold refused, step, handle, handleUpdateParticipantOrder, try_catch.
  unfold bind at 1, gets at 1. cbv beta iota. rewrite Hc. unfold is_role. rewrite Hrole.
  cbv beta iota delta [UserRole_eqb negb].
  unfold bind at 1, liftDB at 1, gets at 1. cbv beta iota. rewrite Hy, set_db_same.
  eexists. reflexivity.
Qed.

Lemma X10_witness :
  refused "cm" Examples.started
    (step (UpdateParticipantOrder "cm" "qz" [("C", 0); ("A", 1); ("B", 2)]) Examples.started).
Proof.
  apply (X10_order_is_frozen_while_a_round_is_active "cm" "qz" [("C", 0); ("A", 1); ("B", 2)]
           Examples.started (Examples.connection "mod" MODERATOR) Examples.round1_active).
  - vm_compute. reflexivity.
  - reflexivity.
  - vm_compute. left. reflexivity.
  - reflexivity.
  - reflexivity.
Defined.

Lemma NoDup_distinctb l : NoDup l -> distinctb l = true.
Proof.
  induction 1 as [| x l Hx Hl IH]; simpl; [reflexivity |].
  rewrite IH, andb_true_r. apply negb_true_iff.
  destruct (existsb (String.eqb x) l) eqn:E; [| reflexivity].
  apply existsb_exists in E. destruct E as (y & Hy & Heq).
  apply String.eqb_eq in Heq. subst y. exfalso. apply Hx. apply list_elem_of_In. exact Hy.
Qed.

Lemma NoDup_distinctZ l : NoDup l -> distinctZ l = true.
Proof.
  induction 1 as [| x l Hx Hl IH]; simpl; [reflexivity |].
  rewrite IH, andb_true_r. apply negb_true_iff.
  destruct (existsb (Z.eqb x) l) eqn:E; [| reflexivity].
  apply existsb_exists in E. destruct E as (y & Hy & Heq).
  apply Z.eqb_eq in Heq. subst y. exfalso. apply Hx. apply list_elem_of_In. exact Hy.
Qed.

Lemma filter_all {A} (f : A -> bool) l : (forall x, In x l -> f x = true) -> List.filter f l = l.
Proof.
  induction l as [| x l IH]; intros H; simpl; [reflexivity |].
  rewrite (H x (or_introl eq_refl)). f_equal. apply IH. intros y Hy. apply H. right. exact Hy.
Qed.

Lemma filter_none {A} (f : A -> bool) l :
  (forall x, In x l -> f x = false) -> List.filter f l = [].
Proof.
  induction l as [| x l IH]; intros H; simpl; [reflexivity |].
  rewrite (H x (or_introl eq_refl)). apply IH. intros y Hy. apply H. right. exact Hy.
Qed.

Lemma replaceParticipantOrder_entries quizId entries d :
  forallb (fun p => match Prisma.user_findUnique (p_userId p) d with
                    | Some _ => true
                    | None => false
                    end) entries = true ->
  (exists q, Prisma.quiz_findUnique quizId d = Some q) ->
  distinctb (map p_userId entries) = true ->
  distinctZ (map p_orderIndex entries) = true ->
  forallb (fun p => Prisma.int4 (p_orderIndex p)) entries = true ->
  replaceParticipantOrder quizId entries d
  = (Ok tt,
     set_participantOrders
       (List.filter (fun p => negb (String.eqb (po_quizId p) quizId)) (participantOrders d)
        ++ map (fun p => {| po_quizId := quizId; po_userId := p_userId p;
                            orderIndex := p_orderIndex p |}) entries) d).
Proof.
  intros Hall (q & Hq) Hd1 Hd2 Hint.
  unfold replaceParticipantOrder, transaction, bind, modify, get.
  destruct entries as [| e es].
  - simpl. unfold ret. rewrite app_nil_r. reflexivity.
  - cbv beta iota. rewrite Hint. cbv beta iota delta [negb].
    match goal with
    | |- context [forallb ?f (e :: es)] =>
        replace (forallb f (e :: es)) with true by (symmetry; exact Hall)
    end.
    match goal with
    | |- context [Prisma.quiz_findUnique quizId ?d1] =>
        replace (Prisma.quiz_findUnique quizId d1) with (Some q) by (symmetry; exact Hq)
    end.
    rewrite Hd1, Hd2. reflexivity.
Qed.

Lemma replaceParticipantOrder_Ok quizId order d :
  (forall p, In p order -> exists u, In u (users d) /\ user_id u = fst p) ->
  (exists q, In q (quizzes d) /\ quiz_id q = quizId) ->
  NoDup (map fst order) ->
  NoDup (map snd order) ->
  (forall p, In p order -> Prisma.int4 (snd p) = true) ->
  replaceParticipantOrder quizId (order_entries order) d
  = (Ok tt,
     set_participantOrders
       (List.filter (fun p => negb (String.eqb (po_quizId p) quizId)) (participantOrders d)
        ++ order_rows quizId order) d).
Proof.
  intros Hu (q & Hq & Hqid) Hd1 Hd2 Hint.
  rewrite replaceParticipantOrder_entries.
  - unfold order_rows, order_entries. rewrite map_map. reflexivity.
  - apply forallb_forall. intros e He. unfold order_entries in He.
    apply in_map_iff in He. destruct He as (p & <- & Hp). simpl.
    destruct (Hu p Hp) as (u & Hin & Hid).
    destruct (find_In_some (fun u => String.eqb (user_id u) (fst p)) (users d) u Hin)
      as (y & Hy); [rewrite Hid; apply String.eqb_refl |].
    unfold Prisma.user_findUnique. rewrite Hy. reflexivity.
  - destruct (find_In_some (fun q => String.eqb (quiz_id q) quizId) (quizzes d) q Hq)
      as (y & Hy); [rewrite Hqid; apply String.eqb_refl |].
    exists y. exact Hy.
  - unfold order_entries. rewrite map_map. apply NoDup_distinctb. exact Hd1.
  - unfold order_entries. rewrite map_map. apply NoDup_distinctZ. exact Hd2.
  - apply forallb_forall. intros e He. unfold order_entries in He.
    apply in_map_iff in He. destruct He as (p & <- & Hp). simpl. apply Hint. exact Hp.
Qed.

Lemma filter_order_rows quizId order :
  List.filter (fun p => String.eqb (po_quizId p) quizId) (order_rows quizId order)
  = order_rows quizId order
  /\ List.filter (fun p => negb (String.eqb (po_quizId p) quizId)) (order_rows quizId order)
     = [].
Proof.
  split.
  - apply filter_all. intros x Hx. apply in_map_iff in Hx. destruct Hx as (p & <- & _).
    apply String.eqb_refl.
  - apply filter_none. intros x Hx. apply in_map_iff in Hx. destruct Hx as (p & <- & _).
    simpl. rewrite String.eqb_refl. reflexivity.
Qed.

(** X11. With no round of the quiz active, a moderator's new order of
    existing users for an existing quiz, with no user and no index
    listed twice and every index within the 32-bit range of the
    [orderIndex] column, replaces the quiz's stored order by exactly the
    given rows (the orders of other quizzes are kept), becomes the cached
    order that the round start and the turn advancement read, and is
    announced to the room. *)
Theorem X11_accepted_order_is_stored_and_cached
    (client quizId : Id) (order : list (Id * Z)) (w : World) (info : UserInfo) :
  connectedUsers w !! client = Some info ->
  ui_role info = MODERATOR ->
  (forall r, In r (rounds (db w)) -> round_quizId r = quizId -> round_isActive r = false) ->
  (forall p, In p order -> exists u, In u (users (db w)) /\ user_id u = fst p) ->
  (exists q, In q (quizzes (db w)) /\ quiz_id q = quizId) ->
  NoDup (map fst order) ->
  NoDup (map snd order) ->
  (forall p, In p order -> Prisma.int4 (snd p) = true) ->
  QuestionsService.participantOrders_of quizId
    (db (step (UpdateParticipantOrder client quizId order) w))
  = order_rows quizId order
  /\ List.filter (fun p => negb (String.eqb (po_quizId p) quizId))
       (participantOrders (db (step (UpdateParticipantOrder client quizId order) w)))
     = List.filter (fun p => negb (String.eqb (po_quizId p) quizId))
         (participantOrders (db w))
  /\ RedisService.getParticipantOrder quizId
       (cache (step (UpdateParticipantOrder client quizId order) w))
     = Some (order_entries order)
  /\ emitted (step (UpdateParticipantOrder client quizId order) w)
     = emitted w
       ++ [{| ev_target := ToRoom quizId; ev_name := "participantOrderUpdated";
              ev_payload :=
                JObj [("participantOrder", JArr (map JParticipant (order_entries order)))] |}].
Proof.
  intros Hc Hrole Hidle Hu Hq Hd1 Hd2 Hint.
  assert (Hnone : find (fun r => String.eqb (round_quizId r) quizId && round_isActive r)
                    (rounds (db w)) = None).
  { destruct (find _ (rounds (db w))) as [r |] eqn:E; [| reflexivity].
    apply List.find_some in E. destruct E as (Hin & Hb).
    apply andb_true_iff in Hb. destruct Hb as (Hb1 & Hb2). apply String.eqb_eq in Hb1.
    rewrite (Hidle r Hin Hb1) in Hb2. discriminate. }
  pose proof (replaceParticipantOrder_Ok quizId order (db w) Hu Hq Hd1 Hd2 Hint) as Hrep.
  assert (E : step (UpdateParticipantOrder client quizId order) w
              = set_emitted
                  (emitted w
                   ++ [{| ev_target := ToRoom quizId; ev_name := "participantOrderUpdated";
                          ev_payload :=
                            JObj [("participantOrder",
                                   JArr (map JParticipant (order_entries order)))] |}])
                  (set_cache
                     (RedisService.cacheParticipantOrder quizId (order_entries order) (cache w))
                     (set_db
                        (set_participantOrders
                           (List.filter (fun p => negb (String.eqb (po_quizId p) quizId))
                                        (participantOrders (db w))
                            ++ order_rows quizId order) (db w)) w))).
  { unfold step, handle, handleUpdateParticipantOrder, try_catch.
    fold (order_entries order).
    unfold bind at 1, gets at 1. cbv beta iota. rewrite Hc. unfold is_role. rewrite Hrole.
    cbv beta iota delta [UserRole_eqb negb].
    unfold bind at 1, liftDB at 1, gets at 1. cbv beta iota. rewrite Hnone, set_db_same.
    unfold bind at 1, liftDB at 1. rewrite Hrep. reflexivity. }
  rewrite E. simpl. destruct (filter_order_rows quizId order) as (Hin & Hout).
  split; [| split; [| split]].
  - unfold QuestionsService.participantOrders_of. simpl.
    rewrite List.filter_app, Hin, filter_neg_nil. reflexivity.
  - rewrite List.filter_app, Hout, filter_idem, app_nil_r. reflexivity.
  - unfold RedisService.getParticipantOrder. simpl. apply lookup_insert_eq.
  - reflexivity.
Qed.

Lemma X11_witness :
  QuestionsService.participantOrders_of "qz"
    (db (step (UpdateParticipantOrder "cm" "qz" [("C", 0); ("A", 1)]) Examples.lobby))
  = order_rows "qz" [("C", 0); ("A", 1)]
  /\ List.filter (fun p => negb (String.eqb (po_quizId p) "qz"))
       (participantOrders
          (db (step (UpdateParticipantOrder "cm" "qz" [("C", 0); ("A", 1)]) Examples.lobby)))
     = List.filter (fun p => negb (String.eqb (po_quizId p) "qz"))
         (participantOrders (db Examples.lobby))
  /\ RedisService.getParticipantOrder "qz"
       (cache (step (UpdateParticipantOrder "cm" "qz" [("C", 0); ("A", 1)]) Examples.lobby))
     = Some (order_entries [("C", 0); ("A", 1)])
  /\ emitted (step (UpdateParticipantOrder "cm" "qz" [("C", 0); ("A", 1)]) Examples.lobby)
     = emitted Examples.lobby
       ++ [{| ev_target := ToRoom "qz"; ev_name := "participantOrderUpdated";
              ev_payload :=
                JObj [("participantOrder",
                       JArr (map JParticipant (order_entries [("C", 0); ("A", 1)])))] |}].
Proof.
  apply (X11_accepted_order_is_stored_and_cached "cm" "qz" [("C", 0); ("A", 1)] Examples.lobby
           (Examples.connection "mod" MODERATOR)).
  - vm_compute. reflexivity.
  - reflexivity.
  - intros r [<- | [<- | []]] _; reflexivity.
  - intros p [<- | [<- | []]];
      [exists (Examples.user "C" CONTESTANT) | exists (Examples.user "A" CONTESTANT)];
      (split; [simpl; tauto | reflexivity]).
  - eexists. split; [left; reflexivity | reflexivity].
  - apply (bool_decide_unpack _). vm_compute. exact I.
  - apply (bool_decide_unpack _). vm_compute. exact I.
  - intros p [<- | [<- | []]]; reflexivity.
Defined.

(** X12. An order that lists a user twice is rejected as a whole: the
    deletion of the old rows is rolled back with the failed insertion,
    so the stored order, the cached order and everything else are as
    before, and the moderator gets one [error] event. *)
Theorem X12_order_with_a_duplicate_user_changes_nothing
    (client quizId : Id) (order : list (Id * Z)) (w : World) :
  ~ NoDup (map fst order) ->
  refused client w (step (UpdateParticipantOrder client quizId order) w).
Proof.
  intros Hdup.
  assert (Hb : distinctb (map fst order) = false).
  { destruct (distinctb (map fst order)) eqn:E; [| reflexivity].
    exfalso. apply Hdup. apply distinctb_NoDup. exact E. }
  assert (Hrep : exists e, replaceParticipantOrder quizId (order_entries order) (db w)
                           = (Throw e, db w)).
  { unfold replaceParticipantOrder, transaction, bind, modify, get.
    assert (Hids : map p_userId (order_entries order) = map fst order)
      by (unfold order_entries; rewrite map_map; reflexivity).
    destruct (order_entries order) as [| e0 es] eqn:Ee.
    { destruct order; [discriminate Hb | discriminate Ee]. }
    cbv beta iota. rewrite Hids, Hb.
    match goal with
    | |- context [if ?c then _ else _] => destruct c
    end; eexists; reflexivity. }
  destruct Hrep as (e & Hrep).
  unfold refused, step, handle, handleUpdateParticipantOrder, try_catch.
  fold (order_entries order).
  unfold bind at 1, gets at 1. cbv beta iota.
  destruct (negb (is_role MODERATOR (connectedUsers w !! client))); [eexists; reflexivity |].
  unfold bind at 1, liftDB at 1, gets at 1. cbv beta iota. rewrite set_db_same.
  destruct (find _ (rounds (db w))); [eexists; reflexivity |].
  unfold bind at 1, liftDB at 1. rewrite Hrep, set_db_same. eexists. reflexivity.
Qed.

Lemma X12_witness :
  refused "cm" Examples.lobby
    (step (UpdateParticipantOrder "cm" "qz" [("A", 0); ("A", 1)]) Examples.lobby).
Proof.
  apply (X12_order_with_a_duplicate_user_changes_nothing "cm" "qz" [("A", 0); ("A", 1)]
           Examples.lobby).
  intros H. apply NoDup_cons in H. destruct H as (H & _). apply H. left.
Defined.

(** *** The default order *)

Lemma find_unique_user us u :
  NoDup (map user_id us) -> In u us ->
  find (fun x => String.eqb (user_id x) (user_id u)) us = Some u.
Proof.
  induction us as [| x us IH]; intros Hnd Hin; [destruct Hin |].
  simpl in Hnd. apply NoDup_cons in Hnd. destruct Hnd as (Hx & Hnd). simpl.
  destruct Hin as [-> | Hin].
  - rewrite String.eqb_refl. reflexivity.
  - destruct (String.eqb (user_id x) (user_id u)) eqn:E; [| apply IH; assumption].
    apply String.eqb_eq in E. exfalso. apply Hx. rewrite E.
    apply list_elem_of_In. apply in_map. exact Hin.
Qed.

Lemma include_username_default quizId d0 us k d :
  (forall u, In u us -> Prisma.user_findUnique (user_id u) d0 = Some u) ->
  include_username d0
    (map (entry_row quizId) (imap (fun i u => default_entry (k + i) u) us)) d
  = (Ok (imap (fun i u => default_entry (k + i) u) us), d).
Proof.
  revert k. induction us as [| u us IH]; intros k Hus; [reflexivity |].
  rewrite imap_cons. simpl map. simpl include_username.
  rewrite (Hus u (or_introl eq_refl)). unfold bind.
  rewrite (imap_ext _ (fun i u => default_entry (S k + i) u) us)
    by (intros i x _; simpl; f_equal; lia).
  rewrite IH by (intros x Hx; apply Hus; right; exact Hx).
  unfold ret. reflexivity.
Qed.

Lemma sort_by_default_rows quizId us k :
  sort_by (fun a b => orderIndex a <=? orderIndex b)
    (map (entry_row quizId) (imap (fun i u => default_entry (k + i) u) us))
  = map (entry_row quizId) (imap (fun i u => default_entry (k + i) u) us).
Proof.
  revert k. induction us as [| u us IH]; intros k; [reflexivity |].
  rewrite imap_cons. simpl map. unfold sort_by. simpl fold_right. fold (@sort_by ParticipantOrder).
  rewrite (imap_ext _ (fun i u => default_entry (S k + i) u) us)
    by (intros i x _; simpl; f_equal; lia).
  change (fold_right (insert_by (fun a b => orderIndex a <=? orderIndex b)) [])
    with (sort_by (fun a b : ParticipantOrder => orderIndex a <=? orderIndex b)).
  rewrite IH. destruct us as [| v us]; [reflexivity |].
  rewrite imap_cons. simpl.
  destruct (Z.leb_spec (Z.of_nat (k + 0)) (Z.of_nat (S (k + 0)))) as [_ | Hlt]; [reflexivity | lia].
Qed.

(** X13. The default order is created once.  For a quiz without stored
    order rows, [getDefaultParticipantOrder] lists the quiz's
    contestants in table order with the indices 0, 1, 2, ... and stores
    these rows; asked again, it returns the same order and writes
    nothing more. *)
Theorem X13_default_order_is_created_once
    (quizId : Id) (d d1 : DB) (order : list Participant) :
  NoDup (map user_id (users d)) ->
  QuestionsService.participantOrders_of quizId d = [] ->
  getDefaultParticipantOrder quizId d = (Ok order, d1) ->
  order = imap default_entry (QuestionsService.contestants_of quizId d)
  /\ QuestionsService.participantOrders_of quizId d1 = map (entry_row quizId) order
  /\ getDefaultParticipantOrder quizId d1 = (Ok order, d1).
Proof.
  intros Hnd Hnone Hcall.
  unfold getDefaultParticipantOrder, bind at 1, get at 1 in Hcall. cbv beta iota zeta in Hcall.
  rewrite Hnone in Hcall. simpl sort_by in Hcall. cbv beta iota in Hcall.
  fold default_entry in Hcall.
  assert (Hlook : forall u, In u (QuestionsService.contestants_of quizId d) ->
                            Prisma.user_findUnique (user_id u) d = Some u).
  { intros u Hu. apply filter_In in Hu. destruct Hu as (Hu & _).
    apply find_unique_user; assumption. }
  destruct (imap default_entry (QuestionsService.contestants_of quizId d))
    as [| e0 es] eqn:Eo.
  - unfold bind, ret in Hcall. inv_pair Hcall.
    split; [reflexivity | split; [exact Hnone |]].
    unfold getDefaultParticipantOrder, bind, get. cbv beta iota zeta.
    rewrite Hnone. simpl sort_by. cbv beta iota. fold default_entry. rewrite Eo. reflexivity.
  - cbv beta iota in Hcall. rewrite <- Eo in Hcall. unfold bind at 1 in Hcall.
    destruct (Prisma.quiz_findUnique quizId d) as [q |] eqn:Eq; [| discriminate Hcall].
    unfold bind, modify, ret in Hcall. inv_pair Hcall.
    assert (Hrows : QuestionsService.participantOrders_of quizId
                      (set_participantOrders
                         (participantOrders d
                          ++ map (fun p => {| po_quizId := quizId; po_userId := p_userId p;
                                              orderIndex := p_orderIndex p |})
                               (imap default_entry (QuestionsService.contestants_of quizId d)))
                         d)
                    = map (entry_row quizId)
                        (imap default_entry (QuestionsService.contestants_of quizId d))).
    { unfold QuestionsService.participantOrders_of in *. simpl.
      rewrite List.filter_app, Hnone. simpl. apply filter_all.
      intros x Hx. apply in_map_iff in Hx. destruct Hx as (p & <- & _). apply String.eqb_refl. }
    rewrite <- Eo.
    split; [reflexivity | split; [exact Hrows |]].
    unfold getDefaultParticipantOrder, bind at 1, get at 1. cbv beta iota zeta.
    rewrite Hrows.
    pose proof (sort_by_default_rows quizId (QuestionsService.contestants_of quizId d) 0) as Hs.
    change (fun i u => default_entry (0 + i) u) with default_entry in Hs.
    rewrite Hs.
    match goal with
    | |- _ ?d1 = _ =>
        pose proof (include_username_default quizId d1
                      (QuestionsService.contestants_of quizId d) 0 d1 Hlook) as Hi
    end.
    change (fun i u => default_entry (0 + i) u) with default_entry in Hi.
    destruct (map (entry_row quizId)
                (imap default_entry (QuestionsService.contestants_of quizId d)))
      as [| r0 rs] eqn:Er.
    { rewrite Eo in Er. discriminate Er. }
    exact Hi.
Qed.

Lemma X13_witness :
  imap default_entry (QuestionsService.contestants_of "qz" Examples.database)
  = imap default_entry (QuestionsService.contestants_of "qz" Examples.database)
  /\ QuestionsService.participantOrders_of "qz"
       (snd (getDefaultParticipantOrder "qz" Examples.database))
     = map (entry_row "qz")
         (imap default_entry (QuestionsService.contestants_of "qz" Examples.database))
  /\ getDefaultParticipantOrder "qz" (snd (getDefaultParticipantOrder "qz" Examples.database))
     = (Ok (imap default_entry (QuestionsService.contestants_of "qz" Examples.database)),
        snd (getDefaultParticipantOrder "qz" Examples.database)).
Proof.
  apply (X13_default_order_is_created_once "qz" Examples.database
           (snd (getDefaultParticipantOrder "qz" Examples.database))
           (imap default_entry (QuestionsService.contestants_of "qz" Examples.database))).
  - apply (bool_decide_unpack _). vm_compute. exact I.
  - reflexivity.
  - vm_compute. reflexivity.
Defined.

(** * Further properties of scoring *)

(** ** The leaderboard's totals *)

Lemma has_key_false k m : QuizService.has_key k m = false -> ~ In k (map fst m).
Proof.
  unfold QuizService.has_key. intros H Hin. apply in_map_iff in Hin.
  destruct Hin as (kv & <- & Hkv).
  assert (existsb (fun kv0 => String.eqb (fst kv0) (fst kv)) m = true).
  { apply existsb_exists. exists kv. split; [exact Hkv | apply String.eqb_refl]. }
  congruence.
Qed.

Lemma has_key_true k m : QuizService.has_key k m = true -> In k (map fst m).
Proof.
  unfold QuizService.has_key. intros H. apply existsb_exists in H.
  destruct H as (kv & Hkv & Heq). apply String.eqb_eq in Heq. subst k.
  apply in_map. exact Hkv.
Qed.

Lemma add_score_keys m row :
  map fst (QuizService.add_score m row)
  = if QuizService.has_key (score_userId (fst (fst row))) m then map fst m
    else map fst m ++ [score_userId (fst (fst row))].
Proof.
  destruct row as ((s & u) & rn). unfold QuizService.add_score. simpl.
  rewrite map_map.
  assert (E : forall l : list (Id * UserTotal),
             map (fun x => fst (if String.eqb (fst x) (score_userId s)
                                then (fst x,
                                      {| ut_user := ut_user (snd x);
                                         totalScore := totalScore (snd x) + roundScore s;
                                         totalQuestionsAnswered :=
                                           (totalQuestionsAnswered (snd x) + questionsAnswered s)%nat;
                                         totalQuestionsCorrect :=
                                           (totalQuestionsCorrect (snd x) + questionsCorrect s)%nat;
                                         ut_rounds :=
                                           ut_rounds (snd x)
                                           ++ [{| re_roundNumber := rn;
                                                  re_roundScore := roundScore s;
                                                  re_questionsAnswered := questionsAnswered s;
                                                  re_questionsCorrect := questionsCorrect s |}] |})
                                else x)) l = map fst l).
  { intros l. apply map_ext. intros x. destruct (String.eqb (fst x) (score_userId s)); reflexivity. }
  rewrite E. destruct (QuizService.has_key (score_userId s) m); [reflexivity |].
  rewrite map_app. reflexivity.
Qed.

Lemma scores_of_user_snoc k l s :
  scores_of_user k (l ++ [s])
  = if String.eqb (score_userId s) k then scores_of_user k l ++ [s] else scores_of_user k l.
Proof.
  unfold scores_of_user. rewrite List.filter_app. simpl.
  destruct (String.eqb (score_userId s) k); [reflexivity | apply app_nil_r].
Qed.

Lemma totals_match_other k t l s :
  String.eqb (score_userId s) k = false -> totals_match k t l -> totals_match k t (l ++ [s]).
Proof.
  unfold totals_match. intros E H. rewrite scores_of_user_snoc, E. exact H.
Qed.

Lemma totals_match_add k t l s rn :
  totals_match k t l ->
  score_userId s = k ->
  totals_match k
    {| ut_user := ut_user t;
       totalScore := totalScore t + roundScore s;
       totalQuestionsAnswered := (totalQuestionsAnswered t + questionsAnswered s)%nat;
       totalQuestionsCorrect := (totalQuestionsCorrect t + questionsCorrect s)%nat;
       ut_rounds := ut_rounds t ++ [{| re_roundNumber := rn; re_roundScore := roundScore s;
                                       re_questionsAnswered := questionsAnswered s;
                                       re_questionsCorrect := questionsCorrect s |}] |}
    (l ++ [s]).
Proof.
  unfold totals_match. intros (Hu & Ht & Ha & Hc) Hk. simpl.
  rewrite scores_of_user_snoc, Hk, String.eqb_refl, !fold_left_app. simpl.
  rewrite <- Ht, <- Ha, <- Hc. auto.
Qed.

Lemma add_score_totals m done row :
  row_ok row ->
  (forall k t, In (k, t) m -> totals_match k t done) ->
  (forall s, In s done -> In (score_userId s) (map fst m)) ->
  (forall k t, In (k, t) (QuizService.add_score m row) ->
               totals_match k t (done ++ [fst (fst row)]))
  /\ (forall s, In s (done ++ [fst (fst row)]) ->
                In (score_userId s) (map fst (QuizService.add_score m row))).
Proof.
  intros Hrow Hm Hdone. split.
  - destruct row as ((s & u) & rn). unfold row_ok in Hrow. simpl in Hrow. simpl fst.
    intros k t Hin. unfold QuizService.add_score in Hin. simpl in Hin.
    apply in_map_iff in Hin. destruct Hin as ((k0 & t0) & Heq & Hin0). simpl in Heq.
    assert (Hold : In (k0, t0) m -> totals_match k t (done ++ [s])).
    { intros Hin1. specialize (Hm k0 t0 Hin1).
      destruct (String.eqb k0 (score_userId s)) eqn:E; inv_pair Heq.
      - apply String.eqb_eq in E. apply totals_match_add; [exact Hm | congruence].
      - apply totals_match_other; [| exact Hm].
        rewrite String.eqb_sym. exact E. }
    destruct (QuizService.has_key (score_userId s) m) eqn:Ek; [apply Hold; exact Hin0 |].
    apply in_app_or in Hin0. destruct Hin0 as [Hin0 | [Hnew | []]]; [apply Hold; exact Hin0 |].
    inv_pair Hnew. rewrite String.eqb_refl in Heq. inv_pair Heq.
    assert (Hempty : scores_of_user (score_userId s) done = []).
    { apply filter_none. intros x Hx.
      destruct (String.eqb (score_userId x) (score_userId s)) eqn:E; [| reflexivity].
      apply String.eqb_eq in E. exfalso. apply (has_key_false _ _ Ek).
      rewrite <- E. apply Hdone. exact Hx. }
    unfold totals_match. simpl.
    rewrite scores_of_user_snoc, String.eqb_refl, Hempty. simpl. auto.
  - intros s0 Hs0. rewrite add_score_keys.
    apply in_app_or in Hs0. destruct Hs0 as [Hs0 | [<- | []]].
    + specialize (Hdone s0 Hs0). destruct (QuizService.has_key _ m); [exact Hdone |].
      apply in_or_app. left. exact Hdone.
    + destruct (QuizService.has_key _ m) eqn:Ek; [apply has_key_true; exact Ek |].
      apply in_or_app. right. left. reflexivity.
Qed.

Lemma fold_add_score_totals rows m done :
  Forall row_ok rows ->
  (forall k t, In (k, t) m -> totals_match k t done) ->
  (forall s, In s done -> In (score_userId s) (map fst m)) ->
  forall k t, In (k, t) (fold_left QuizService.add_score rows m) ->
              totals_match k t (done ++ map (fun row => fst (fst row)) rows).
Proof.
  revert m done. induction rows as [| row rows IH]; intros m done Hok Hm Hdone k t Hin.
  - simpl in *. rewrite app_nil_r. apply Hm. exact Hin.
  - simpl in Hin. apply Forall_cons in Hok. destruct Hok as (Hrow & Hok).
    destruct (add_score_totals m done row Hrow Hm Hdone) as (Hm' & Hdone').
    specialize (IH _ _ Hok Hm' Hdone' k t Hin).
    simpl. rewrite <- app_assoc in IH. exact IH.
Qed.

Lemma score_findMany_include_rows d0 l d rows d' :
  QuizService.score_findMany_include d0 l d = (Ok rows, d') ->
  map (fun row => fst (fst row)) rows = l /\ Forall row_ok rows.
Proof.
  revert d rows d'. induction l as [| s l IH]; intros d rows d'; simpl.
  - unfold ret. intros H. inv_pair H. split; [reflexivity | constructor].
  - unfold QuizService.include_user_round.
    destruct (Prisma.user_findUnique (score_userId s) d0) as [u |] eqn:Eu; [| discriminate].
    destruct (Prisma.round_findUnique (score_roundId s) d0) as [r |]; [| discriminate].
    intros H. inv_bind H as rest d1 Hrest. unfold ret in H. inv_pair H.
    destruct (IH _ _ _ Hrest) as (Hmap & Hok). simpl. split; [f_equal; exact Hmap |].
    constructor; [| exact Hok].
    unfold row_ok. simpl. unfold Prisma.user_findUnique in Eu.
    apply List.find_some in Eu. destruct Eu as (_ & Eu). apply String.eqb_eq in Eu. exact Eu.
Qed.

Lemma getQuizLeaderboard_rows quizId d lb d' :
  QuizService.getQuizLeaderboard quizId d = (Ok lb, d') ->
  exists rows,
    map (fun row => fst (fst row)) rows
    = List.filter (fun s => String.eqb (score_quizId s) quizId) (scores d)
    /\ Forall row_ok rows
    /\ lb = QuizService.rank (map snd (fold_left QuizService.add_score rows [])).
Proof.
  unfold QuizService.getQuizLeaderboard. intros H.
  inv_bind H as qz d1 Hfind.
  pose proof (findQuizById_state quizId d) as Hst. rewrite Hfind in Hst. simpl in Hst. subst d1.
  inv_bind H as d1 d2 Hget. unfold get in Hget. inv_pair Hget.
  inv_bind H as rows d3 Hrows. unfold ret in H. inv_pair H.
  apply score_findMany_include_rows in Hrows. destruct Hrows as (Hmap & Hok).
  exists rows. auto.
Qed.

Lemma rank_In e totals :
  In e (QuizService.rank totals) ->
  exists t, In t totals /\ ut_user (le_entry e) = ut_user t
            /\ totalScore (le_entry e) = totalScore t
            /\ totalQuestionsAnswered (le_entry e) = totalQuestionsAnswered t
            /\ totalQuestionsCorrect (le_entry e) = totalQuestionsCorrect t.
Proof.
  unfold QuizService.rank. intros H. apply list_elem_of_In in H.
  apply elem_of_lookup_imap_1 in H. destruct H as (i & t & -> & Hl).
  exists t. split; [| simpl; auto].
  apply list_elem_of_lookup_2 in Hl. apply list_elem_of_In in Hl.
  eapply Permutation_in; [apply sort_by_Permutation | exact Hl].
Qed.

Lemma filter_filter_and {A} (f g : A -> bool) l :
  List.filter f (List.filter g l) = List.filter (fun x => f x && g x) l.
Proof.
  induction l as [| x l IH]; simpl; [reflexivity |].
  destruct (g x); simpl; [destruct (f x); simpl; rewrite IH; reflexivity |].
  rewrite andb_false_r. exact IH.
Qed.

(** X14. The leaderboard and [calculateQuizTotalScore] agree: every
    leaderboard entry carries, for its user, exactly the total score and
    the numbers of answered and of correct questions that
    [calculateQuizTotalScore] computes for that user and quiz. *)
Theorem X14_leaderboard_totals_are_the_quiz_totals
    (quizId : Id) (d d' : DB) (lb : list LeaderboardEntry) (e : LeaderboardEntry) :
  QuizService.getQuizLeaderboard quizId d = (Ok lb, d') ->
  In e lb ->
  exists total,
    QuizService.calculateQuizTotalScore (us_id (ut_user (le_entry e))) quizId d = (Ok total, d)
    /\ totalScore (le_entry e) = QuizService.qt_totalScore total
    /\ totalQuestionsAnswered (le_entry e) = QuizService.qt_totalQuestionsAnswered total
    /\ totalQuestionsCorrect (le_entry e) = QuizService.qt_totalQuestionsCorrect total.
Proof.
  intros Hlb Hin. apply getQuizLeaderboard_rows in Hlb.
  destruct Hlb as (rows & Hmap & Hok & ->).
  apply rank_In in Hin. destruct Hin as (t & Ht & Hu & Hs & Ha & Hc).
  apply in_map_iff in Ht. destruct Ht as ((k & t0) & Heq & Hkt). simpl in Heq. subst t0.
  pose proof (fold_add_score_totals rows [] [] Hok) as Hinv.
  specialize (Hinv (fun k t H => match H with end) (fun s H => match H with end) k t Hkt).
  simpl in Hinv. rewrite Hmap in Hinv. destruct Hinv as (Hk & Hts & Hta & Htc).
  eexists. split; [reflexivity |]. simpl.
  rewrite Hu, Hk, Hs, Ha, Hc, Hts, Hta, Htc. unfold scores_of_user.
  rewrite filter_filter_and. auto.
Qed.

Lemma X14_witness :
  exists total,
    QuizService.calculateQuizTotalScore
      (us_id (ut_user (le_entry Examples.entry_of_C))) "qz" (db Examples.round1_played)
    = (Ok total, db Examples.round1_played)
    /\ totalScore (le_entry Examples.entry_of_C) = QuizService.qt_totalScore total
    /\ totalQuestionsAnswered (le_entry Examples.entry_of_C)
       = QuizService.qt_totalQuestionsAnswered total
    /\ totalQuestionsCorrect (le_entry Examples.entry_of_C)
       = QuizService.qt_totalQuestionsCorrect total.
Proof.
  apply (X14_leaderboard_totals_are_the_quiz_totals "qz" (db Examples.round1_played)
           (db Examples.round1_played) Examples.leaderboard_after_round1
           Examples.entry_of_C).
  - vm_compute. reflexivity.
  - vm_compute. right. left. reflexivity.
Defined.

(** ** The leaderboard's ranking *)

Lemma add_score_known m done row :
  (forall k, In k (map fst m) -> exists s, In s done /\ score_userId s = k) ->
  forall k, In k (map fst (QuizService.add_score m row)) ->
            exists s, In s (done ++ [fst (fst row)]) /\ score_userId s = k.
Proof.
  intros Hm k Hk. rewrite add_score_keys in Hk.
  assert (Hold : In k (map fst m) ->
                 exists s, In s (done ++ [fst (fst row)]) /\ score_userId s = k).
  { intros H. destruct (Hm k H) as (s & Hs & Hsk). exists s. split; [| exact Hsk].
    apply in_or_app. left. exact Hs. }
  destruct (QuizService.has_key _ m); [apply Hold; exact Hk |].
  apply in_app_or in Hk. destruct Hk as [Hk | [<- | []]]; [apply Hold; exact Hk |].
  exists (fst (fst row)). split; [| reflexivity]. apply in_or_app. right. left. reflexivity.
Qed.

Lemma add_score_NoDup m row :
  NoDup (map fst m) -> NoDup (map fst (QuizService.add_score m row)).
Proof.
  intros Hnd. rewrite add_score_keys.
  destruct (QuizService.has_key _ m) eqn:Ek; [exact Hnd |].
  apply NoDup_app. split; [exact Hnd | split; [| apply NoDup_singleton]].
  intros x Hx Hx'. apply list_elem_of_singleton in Hx'. subst x.
  apply (has_key_false _ _ Ek). apply list_elem_of_In. exact Hx.
Qed.

Lemma fold_add_score_keys rows m done :
  NoDup (map fst m) ->
  (forall k, In k (map fst m) -> exists s, In s done /\ score_userId s = k) ->
  NoDup (map fst (fold_left QuizService.add_score rows m))
  /\ forall k, In k (map fst (fold_left QuizService.add_score rows m)) ->
               exists s, In s (done ++ map (fun row => fst (fst row)) rows)
                         /\ score_userId s = k.
Proof.
  revert m done. induction rows as [| row rows IH]; intros m done Hnd Hm; simpl.
  - rewrite app_nil_r. auto.
  - destruct (IH (QuizService.add_score m row) (done ++ [fst (fst row)])
                (add_score_NoDup m row Hnd) (add_score_known m done row Hm)) as (H1 & H2).
    split; [exact H1 |]. intros k Hk. destruct (H2 k Hk) as (s & Hs & Hsk).
    exists s. rewrite <- app_assoc in Hs. auto.
Qed.

Lemma rank_positions_from k (f : nat -> UserTotal -> UserTotal) l :
  map le_position (imap (fun i x => {| le_position := (k + i + 1)%nat; le_entry := f i x |}) l)
  = seq (k + 1) (length l).
Proof.
  revert k f. induction l as [| x l IH]; intros k f; [reflexivity |].
  rewrite imap_cons. simpl. f_equal; [lia |].
  rewrite (imap_ext _ (fun i x => {| le_position := (S k + i + 1)%nat;
                                     le_entry := (fun i => f (S i)) i x |}) l)
    by (intros i y _; simpl; f_equal; lia).
  rewrite IH. f_equal; lia.
Qed.

Lemma rank_positions totals :
  map le_position (QuizService.rank totals) = seq 1 (length totals).
Proof.
  unfold QuizService.rank.
  pose proof (rank_positions_from 0
                (fun _ entry =>
                   {| ut_user := ut_user entry; totalScore := totalScore entry;
                      totalQuestionsAnswered := totalQuestionsAnswered entry;
                      totalQuestionsCorrect := totalQuestionsCorrect entry;
                      ut_rounds := sort_by (fun a b => re_roundNumber a <=? re_roundNumber b)
                                           (ut_rounds entry) |})
                (sort_by (fun a b => totalScore b <=? totalScore a) totals)) as H.
  rewrite sort_by_length in H. exact H.
Qed.

Lemma rank_lookup totals i e :
  QuizService.rank totals !! i = Some e ->
  exists t, sort_by (fun a b => totalScore b <=? totalScore a) totals !! i = Some t
            /\ ut_user (le_entry e) = ut_user t /\ totalScore (le_entry e) = totalScore t.
Proof.
  unfold QuizService.rank. rewrite list_lookup_imap.
  destruct (sort_by _ totals !! i) as [t |]; simpl; [| discriminate].
  intros H. inv_pair H. exists t. auto.
Qed.

Lemma sort_by_ext {A} (le1 le2 : A -> A -> bool) l :
  (forall a b, le1 a b = le2 a b) -> sort_by le1 l = sort_by le2 l.
Proof.
  intros H. induction l as [| x l IH]; simpl; [reflexivity |]. rewrite IH.
  generalize (sort_by le2 l). intros s. induction s as [| y s IHs]; simpl; [reflexivity |].
  rewrite H, IHs. reflexivity.
Qed.

Lemma StronglySorted_lookup {A} (R : A -> A -> Prop) l i j a b :
  Sorted.StronglySorted R l -> (i < j)%nat -> l !! i = Some a -> l !! j = Some b -> R a b.
Proof.
  intros Hs. revert i j. induction Hs as [| x l Hs IH Hall]; intros i j Hij Hi Hj.
  - discriminate Hi.
  - destruct j as [| j]; [lia |]. simpl in Hj. destruct i as [| i].
    + simpl in Hi. inv_pair Hi. rewrite List.Forall_forall in Hall. apply Hall.
      apply list_elem_of_In. eapply list_elem_of_lookup_2. exact Hj.
    + simpl in Hi. apply (IH i j); [lia | exact Hi | exact Hj].
Qed.

Lemma sort_by_descending (totals : list UserTotal) i j a b :
  (i < j)%nat ->
  sort_by (fun a b => totalScore b <=? totalScore a) totals !! i = Some a ->
  sort_by (fun a b => totalScore b <=? totalScore a) totals !! j = Some b ->
  totalScore b <= totalScore a.
Proof.
  intros Hij Hi Hj.
  rewrite (sort_by_ext _ (fun a b => - totalScore a <=? - totalScore b)) in Hi, Hj
    by (intros x y; apply eq_true_iff_eq; rewrite !Z.leb_le; lia).
  pose proof (sort_by_Sorted (fun t => - totalScore t) totals) as Hs.
  apply Sorted.Sorted_StronglySorted in Hs; [| intros x y z; lia].
  pose proof (StronglySorted_lookup _ _ i j a b Hs Hij Hi Hj) as H. simpl in H. lia.
Qed.

Lemma fold_add_score_covers rows m done :
  Forall row_ok rows ->
  (forall k t, In (k, t) m -> totals_match k t done) ->
  (forall s, In s done -> In (score_userId s) (map fst m)) ->
  forall s, In s (done ++ map (fun row => fst (fst row)) rows) ->
            In (score_userId s) (map fst (fold_left QuizService.add_score rows m)).
Proof.
  revert m done. induction rows as [| row rows IH]; intros m done Hok Hm Hdone s Hs.
  - simpl in *. rewrite app_nil_r in Hs. apply Hdone. exact Hs.
  - apply Forall_cons in Hok. destruct Hok as (Hrow & Hok).
    destruct (add_score_totals m done row Hrow Hm Hdone) as (Hm' & Hdone').
    simpl. apply (IH _ _ Hok Hm' Hdone'). simpl in Hs. rewrite <- app_assoc. exact Hs.
Qed.

Lemma map_imap_const {A B C} (g : B -> C) (g' : A -> C) (f : nat -> A -> B) l :
  (forall i x, g (f i x) = g' x) -> map g (imap f l) = map g' l.
Proof.
  revert f. induction l as [| x l IH]; intros f H; [reflexivity |].
  rewrite imap_cons. simpl. rewrite H. f_equal. apply IH. intros i y. apply H.
Qed.

(** X15. The leaderboard is a ranking: the positions are 1, 2, 3, ...
    in the order of the list; nobody is listed below someone with a
    smaller total; every user appears once; and the users listed are
    exactly those with a score row for the quiz. *)
Theorem X15_leaderboard_is_a_ranking
    (quizId : Id) (d d' : DB) (lb : list LeaderboardEntry) :
  QuizService.getQuizLeaderboard quizId d = (Ok lb, d') ->
  map le_position lb = seq 1 (length lb)
  /\ (forall i j a b, (i < j)%nat -> lb !! i = Some a -> lb !! j = Some b ->
                      totalScore (le_entry b) <= totalScore (le_entry a))
  /\ NoDup (map (fun e => us_id (ut_user (le_entry e))) lb)
  /\ (forall userId,
         In userId (map (fun e => us_id (ut_user (le_entry e))) lb)
         <-> exists s, In s (scores d) /\ score_quizId s = quizId
                       /\ score_userId s = userId).
Proof.
  intros Hlb. apply getQuizLeaderboard_rows in Hlb. destruct Hlb as (rows & Hmap & Hok & ->).
  set (m := fold_left QuizService.add_score rows []).
  assert (Hnil1 : forall k t, In (k, t) (@nil (Id * UserTotal)) -> totals_match k t [])
    by (intros k t []).
  assert (Hnil2 : forall s : Score, In s [] -> In (score_userId s)
                                                  (map fst (@nil (Id * UserTotal))))
    by (intros s []).
  assert (Hnil3 : forall k, In k (map fst (@nil (Id * UserTotal))) ->
                            exists s : Score, In s [] /\ score_userId s = k)
    by (intros k []).
  pose proof (fold_add_score_totals rows [] [] Hok Hnil1 Hnil2) as Htot.
  pose proof (fold_add_score_covers rows [] [] Hok Hnil1 Hnil2) as Hcov.
  destruct (fold_add_score_keys rows [] [] (@NoDup_nil_2 Id) Hnil3) as (Hnd & Hknown).
  fold m in Htot, Hcov, Hnd, Hknown. simpl in Htot, Hcov, Hknown.
  rewrite Hmap in Hcov, Hknown.
  assert (Hkeys : map (fun t => us_id (ut_user t)) (map snd m) = map fst m).
  { rewrite map_map. apply map_ext_in. intros (k & t) Hin. simpl.
    destruct (Htot k t Hin) as (Hk & _). exact Hk. }
  assert (Husers : Permutation (map (fun e => us_id (ut_user (le_entry e)))
                                  (QuizService.rank (map snd m))) (map fst m)).
  { unfold QuizService.rank.
    rewrite (map_imap_const _ (fun t => us_id (ut_user t))) by reflexivity.
    rewrite <- Hkeys. apply Permutation_map. apply sort_by_Permutation. }
  split; [| split; [| split]].
  - rewrite rank_positions, rank_length. reflexivity.
  - intros i j a b Hij Hi Hj.
    apply rank_lookup in Hi. destruct Hi as (ta & Hi & _ & ->).
    apply rank_lookup in Hj. destruct Hj as (tb & Hj & _ & ->).
    eapply sort_by_descending; eassumption.
  - rewrite Husers. exact Hnd.
  - intros userId. split.
    + intros Hin. apply (Permutation_in _ Husers) in Hin.
      destruct (Hknown userId Hin) as (s & Hs & Hsk). apply filter_In in Hs.
      destruct Hs as (Hs & Hq). apply String.eqb_eq in Hq. exists s. auto.
    + intros (s & Hs & Hq & Hsk). apply (Permutation_in _ (Permutation_sym Husers)).
      rewrite <- Hsk. apply Hcov. apply filter_In. split; [exact Hs |].
      rewrite Hq. apply String.eqb_refl.
Qed.

Lemma X15_witness :
  map le_position Examples.leaderboard_after_round1
  = seq 1 (length Examples.leaderboard_after_round1)
  /\ (forall i j a b, (i < j)%nat ->
                      Examples.leaderboard_after_round1 !! i = Some a ->
                      Examples.leaderboard_after_round1 !! j = Some b ->
                      totalScore (le_entry b) <= totalScore (le_entry a))
  /\ NoDup (map (fun e => us_id (ut_user (le_entry e))) Examples.leaderboard_after_round1)
  /\ (forall userId,
         In userId (map (fun e => us_id (ut_user (le_entry e)))
                      Examples.leaderboard_after_round1)
         <-> exists s, In s (scores (db Examples.round1_played)) /\ score_quizId s = "qz"
                       /\ score_userId s = userId).
Proof.
  apply (X15_leaderboard_is_a_ranking "qz" (db Examples.round1_played)
           (db Examples.round1_played) Examples.leaderboard_after_round1).
  vm_compute. reflexivity.
Defined.

(** ** Round scores *)

Lemma filter_map_same {A} (f : A -> bool) (g : A -> A) l :
  (forall x, f x = false -> g x = x) -> (forall x, f x = true -> f (g x) = true) ->
  List.filter (fun x => negb (f x)) (map g l) = List.filter (fun x => negb (f x)) l.
Proof.
  intros H1 H2. induction l as [| x l IH]; simpl; [reflexivity |].
  destruct (f x) eqn:E.
  - rewrite (H2 x E). simpl. exact IH.
  - rewrite (H1 x E), E. simpl. f_equal. exact IH.
Qed.

Lemma filter_twice {A} (f : A -> bool) l : List.filter f (List.filter f l) = List.filter f l.
Proof.
  induction l as [| x l IH]; simpl; [reflexivity |].
  destruct (f x) eqn:E; simpl; [rewrite E, IH; reflexivity | exact IH].
Qed.

(** X16. [calculateRoundScore] stores what it returns: the round score
    is the sum of the points of the participant's responses in the round,
    the correct answers are among the answered ones, afterwards there is
    a score row for (participant, quiz, round) and every such row holds
    the three numbers, the rows of other participants and rounds are
    untouched, and the gateway's own sum for the end of a simultaneous
    session, [calculateUserRoundScore], gives the same score. *)
Theorem X16_round_score_is_stored
    (userId quizId roundId : Id) (d d' : DB) (rs : Z) (qa qc : nat) :
  QuizService.calculateRoundScore userId quizId roundId d = (Ok (rs, qa, qc), d') ->
  rs = QuizService.sum_points (responses_for userId quizId roundId d)
  /\ (qc <= qa)%nat
  /\ (exists s, In s (scores d') /\ Prisma.score_key userId quizId roundId s = true)
  /\ (forall s, In s (scores d') -> Prisma.score_key userId quizId roundId s = true ->
                roundScore s = rs /\ questionsAnswered s = qa /\ questionsCorrect s = qc)
  /\ List.filter (fun s => negb (Prisma.score_key userId quizId roundId s)) (scores d')
     = List.filter (fun s => negb (Prisma.score_key userId quizId roundId s)) (scores d)
  /\ calculateUserRoundScore quizId roundId userId d' = (Ok rs, d').
Proof.
  unfold QuizService.calculateRoundScore, Prisma.score_upsert, bind, get, modify, ret, throw.
  fold (responses_for userId quizId roundId d).
  assert (Hle : (length (List.filter isCorrect (responses_for userId quizId roundId d))
                 <= length (responses_for userId quizId roundId d))%nat)
    by apply List.filter_length_le.
  assert (Hkey : Prisma.score_key userId quizId roundId
                   {| score_userId := userId; score_quizId := quizId; score_roundId := roundId;
                      roundScore := QuizService.sum_points (responses_for userId quizId roundId d);
                      questionsAnswered := length (responses_for userId quizId roundId d);
                      questionsCorrect :=
                        length (List.filter isCorrect (responses_for userId quizId roundId d)) |}
                 = true)
    by (unfold Prisma.score_key; simpl; rewrite !String.eqb_refl; reflexivity).
  assert (Hsum : forall d0, responses d0 = responses d ->
                   calculateUserRoundScore quizId roundId userId d0
                   = (Ok (QuizService.sum_points (responses_for userId quizId roundId d)), d0)).
  { intros d0 Hr. unfold calculateUserRoundScore, bind, get, ret, QuizService.sum_points,
      responses_for. rewrite Hr. do 2 f_equal. f_equal. apply List.filter_ext. intros r.
    destruct (String.eqb (resp_userId r) userId), (String.eqb (resp_quizId r) quizId),
      (String.eqb (resp_roundId r) roundId); reflexivity. }
  destruct (existsb (Prisma.score_key userId quizId roundId) (scores d)) eqn:Ex.
  - intros H. inv_pair H. simpl.
    split; [reflexivity | split; [exact Hle | split; [| split; [| split]]]].
    + eexists. split; [apply in_or_app; right; left; reflexivity | exact Hkey].
    + intros s Hs Hk. apply in_app_or in Hs. destruct Hs as [Hs | [<- | []]].
      * apply filter_In in Hs. destruct Hs as (_ & Hn). rewrite Hk in Hn. discriminate Hn.
      * simpl. auto.
    + rewrite List.filter_app. simpl. rewrite Hkey. simpl. rewrite app_nil_r.
      apply filter_twice.
    + apply Hsum. reflexivity.
  - destruct (Prisma.user_findUnique userId d); [| discriminate].
    destruct (Prisma.quiz_findUnique quizId d); [| discriminate].
    destruct (Prisma.round_findUnique roundId d); [| discriminate].
    intros H. inv_pair H. simpl.
    split; [reflexivity | split; [exact Hle | split; [| split; [| split]]]].
    + eexists. split; [apply in_or_app; right; left; reflexivity | exact Hkey].
    + intros s Hs Hk. apply in_app_or in Hs. destruct Hs as [Hs | [<- | []]]; [| simpl; auto].
      assert (existsb (Prisma.score_key userId quizId roundId) (scores d) = true)
        by (apply existsb_exists; exists s; auto).
      congruence.
    + rewrite List.filter_app. simpl. rewrite Hkey. simpl. apply app_nil_r.
    + apply Hsum. reflexivity.
Qed.

Lemma X16_witness :
  2 = QuizService.sum_points (responses_for "A" "qz" "r1" (db Examples.round1_played))
  /\ (1 <= 1)%nat
  /\ (exists s, In s (scores (snd (QuizService.calculateRoundScore "A" "qz" "r1"
                                     (db Examples.round1_played))))
                /\ Prisma.score_key "A" "qz" "r1" s = true)
  /\ (forall s, In s (scores (snd (QuizService.calculateRoundScore "A" "qz" "r1"
                                     (db Examples.round1_played)))) ->
                Prisma.score_key "A" "qz" "r1" s = true ->
                roundScore s = 2 /\ questionsAnswered s = 1%nat /\ questionsCorrect s = 1%nat)
  /\ List.filter (fun s => negb (Prisma.score_key "A" "qz" "r1" s))
       (scores (snd (QuizService.calculateRoundScore "A" "qz" "r1" (db Examples.round1_played))))
     = List.filter (fun s => negb (Prisma.score_key "A" "qz" "r1" s))
         (scores (db Examples.round1_played))
  /\ calculateUserRoundScore "qz" "r1" "A"
       (snd (QuizService.calculateRoundScore "A" "qz" "r1" (db Examples.round1_played)))
     = (Ok 2, snd (QuizService.calculateRoundScore "A" "qz" "r1" (db Examples.round1_played))).
Proof.
  apply (X16_round_score_is_stored "A" "qz" "r1" (db Examples.round1_played)
           (snd (QuizService.calculateRoundScore "A" "qz" "r1" (db Examples.round1_played)))
           2 1 1).
  vm_compute. reflexivity.
Defined.



(** * Further properties of the question service *)

(** X18. The validation accepts exactly the well-formed questions:
    between two and four options, exactly two for a yes/no question, and
    a correct answer index that addresses one of the options. *)
Theorem X18_validation_accepts_exactly_the_well_formed
    (type : QuestionType) (opts : list string) (index : Z) :
  QuestionsService.validateQuestionOptions type opts index = Accepted tt
  <-> (2 <= length opts <= 4)%nat
      /\ 0 <= index < Z.of_nat (length opts)
      /\ (type = qt_yes_no -> length opts = 2%nat).
Proof.
  unfold QuestionsService.validateQuestionOptions. destruct type.
  - destruct (Nat.ltb_spec (length opts) 2), (Nat.ltb_spec 4 (length opts));
      simpl; try (split; [discriminate | intros; lia]).
    destruct (Z.ltb_spec index 0), (Z.leb_spec (Z.of_nat (length opts)) index);
      simpl; try (split; [discriminate | intros; lia]).
    split; [intros _ | reflexivity]. split; [lia | split; [lia | discriminate]].
  - destruct (Nat.eqb_spec (length opts) 2) as [E | E]; simpl.
    + destruct (Z.ltb_spec index 0), (Z.ltb_spec 1 index);
        simpl; try (split; [discriminate | intros; lia]).
      split; [intros _ | reflexivity]. rewrite E. split; [lia | split; [lia | reflexivity]].
    + split; [discriminate |]. intros (_ & _ & H). specialize (H eq_refl). contradiction.
Qed.

(** X19. The statistics add up: the questions of a quiz are its
    multiple-choice and its yes/no questions, the unanswered ones are
    the unanswered of the two types, and answered and unanswered
    together are all of them.  The five counts come from separate
    queries. *)
Theorem X19_question_statistics_add_up (quizId : Id) (d : DB) :
  exists stats,
    QuestionsService.getQuestionStats quizId d = (Ok stats, d)
    /\ st_totalQuestions stats = (st_multiple_choice stats + st_yes_no stats)%nat
    /\ st_unansweredQuestions stats
       = (st_unanswered_multiple_choice stats + st_unanswered_yes_no stats)%nat
    /\ (st_answeredQuestions stats + st_unansweredQuestions stats)%nat
       = st_totalQuestions stats.
Proof.
  eexists. split; [reflexivity |]. simpl.
  induction (questions d) as [| q l IH]; simpl; [auto |].
  destruct (String.eqb (question_quizId q) quizId); simpl; [| exact IH].
  destruct IH as (H1 & H2 & H3).
  destruct (isAnswered q), (questionType q); simpl; lia.
Qed.

(** ** Question numbers *)

Lemma sorted_head_max {A} (key : A -> Z) (l : list A) x :
  In x l ->
  exists h, head (sort_by (fun a b => key b <=? key a) l) = Some h /\ key x <= key h.
Proof.
  intros Hin.
  assert (Hin' : In x (sort_by (fun a b => key b <=? key a) l))
    by (eapply Permutation_in; [symmetry; apply sort_by_Permutation | exact Hin]).
  rewrite (sort_by_ext _ (fun a b => - key a <=? - key b)) in *
    by (intros a b; apply eq_true_iff_eq; rewrite !Z.leb_le; lia).
  pose proof (sort_by_Sorted (fun a => - key a) l) as Hs.
  apply Sorted.Sorted_StronglySorted in Hs; [| intros a b c; lia].
  destruct (sort_by (fun a b => - key a <=? - key b) l) as [| h s]; [destruct Hin' |].
  exists h. split; [reflexivity |]. destruct Hin' as [-> | Hin']; [lia |].
  inversion Hs as [| ? ? _ Hall]; subst. rewrite List.Forall_forall in Hall.
  specialize (Hall x Hin'). simpl in Hall. lia.
Qed.

Lemma nextQuestionNumber_above quizId d q :
  In q (questions d) -> question_quizId q = quizId ->
  questionNumber q < QuestionsService.nextQuestionNumber quizId d.
Proof.
  intros Hin Hq. unfold QuestionsService.nextQuestionNumber, QuestionsService.lastQuestion.
  destruct (sorted_head_max questionNumber
              (List.filter (fun q => String.eqb (question_quizId q) quizId) (questions d)) q)
    as (h & Hh & Hle).
  { apply filter_In. split; [exact Hin |]. rewrite Hq. apply String.eqb_refl. }
  rewrite Hh. destruct (Z.eqb_spec (questionNumber h) 0); lia.
Qed.

Lemma int4_small i : 0 <= i < 4 -> Prisma.int4 i = true.
Proof.
  intros H. unfold Prisma.int4. apply andb_true_iff. split; apply Z.leb_le; lia.
Qed.

(** An index that passes the validation addresses one of at most four
    options. *)
Lemma validated_index type opts index :
  QuestionsService.validateQuestionOptions type opts index = Accepted tt -> 0 <= index < 4.
Proof.
  unfold QuestionsService.validateQuestionOptions. destruct type.
  - destruct (Nat.ltb_spec (length opts) 2), (Nat.ltb_spec 4 (length opts));
      simpl; try discriminate.
    destruct (Z.ltb_spec index 0), (Z.leb_spec (Z.of_nat (length opts)) index);
      simpl; try discriminate.
    intros _. lia.
  - destruct (Nat.eqb_spec (length opts) 2) as [E | E]; simpl; [| discriminate].
    destruct (Z.ltb_spec index 0), (Z.ltb_spec 1 index); simpl; try discriminate.
    intros _. lia.
Qed.

Lemma question_create_range q d :
  Prisma.int4 (questionNumber q) = false ->
  Prisma.question_create q d = (Throw (PrismaError "P2020"), d).
Proof.
  intros H. unfold Prisma.question_create, bind, get, throw. rewrite H. reflexivity.
Qed.

Lemma question_create_Ok q d :
  Prisma.int4 (questionNumber q) = true ->
  Prisma.int4 (correctAnswerIndex q) = true ->
  (exists quiz, Prisma.quiz_findUnique (question_quizId q) d = Some quiz) ->
  (forall x, In x (questions d) -> question_id x <> question_id q) ->
  (forall x, In x (questions d) -> question_quizId x = question_quizId q ->
             questionNumber x < questionNumber q) ->
  Prisma.question_create q d = (Ok q, set_questions (questions d ++ [q]) d).
Proof.
  intros Hn Hi (quiz & Hquiz) Hid Hnum.
  unfold Prisma.question_create, bind, get, modify, ret. rewrite Hn, Hi, Hquiz.
  change (negb (true && true)) with false. cbv beta iota.
  assert (E : existsb (fun x => String.eqb (question_id x) (question_id q)
                                || (String.eqb (question_quizId x) (question_quizId q)
                                    && (questionNumber x =? questionNumber q))) (questions d)
              = false).
  { apply not_true_is_false. intros H. apply existsb_exists in H.
    destruct H as (x & Hx & Hb). apply orb_true_iff in Hb. destruct Hb as [Hb | Hb].
    - apply String.eqb_eq in Hb. exact (Hid x Hx Hb).
    - apply andb_true_iff in Hb. destruct Hb as (Hb1 & Hb2).
      apply String.eqb_eq in Hb1. apply Z.eqb_eq in Hb2.
      specialize (Hnum x Hx Hb1). lia. }
  rewrite E. reflexivity.
Qed.

Lemma quiz_found_In quizId d :
  (exists quiz, In quiz (quizzes d) /\ quiz_id quiz = quizId) ->
  exists quiz, Prisma.quiz_findUnique quizId d = Some quiz.
Proof.
  intros (quiz & Hin & Hid).
  destruct (find_In_some (fun q => String.eqb (quiz_id q) quizId) (quizzes d) quiz Hin)
    as (y & Hy); [rewrite Hid; apply String.eqb_refl |].
  exists y. exact Hy.
Qed.

(** X20. Creating a question for an existing quiz, with options that
    pass the validation and a fresh id, gives it the number after the
    quiz's largest one (1 for the first question).  While that number
    fits the 32-bit [questionNumber] column the creation succeeds: the
    question is appended, unanswered, with a number above the number of
    every question the quiz already has.  Once the quiz's largest number
    is 2147483647 the next one does not fit: the creation fails and
    nothing is stored. *)
Theorem X20_create_numbers_above_all_existing
    (id quizId : Id) (dto : CreateQuestionDto) (d : DB) :
  (exists quiz, In quiz (quizzes d) /\ quiz_id quiz = quizId) ->
  QuestionsService.validateQuestionOptions (dto_questionType dto) (dto_options dto)
    (dto_correctAnswerIndex dto) = Accepted tt ->
  (forall x, In x (questions d) -> question_id x <> id) ->
  (Prisma.int4 (QuestionsService.nextQuestionNumber quizId d) = true ->
   exists question,
     QuestionsService.create id quizId dto d
     = (Ok (Accepted question), set_questions (questions d ++ [question]) d)
     /\ question_id question = id /\ question_quizId question = quizId
     /\ isAnswered question = false
     /\ options question = dto_options dto
     /\ correctAnswerIndex question = dto_correctAnswerIndex dto
     /\ questionNumber question = QuestionsService.nextQuestionNumber quizId d
     /\ (forall x, In x (questions d) -> question_quizId x = quizId ->
                   questionNumber x < questionNumber question)
     /\ (List.filter (fun q => String.eqb (question_quizId q) quizId) (questions d) = [] ->
         questionNumber question = 1))
  /\ (Prisma.int4 (QuestionsService.nextQuestionNumber quizId d) = false ->
      exists e, QuestionsService.create id quizId dto d = (Throw e, d)).
Proof.
  intros Hquiz Hvalid Hfresh. apply quiz_found_In in Hquiz. destruct Hquiz as (quiz & Hquiz).
  split.
  - intros Hrange.
    exists (QuestionsService.new_question id quizId
              (QuestionsService.nextQuestionNumber quizId d) dto).
    split; [| split; [reflexivity | split; [reflexivity | split; [reflexivity |
              split; [reflexivity | split; [reflexivity | split; [reflexivity | split]]]]]]].
    + unfold QuestionsService.create, bind at 1, get at 1. cbv beta iota.
      rewrite Hquiz, Hvalid. unfold bind.
      rewrite question_create_Ok;
        [reflexivity | exact Hrange | | exists quiz; exact Hquiz | exact Hfresh |].
      * apply int4_small. eapply validated_index. exact Hvalid.
      * intros x Hx Hq. simpl in *. apply nextQuestionNumber_above; assumption.
    + intros x Hx Hq. simpl. apply nextQuestionNumber_above; assumption.
    + intros Hnone. simpl. unfold QuestionsService.nextQuestionNumber,
        QuestionsService.lastQuestion. rewrite Hnone. reflexivity.
  - intros Hrange. eexists.
    unfold QuestionsService.create, bind at 1, get at 1. cbv beta iota.
    rewrite Hquiz, Hvalid. unfold bind.
    rewrite question_create_range by exact Hrange. reflexivity.
Qed.

Lemma X20_witness :
  exists question,
    QuestionsService.create "m5" "qz"
      {| dto_questionText := "Which?"; dto_questionType := qt_multiple_choice;
         dto_options := ["a"; "b"; "c"]; dto_correctAnswerIndex := 2 |} Examples.database
    = (Ok (Accepted question),
       set_questions (questions Examples.database ++ [question]) Examples.database)
    /\ question_id question = "m5" /\ question_quizId question = "qz"
    /\ isAnswered question = false
    /\ options question = ["a"; "b"; "c"]
    /\ correctAnswerIndex question = 2
    /\ questionNumber question = QuestionsService.nextQuestionNumber "qz" Examples.database
    /\ (forall x, In x (questions Examples.database) -> question_quizId x = "qz" ->
                  questionNumber x < questionNumber question)
    /\ (List.filter (fun q => String.eqb (question_quizId q) "qz")
          (questions Examples.database) = [] ->
        questionNumber question = 1).
Proof.
  refine (proj1 (X20_create_numbers_above_all_existing "m5" "qz"
                   {| dto_questionText := "Which?"; dto_questionType := qt_multiple_choice;
                      dto_options := ["a"; "b"; "c"]; dto_correctAnswerIndex := 2 |}
                   Examples.database _ _ _) _); [| | | vm_compute; reflexivity].
  - eexists. split; [left; reflexivity | reflexivity].
  - reflexivity.
  - intros x Hx. simpl in Hx.
    repeat (destruct Hx as [<- | Hx]; [discriminate |]). destruct Hx.
Defined.

Lemma set_questions_twice v v' d : set_questions v (set_questions v' d) = set_questions v d.
Proof. reflexivity. Qed.

Lemma in_order_creates cuid quizId start dtos : forall k d,
  (forall i, (i < length dtos)%nat -> Prisma.int4 (start + Z.of_nat (k + i)) = true) ->
  Forall (fun dto => Prisma.int4 (dto_correctAnswerIndex dto) = true) dtos ->
  (exists quiz, Prisma.quiz_findUnique quizId d = Some quiz) ->
  (forall x, In x (questions d) -> question_quizId x = quizId ->
             questionNumber x < start + Z.of_nat k) ->
  (forall i x, (i < length dtos)%nat -> In x (questions d) ->
               question_id x <> cuid (k + i)%nat) ->
  (forall i j, (i < j < length dtos)%nat -> cuid (k + i)%nat <> cuid (k + j)%nat) ->
  Prisma.in_order
    (imap (fun i dto => Prisma.question_create
                          (QuestionsService.new_question (cuid (k + i)%nat) quizId
                             (start + Z.of_nat (k + i)) dto)) dtos) d
  = (Ok (bulk_rows cuid quizId start k dtos),
     set_questions (questions d ++ bulk_rows cuid quizId start k dtos) d).
Proof.
  induction dtos as [| dto dtos IH]; intros k d Hrange Hidx Hquiz Hnum Hfresh Hinj.
  - simpl. unfold ret, bulk_rows. simpl. rewrite app_nil_r. destruct d; reflexivity.
  - unfold bulk_rows. rewrite !imap_cons. simpl Prisma.in_order. unfold bind at 1.
    inversion Hidx as [| ? ? Hidx0 Hidx']; subst.
    rewrite question_create_Ok; [| apply (Hrange 0%nat); simpl; lia | exact Hidx0 | | |].
    + rewrite (imap_ext _ (fun i dto => Prisma.question_create
                                          (QuestionsService.new_question (cuid (S k + i)%nat)
                                             quizId (start + Z.of_nat (S k + i)) dto)) dtos)
        by (intros i x _; simpl; do 2 f_equal; [f_equal; lia | lia]).
      rewrite (imap_ext _ (fun i dto => QuestionsService.new_question (cuid (S k + i)%nat)
                                          quizId (start + Z.of_nat (S k + i)) dto) dtos)
        by (intros i x _; simpl; f_equal; [f_equal; lia | lia]).
      unfold bind at 1. rewrite (IH (S k)).
      * unfold ret. unfold bulk_rows. simpl questions. rewrite set_questions_twice.
        rewrite <- app_assoc. reflexivity.
      * intros i Hi. replace (S k + i)%nat with (k + S i)%nat by lia.
        apply Hrange. simpl. lia.
      * exact Hidx'.
      * exact Hquiz.
      * intros x Hx Hq. simpl in Hx. apply in_app_or in Hx. destruct Hx as [Hx | [<- | []]].
        -- specialize (Hnum x Hx Hq). lia.
        -- simpl. lia.
      * intros i x Hi Hx. simpl in Hx. apply in_app_or in Hx. destruct Hx as [Hx | [<- | []]].
        -- replace (S k + i)%nat with (k + S i)%nat by lia. apply Hfresh; [simpl; lia | exact Hx].
        -- simpl. replace (S (k + i))%nat with (k + S i)%nat by lia.
           apply Hinj. simpl. lia.
      * intros i j Hij. replace (S k + i)%nat with (k + S i)%nat by lia.
        replace (S k + j)%nat with (k + S j)%nat by lia. apply Hinj. simpl. lia.
    + exact Hquiz.
    + intros x Hx. simpl. apply Hfresh; [simpl; lia | exact Hx].
    + intros x Hx Hq. simpl in *. specialize (Hnum x Hx Hq). lia.
Qed.

Lemma question_create_inv q d a d' :
  Prisma.question_create q d = (Ok a, d') ->
  a = q /\ d' = set_questions (questions d ++ [q]) d.
Proof.
  unfold Prisma.question_create, bind, get, modify, ret, throw.
  destruct (negb _); [discriminate |].
  destruct (Prisma.quiz_findUnique _ d); [| discriminate].
  destruct (existsb _ (questions d)); [discriminate |].
  intros H. inv_pair H. auto.
Qed.

Lemma in_order_creates_inv cuid quizId start dtos : forall k d rows d',
  Prisma.in_order
    (imap (fun i dto => Prisma.question_create
                          (QuestionsService.new_question (cuid (k + i)%nat) quizId
                             (start + Z.of_nat (k + i)) dto)) dtos) d
  = (Ok rows, d') ->
  rows = bulk_rows cuid quizId start k dtos
  /\ d' = set_questions (questions d ++ rows) d.
Proof.
  induction dtos as [| dto dtos IH]; intros k d rows d' H.
  - simpl in H. unfold ret in H. inv_pair H. split; [reflexivity |].
    rewrite app_nil_r. destruct d'; reflexivity.
  - rewrite imap_cons in H. simpl Prisma.in_order in H.
    inv_bind H as a d1 Hc. apply question_create_inv in Hc. destruct Hc as (-> & ->).
    rewrite (imap_ext _ (fun i dto => Prisma.question_create
                                        (QuestionsService.new_question (cuid (S k + i)%nat)
                                           quizId (start + Z.of_nat (S k + i)) dto)) dtos) in H
      by (intros i x _; simpl; do 2 f_equal; [f_equal; lia | lia]).
    inv_bind H as rest d2 Hrest. unfold ret in H. inv_pair H.
    apply IH in Hrest. destruct Hrest as (-> & ->).
    unfold bulk_rows. rewrite imap_cons.
    rewrite (imap_ext ((fun i dto => QuestionsService.new_question (cuid (k + i)%nat)
                                       quizId (start + Z.of_nat (k + i)) dto) ∘ S)
               (fun i dto => QuestionsService.new_question (cuid (S k + i)%nat)
                               quizId (start + Z.of_nat (S k + i)) dto) dtos)
      by (intros i x _; simpl; f_equal; [f_equal; lia | lia]).
    split; [reflexivity |]. simpl questions. rewrite set_questions_twice, <- app_assoc.
    reflexivity.
Qed.

Lemma validateAll_Forall dtos :
  QuestionsService.validateAll dtos = Accepted tt
  <-> Forall (fun dto => QuestionsService.validateQuestionOptions (dto_questionType dto)
                           (dto_options dto) (dto_correctAnswerIndex dto) = Accepted tt) dtos.
Proof.
  induction dtos as [| dto dtos IH]; simpl.
  - split; [constructor | reflexivity].
  - destruct (QuestionsService.validateQuestionOptions _ _ _) as [[] |] eqn:E.
    + rewrite IH. split; [intros H; constructor; auto | intros H; inversion H; auto].
    + split; [discriminate |]. intros H. inversion H; subst. congruence.
Qed.

Lemma in_order_throws {A} (ms : list (M DB A)) (m : M DB A) e :
  In m ms -> (forall d0, m d0 = (Throw e, d0)) ->
  forall d, exists e', fst (Prisma.in_order ms d) = Throw e'.
Proof.
  intros Hin Hm. induction ms as [| m0 ms IH]; intros d; [destruct Hin |].
  simpl. unfold bind at 1. destruct (m0 d) as [[a | e0] d1] eqn:E0.
  - destruct Hin as [-> | Hin]; [rewrite Hm in E0; discriminate |].
    destruct (IH Hin d1) as (e' & He'). exists e'. unfold bind.
    destruct (Prisma.in_order ms d1) as [[rest | e1] d2]; simpl in *; [discriminate | exact He'].
  - exists e0. reflexivity.
Qed.

(** X21. A bulk creation for an existing quiz, of requests that all
    pass the validation and with fresh, distinct ids, numbers the new
    questions consecutively after the quiz's largest number.  While
    these numbers fit the 32-bit [questionNumber] column the creation
    succeeds and the questions are appended in the order of the
    requests; if one of the numbers does not fit, the transaction fails
    and no question of the batch is stored. *)
Theorem X21_createBulk_numbers_consecutively
    (cuid : nat -> Id) (quizId : Id) (dtos : list CreateQuestionDto) (d : DB) :
  (exists quiz, In quiz (quizzes d) /\ quiz_id quiz = quizId) ->
  Forall (fun dto => QuestionsService.validateQuestionOptions (dto_questionType dto)
                       (dto_options dto) (dto_correctAnswerIndex dto) = Accepted tt) dtos ->
  (forall i x, (i < length dtos)%nat -> In x (questions d) -> question_id x <> cuid i) ->
  (forall i j, (i < j < length dtos)%nat -> cuid i <> cuid j) ->
  ((forall i, (i < length dtos)%nat ->
              Prisma.int4 (QuestionsService.nextQuestionNumber quizId d + Z.of_nat i) = true) ->
   exists rows,
     QuestionsService.createBulk cuid quizId dtos d
     = (Ok (Accepted rows), set_questions (questions d ++ rows) d)
     /\ length rows = length dtos
     /\ (forall i row, rows !! i = Some row ->
                       question_id row = cuid i
                       /\ questionNumber row
                          = QuestionsService.nextQuestionNumber quizId d + Z.of_nat i
                       /\ isAnswered row = false
                       /\ option_map dto_options (dtos !! i) = Some (options row))
     /\ (forall x row, In x (questions d) -> question_quizId x = quizId -> In row rows ->
                       questionNumber x < questionNumber row))
  /\ ((exists i, (i < length dtos)%nat
                 /\ Prisma.int4 (QuestionsService.nextQuestionNumber quizId d + Z.of_nat i)
                    = false) ->
      exists e, QuestionsService.createBulk cuid quizId dtos d = (Throw e, d)).
Proof.
  intros Hquiz Hvalid Hfresh Hinj. apply quiz_found_In in Hquiz.
  split; [intros Hrange |].
  2:{ intros (i & Hi & Hout). destruct Hquiz as (quiz & Hquiz).
      destruct (lookup_lt_is_Some_2 dtos i Hi) as (dto & Hdto).
      destruct (in_order_throws
                  (imap (fun i dto =>
                           Prisma.question_create
                             (QuestionsService.new_question (cuid i) quizId
                                (QuestionsService.nextQuestionNumber quizId d + Z.of_nat i)
                                dto)) dtos)
                  (Prisma.question_create
                     (QuestionsService.new_question (cuid i) quizId
                        (QuestionsService.nextQuestionNumber quizId d + Z.of_nat i) dto))
                  (PrismaError "P2020")) with (d := d) as (e' & He').
      - apply list_elem_of_In.
        exact (elem_of_lookup_imap_2
                 (fun i dto =>
                    Prisma.question_create
                      (QuestionsService.new_question (cuid i) quizId
                         (QuestionsService.nextQuestionNumber quizId d + Z.of_nat i) dto))
                 dtos dto i Hdto).
      - intros d0. apply question_create_range. exact Hout.
      - exists e'. unfold QuestionsService.createBulk, bind at 1, get at 1.
        cbv beta iota zeta. rewrite Hquiz.
        rewrite (proj2 (validateAll_Forall dtos) Hvalid).
        unfold bind, Prisma.transaction_all.
        destruct (Prisma.in_order _ d) as [[rows | e1] d1]; simpl in He';
          [discriminate | congruence]. }
  exists (bulk_rows cuid quizId (QuestionsService.nextQuestionNumber quizId d) 0 dtos).
  assert (Hrow : forall i row,
             bulk_rows cuid quizId (QuestionsService.nextQuestionNumber quizId d) 0 dtos !! i
             = Some row ->
             exists dto, dtos !! i = Some dto
                         /\ row = QuestionsService.new_question (cuid i) quizId
                                    (QuestionsService.nextQuestionNumber quizId d + Z.of_nat i)
                                    dto).
  { intros i row H. unfold bulk_rows in H. rewrite list_lookup_imap in H.
    destruct (dtos !! i) as [dto |]; simpl in H; [| discriminate]. inv_pair H.
    exists dto. auto. }
  split; [| split; [| split]].
  - unfold QuestionsService.createBulk, bind at 1, get at 1. cbv beta iota zeta.
    destruct Hquiz as (quiz & Hquiz). rewrite Hquiz.
    rewrite (proj2 (validateAll_Forall dtos) Hvalid).
    unfold bind, Prisma.transaction_all.
    assert (Hin : Prisma.in_order
                    (imap (fun i dto =>
                             Prisma.question_create
                               (QuestionsService.new_question (cuid i) quizId
                                  (QuestionsService.nextQuestionNumber quizId d + Z.of_nat i)
                                  dto)) dtos) d
                  = (Ok (bulk_rows cuid quizId (QuestionsService.nextQuestionNumber quizId d)
                           0 dtos),
                     set_questions
                       (questions d
                        ++ bulk_rows cuid quizId (QuestionsService.nextQuestionNumber quizId d)
                             0 dtos) d)).
    { apply (in_order_creates cuid quizId (QuestionsService.nextQuestionNumber quizId d)
               dtos 0 d).
      - exact Hrange.
      - eapply List.Forall_impl; [| exact Hvalid]. intros dto Hdto.
        apply int4_small. eapply validated_index. exact Hdto.
      - exists quiz. exact Hquiz.
      - intros x Hx Hq. pose proof (nextQuestionNumber_above quizId d x Hx Hq). lia.
      - exact Hfresh.
      - exact Hinj. }
    rewrite Hin. reflexivity.
  - unfold bulk_rows. apply length_imap.
  - intros i row H. destruct (Hrow i row H) as (dto & Hd & ->). rewrite Hd. simpl. auto.
  - intros x row Hx Hq Hin. apply list_elem_of_In in Hin.
    apply list_elem_of_lookup_1 in Hin. destruct Hin as (i & Hi).
    destruct (Hrow i row Hi) as (dto & _ & ->). simpl.
    pose proof (nextQuestionNumber_above quizId d x Hx Hq). lia.
Qed.

(** X22. A bulk creation is all or nothing: whatever the requests and
    the ids, either every request became a question (the result lists
    them, appended in order) or the database is exactly as before; in
    particular one invalid request, or a clash at the third insertion,
    leaves no question of the batch behind. *)
Theorem X22_createBulk_is_all_or_nothing
    (cuid : nat -> Id) (quizId : Id) (dtos : list CreateQuestionDto) (d : DB) :
  (exists rows,
      QuestionsService.createBulk cuid quizId dtos d
      = (Ok (Accepted rows), set_questions (questions d ++ rows) d)
      /\ length rows = length dtos)
  \/ ((forall rows, fst (QuestionsService.createBulk cuid quizId dtos d) <> Ok (Accepted rows))
      /\ snd (QuestionsService.createBulk cuid quizId dtos d) = d).
Proof.
  destruct (QuestionsService.createBulk cuid quizId dtos d) as [o d'] eqn:E.
  unfold QuestionsService.createBulk, bind at 1, get at 1 in E. cbv beta iota zeta in E.
  destruct (Prisma.quiz_findUnique quizId d);
    [| inv_pair E; right; split; [intros rows; discriminate | reflexivity]].
  destruct (QuestionsService.validateAll dtos) as [[] | m];
    [| inv_pair E; right; split; [intros rows; discriminate | reflexivity]].
  unfold bind, Prisma.transaction_all in E.
  destruct (Prisma.in_order _ d) as [[rows | e] d1] eqn:Eo;
    [| inv_pair E; right; split; [intros rows; discriminate | reflexivity]].
  apply (in_order_creates_inv cuid quizId (QuestionsService.nextQuestionNumber quizId d)
           dtos 0) in Eo.
  destruct Eo as (-> & ->). unfold ret in E. inv_pair E.
  left. eexists. split; [reflexivity |]. unfold bulk_rows. apply length_imap.
Qed.

Lemma X21_witness :
  exists rows,
    QuestionsService.createBulk Examples.new_ids "qz" Examples.more_questions Examples.database
    = (Ok (Accepted rows), set_questions (questions Examples.database ++ rows) Examples.database)
    /\ length rows = length Examples.more_questions
    /\ (forall i row, rows !! i = Some row ->
                      question_id row = Examples.new_ids i
                      /\ questionNumber row
                         = QuestionsService.nextQuestionNumber "qz" Examples.database
                           + Z.of_nat i
                      /\ isAnswered row = false
                      /\ option_map dto_options (Examples.more_questions !! i)
                         = Some (options row))
    /\ (forall x row, In x (questions Examples.database) -> question_quizId x = "qz" ->
                      In row rows -> questionNumber x < questionNumber row).
Proof.
  refine (proj1 (X21_createBulk_numbers_consecutively Examples.new_ids "qz"
                   Examples.more_questions Examples.database _ _ _ _) _).
  - eexists. split; [left; reflexivity | reflexivity].
  - repeat constructor.
  - intros i x Hi Hx. simpl in Hi, Hx.
    destruct i as [| [| i]]; [| | lia];
      repeat (destruct Hx as [<- | Hx]; [discriminate |]); destruct Hx.
  - intros i j Hij. simpl in Hij.
    destruct i as [| [| i]], j as [| [| j]]; try lia; discriminate.
  - intros i Hi. simpl in Hi. destruct i as [| [| i]]; [reflexivity | reflexivity | lia].
Defined.

(** ** Updating a question *)

Lemma find_unique_question qs q :
  NoDup (map question_id qs) -> In q qs ->
  find (fun x => String.eqb (question_id x) (question_id q)) qs = Some q.
Proof.
  induction qs as [| x qs IH]; intros Hnd Hin; [destruct Hin |].
  simpl in Hnd. apply NoDup_cons in Hnd. destruct Hnd as (Hx & Hnd). simpl.
  destruct Hin as [-> | Hin].
  - rewrite String.eqb_refl. reflexivity.
  - destruct (String.eqb (question_id x) (question_id q)) eqn:E; [| apply IH; assumption].
    apply String.eqb_eq in E. exfalso. apply Hx. rewrite E.
    apply list_elem_of_In. apply in_map. exact Hin.
Qed.

Lemma findInQuiz_unique quizId questionId d question :
  NoDup (map question_id (questions d)) ->
  QuestionsService.findInQuiz quizId questionId d = Some question ->
  Prisma.question_findUnique questionId d = Some question
  /\ question_id question = questionId /\ question_quizId question = quizId.
Proof.
  intros Hnd Hf. unfold QuestionsService.findInQuiz in Hf. apply List.find_some in Hf.
  destruct Hf as (Hin & Hb). apply andb_true_iff in Hb. destruct Hb as (Hb1 & Hb2).
  apply String.eqb_eq in Hb1. apply String.eqb_eq in Hb2.
  split; [| auto]. unfold Prisma.question_findUnique. rewrite <- Hb1.
  apply find_unique_question; assumption.
Qed.

(** X23. An update is validated exactly when it gives options or a
    type.  Then it is checked as a whole: it is stored only if the
    question it results in (the stored question with the given fields
    replaced) passes the validation, and is otherwise rejected with the
    validation's message and nothing written.  An update that gives
    neither is not validated: a correct answer index that it gives is
    stored as it is when it fits the 32-bit column (an index that
    addresses no option, too), and when it does not fit the update fails
    and nothing is written. *)
Theorem X23_update_is_validated_iff_options_or_type_are_given
    (quizId questionId : Id) (dto : UpdateQuestionDto) (d : DB) (question : Question) :
  NoDup (map question_id (questions d)) ->
  QuestionsService.findInQuiz quizId questionId d = Some question ->
  (is_Some (upd_options dto) \/ is_Some (upd_questionType dto) ->
   (QuestionsService.validateQuestionOptions
      (questionType (QuestionsService.merged question dto))
      (options (QuestionsService.merged question dto))
      (correctAnswerIndex (QuestionsService.merged question dto)) = Accepted tt
    /\ exists d',
         QuestionsService.update quizId questionId dto d
         = (Ok (Accepted (QuestionsService.merged question dto)), d')
         /\ In (QuestionsService.merged question dto) (questions d'))
   \/ (exists m,
          QuestionsService.validateQuestionOptions
            (questionType (QuestionsService.merged question dto))
            (options (QuestionsService.merged question dto))
            (correctAnswerIndex (QuestionsService.merged question dto))
          = BadRequestException m
          /\ QuestionsService.update quizId questionId dto d
             = (Ok (BadRequestException m), d)))
  /\ (upd_options dto = None -> upd_questionType dto = None ->
      (forall index, upd_correctAnswerIndex dto = Some index -> Prisma.int4 index = true) ->
      exists d',
        QuestionsService.update quizId questionId dto d
        = (Ok (Accepted (QuestionsService.merged question dto)), d')
        /\ In (QuestionsService.merged question dto) (questions d')
        /\ correctAnswerIndex (QuestionsService.merged question dto)
           = default (correctAnswerIndex question) (upd_correctAnswerIndex dto)
        /\ options (QuestionsService.merged question dto) = options question)
  /\ (upd_options dto = None -> upd_questionType dto = None ->
      Prisma.int4 (correctAnswerIndex question) = true ->
      forall index,
        upd_correctAnswerIndex dto = Some index -> Prisma.int4 index = false ->
        exists e, QuestionsService.update quizId questionId dto d = (Throw e, d)).
Proof.
  intros Hnd Hf.
  destruct (findInQuiz_unique quizId questionId d question Hnd Hf) as (Hu & Hid & _).
  assert (Hin : In question (questions d))
    by (unfold QuestionsService.findInQuiz in Hf; apply List.find_some in Hf; tauto).
  assert (Hstored : In (QuestionsService.merged question dto)
                      (map (fun x => if String.eqb (question_id x) questionId
                                     then QuestionsService.merged x dto else x)
                           (questions d))).
  { apply in_map_iff. exists question. rewrite Hid, String.eqb_refl. auto. }
  assert (Hupd : Prisma.int4 (correctAnswerIndex (QuestionsService.merged question dto)) = true
                 \/ correctAnswerIndex (QuestionsService.merged question dto)
                    = correctAnswerIndex question ->
                 Prisma.question_update questionId (fun q => QuestionsService.merged q dto) d
                 = (Ok (QuestionsService.merged question dto),
                    set_questions
                      (map (fun x => if String.eqb (question_id x) questionId
                                     then QuestionsService.merged x dto else x)
                           (questions d)) d)).
  { intros Hfits. unfold Prisma.question_update, bind, get, modify, ret. cbv beta iota.
    rewrite Hu.
    replace (negb (correctAnswerIndex (QuestionsService.merged question dto)
                   =? correctAnswerIndex question)
             && negb (Prisma.int4 (correctAnswerIndex (QuestionsService.merged question dto))))
      with false; [reflexivity |].
    symmetry. destruct Hfits as [-> | ->]; [apply andb_false_r |].
    rewrite Z.eqb_refl. reflexivity. }
  split; [| split].
  - intros Hgiven.
    assert (Hb : bool_decide (is_Some (upd_options dto))
                 || bool_decide (is_Some (upd_questionType dto)) = true).
    { destruct Hgiven as [H | H].
      - rewrite (bool_decide_eq_true_2 _ H). reflexivity.
      - rewrite (bool_decide_eq_true_2 _ H). apply orb_true_r. }
    destruct (QuestionsService.validateQuestionOptions
                (questionType (QuestionsService.merged question dto))
                (options (QuestionsService.merged question dto))
                (correctAnswerIndex (QuestionsService.merged question dto)))
      as [[] | m] eqn:Ev.
    + left. split; [reflexivity |].
      exists (set_questions
                (map (fun x => if String.eqb (question_id x) questionId
                               then QuestionsService.merged x dto else x) (questions d)) d).
      split; [| exact Hstored].
      unfold QuestionsService.update, bind at 1, get at 1. cbv beta iota.
      rewrite Hf, Hb, Ev. unfold bind. rewrite Hupd; [reflexivity |].
      left. apply int4_small. eapply validated_index. exact Ev.
    + right. exists m. split; [reflexivity |].
      unfold QuestionsService.update, bind at 1, get at 1. cbv beta iota.
      rewrite Hf, Hb, Ev. reflexivity.
  - intros Ho Ht Hfits.
    exists (set_questions
              (map (fun x => if String.eqb (question_id x) questionId
                             then QuestionsService.merged x dto else x) (questions d)) d).
    split; [| split; [exact Hstored | split; [reflexivity | simpl; rewrite Ho; reflexivity]]].
    unfold QuestionsService.update, bind at 1, get at 1. cbv beta iota.
    rewrite Hf, Ho, Ht. simpl. unfold bind. rewrite Hupd; [reflexivity |].
    simpl. destruct (upd_correctAnswerIndex dto) as [index |]; simpl;
      [left; apply Hfits; reflexivity | right; reflexivity].
  - intros Ho Ht Hold index Hgiven Hout. eexists.
    unfold QuestionsService.update, bind at 1, get at 1. cbv beta iota.
    rewrite Hf, Ho, Ht. simpl. unfold bind.
    unfold Prisma.question_update, bind, get, throw. rewrite Hu. simpl.
    rewrite Hgiven. simpl. rewrite Hout.
    destruct (Z.eqb_spec index (correctAnswerIndex question)) as [-> | _];
      [congruence | reflexivity].
Qed.

Lemma X23_witness :
  exists d',
    QuestionsService.update "qz" "y1" Examples.index_only Examples.database
    = (Ok (Accepted (QuestionsService.merged Examples.y1 Examples.index_only)), d')
    /\ In (QuestionsService.merged Examples.y1 Examples.index_only) (questions d')
    /\ correctAnswerIndex (QuestionsService.merged Examples.y1 Examples.index_only)
       = default (correctAnswerIndex Examples.y1)
           (upd_correctAnswerIndex Examples.index_only)
    /\ options (QuestionsService.merged Examples.y1 Examples.index_only)
       = options Examples.y1.
Proof.
  refine (proj1 (proj2 (X23_update_is_validated_iff_options_or_type_are_given "qz" "y1"
                          Examples.index_only Examples.database Examples.y1 _ _))
            eq_refl eq_refl _).
  - apply (bool_decide_unpack _). vm_compute. exact I.
  - reflexivity.
  - intros index H. inversion H. reflexivity.
Defined.

(** ** Answered questions and the question supply *)

Lemma getQuestionsForRound_unanswered quizId roundType n k d :
  exists qs,
    QuestionsService.getQuestionsForRound quizId roundType n k d = (Ok qs, d)
    /\ forall q, In q qs -> In q (questions d) /\ question_quizId q = quizId
                            /\ isAnswered q = false.
Proof.
  assert (Hsub : forall (f : Question -> bool) q,
             In q (QuestionsService.orderBy_questionNumber (List.filter f (questions d))) ->
             In q (questions d) /\ f q = true).
  { intros f q Hq. unfold QuestionsService.orderBy_questionNumber in Hq.
    apply (Permutation_in _ (sort_by_Permutation _ _)) in Hq. apply filter_In in Hq. exact Hq. }
  assert (Htake : forall m (l : list Question) q, In q (take m l) -> In q l).
  { intros m l q Hq. apply list_elem_of_In. apply list_elem_of_In in Hq.
    eapply subseteq_take. exact Hq. }
  unfold QuestionsService.getQuestionsForRound, bind, get, ret.
  destruct roundType.
  - eexists. split; [reflexivity |]. intros q Hq.
    assert (Hq' : In q (QuestionsService.orderBy_questionNumber
                          (List.filter
                             (fun q => String.eqb (question_quizId q) quizId
                                       && QuestionType_eqb (questionType q)
                                            (QuestionsService.mapRoundTypeToQuestionType
                                               multiple_choice)
                                       && negb (isAnswered q)) (questions d))))
      by (destruct k as [[| k] |]; [exact Hq | apply Htake in Hq; exact Hq | exact Hq]).
    apply Hsub in Hq'. destruct Hq' as (Hin & Hb).
    apply andb_true_iff in Hb. destruct Hb as (Hb & Ha).
    apply andb_true_iff in Hb. destruct Hb as (Hb & _).
    apply String.eqb_eq in Hb. apply negb_true_iff in Ha. auto.
  - eexists. split; [reflexivity |]. intros q Hq.
    assert (Hq' : In q (QuestionsService.orderBy_questionNumber
                          (List.filter
                             (fun q => String.eqb (question_quizId q) quizId
                                       && QuestionType_eqb (questionType q)
                                            (QuestionsService.mapRoundTypeToQuestionType yes_no)
                                       && negb (isAnswered q)) (questions d))))
      by (destruct k as [[| k] |]; [exact Hq | apply Htake in Hq; exact Hq | exact Hq]).
    apply Hsub in Hq'. destruct Hq' as (Hin & Hb).
    apply andb_true_iff in Hb. destruct Hb as (Hb & Ha).
    apply andb_true_iff in Hb. destruct Hb as (Hb & _).
    apply String.eqb_eq in Hb. apply negb_true_iff in Ha. auto.
  - eexists. split; [reflexivity |]. intros q Hq. apply Htake in Hq.
    apply Hsub in Hq. destruct Hq as (Hin & Hb).
    apply andb_true_iff in Hb. destruct Hb as (Hb & Ha).
    apply String.eqb_eq in Hb. apply negb_true_iff in Ha. auto.
Qed.

(** X25. A question marked as answered is no longer supplied: after a
    successful [markAsAnswered], no round of any quiz, whatever its type
    and the counts asked for, is given a question with that id; the
    other questions are as before. *)
Theorem X25_marked_question_is_not_supplied
    (questionId : Id) (d d' : DB) (quizId : Id) (roundType : QuizType)
    (participantCount perParticipant : option nat) :
  QuestionsService.markAsAnswered questionId d = (Ok tt, d') ->
  (exists qs,
      QuestionsService.getQuestionsForRound quizId roundType participantCount perParticipant d'
      = (Ok qs, d')
      /\ forall q, In q qs -> question_id q <> questionId)
  /\ List.filter (fun q => negb (String.eqb (question_id q) questionId)) (questions d')
     = List.filter (fun q => negb (String.eqb (question_id q) questionId)) (questions d).
Proof.
  intros H. unfold QuestionsService.markAsAnswered, Prisma.question_update, bind, get, modify,
    ret, throw in H.
  destruct (Prisma.question_findUnique questionId d) as [found |]; [| discriminate H].
  simpl correctAnswerIndex in H. rewrite Z.eqb_refl in H. cbn [negb andb] in H.
  inv_pair H. split.
  - destruct (getQuestionsForRound_unanswered quizId roundType participantCount perParticipant
                (set_questions
                   (map (fun x => if String.eqb (question_id x) questionId
                                  then QuestionsService.set_isAnswered true x else x)
                        (questions d)) d)) as (qs & Hqs & Hall).
    exists qs. split; [exact Hqs |]. intros q Hq Hid.
    destruct (Hall q Hq) as (Hin & _ & Ha). simpl in Hin.
    apply in_map_iff in Hin. destruct Hin as (x & Hx & _).
    destruct (String.eqb (question_id x) questionId) eqn:E.
    + subst q. simpl in Ha. discriminate Ha.
    + subst q. apply String.eqb_neq in E. contradiction.
  - simpl. apply filter_map_same.
    + intros x Hx. rewrite Hx. reflexivity.
    + intros x Hx. rewrite Hx. simpl. exact Hx.
Qed.

Lemma X25_witness :
  (exists qs,
      QuestionsService.getQuestionsForRound "qz" multiple_choice (Some 3%nat) (Some 1%nat)
        (snd (QuestionsService.markAsAnswered "m1" Examples.database))
      = (Ok qs, snd (QuestionsService.markAsAnswered "m1" Examples.database))
      /\ forall q, In q qs -> question_id q <> "m1")
  /\ List.filter (fun q => negb (String.eqb (question_id q) "m1"))
       (questions (snd (QuestionsService.markAsAnswered "m1" Examples.database)))
     = List.filter (fun q => negb (String.eqb (question_id q) "m1"))
         (questions Examples.database).
Proof.
  apply (X25_marked_question_is_not_supplied "m1" Examples.database
           (snd (QuestionsService.markAsAnswered "m1" Examples.database)) "qz"
           multiple_choice (Some 3%nat) (Some 1%nat)).
  vm_compute. reflexivity.
Defined.

Lemma reset_counts quizId (P : Question -> bool) l :
  (forall q, P (QuestionsService.set_isAnswered false q) = P q) ->
  length (List.filter (fun q => String.eqb (question_quizId q) quizId && P q
                                && negb (isAnswered q))
            (map (fun q => if String.eqb (question_quizId q) quizId
                           then QuestionsService.set_isAnswered false q else q) l))
  = length (List.filter (fun q => String.eqb (question_quizId q) quizId && P q) l)
  /\ length (List.filter (fun q => String.eqb (question_quizId q) quizId && P q)
               (map (fun q => if String.eqb (question_quizId q) quizId
                              then QuestionsService.set_isAnswered false q else q) l))
     = length (List.filter (fun q => String.eqb (question_quizId q) quizId && P q) l)
  /\ List.filter (fun q => String.eqb (question_quizId q) quizId && isAnswered q)
       (map (fun q => if String.eqb (question_quizId q) quizId
                      then QuestionsService.set_isAnswered false q else q) l) = []
  /\ List.filter (fun q => negb (String.eqb (question_quizId q) quizId))
       (map (fun q => if String.eqb (question_quizId q) quizId
                      then QuestionsService.set_isAnswered false q else q) l)
     = List.filter (fun q => negb (String.eqb (question_quizId q) quizId)) l.
Proof.
  intros HP. induction l as [| q l (IH1 & IH2 & IH3 & IH4)]; simpl; [auto |].
  destruct (String.eqb (question_quizId q) quizId) eqn:E; simpl.
  - rewrite E, HP. simpl. destruct (P q); simpl; rewrite ?IH1, ?IH2; auto.
  - rewrite E. simpl. rewrite IH4. auto.
Qed.

(** X26. After [resetQuizQuestions] every question of the quiz is
    available again: the statistics count no answered question and as
    many questions as before, the supply for a multiple-choice round and
    the supply for a yes/no round (with no limit asked for) hold as many
    questions as the quiz has of that type, and the questions of other
    quizzes are untouched. *)
Theorem X26_reset_makes_every_question_available (quizId : Id) (d : DB) :
  exists stats before mc yn,
    QuestionsService.getQuestionStats quizId (snd (QuestionsService.resetQuizQuestions quizId d))
    = (Ok stats, snd (QuestionsService.resetQuizQuestions quizId d))
    /\ QuestionsService.getQuestionStats quizId d = (Ok before, d)
    /\ st_answeredQuestions stats = 0%nat
    /\ st_totalQuestions stats = st_totalQuestions before
    /\ QuestionsService.getQuestionsForRound quizId multiple_choice None None
         (snd (QuestionsService.resetQuizQuestions quizId d))
       = (Ok mc, snd (QuestionsService.resetQuizQuestions quizId d))
    /\ length mc = st_multiple_choice before
    /\ QuestionsService.getQuestionsForRound quizId yes_no None None
         (snd (QuestionsService.resetQuizQuestions quizId d))
       = (Ok yn, snd (QuestionsService.resetQuizQuestions quizId d))
    /\ length yn = st_yes_no before
    /\ List.filter (fun q => negb (String.eqb (question_quizId q) quizId))
         (questions (snd (QuestionsService.resetQuizQuestions quizId d)))
       = List.filter (fun q => negb (String.eqb (question_quizId q) quizId)) (questions d).
Proof.
  do 4 eexists.
  split; [reflexivity | split; [reflexivity | split; [| split; [| split; [reflexivity |
    split; [| split; [reflexivity | split]]]]]]]; simpl.
  - destruct (reset_counts quizId (fun _ => true) (questions d) (fun _ => eq_refl))
      as (_ & _ & H & _).
    rewrite H. reflexivity.
  - destruct (reset_counts quizId (fun _ => true) (questions d) (fun _ => eq_refl))
      as (_ & H & _).
    exact H.
  - unfold QuestionsService.orderBy_questionNumber. rewrite sort_by_length.
    destruct (reset_counts quizId
                (fun q => QuestionType_eqb (questionType q) qt_multiple_choice)
                (questions d) (fun _ => eq_refl)) as (H & _).
    exact H.
  - unfold QuestionsService.orderBy_questionNumber. rewrite sort_by_length.
    destruct (reset_counts quizId (fun q => QuestionType_eqb (questionType q) qt_yes_no)
                (questions d) (fun _ => eq_refl)) as (H & _).
    exact H.
  - destruct (reset_counts quizId (fun _ => true) (questions d) (fun _ => eq_refl))
      as (_ & _ & _ & H).
    exact H.
Qed.

(** * Further properties of the session cache *)

Lemma existsb_eqb_In x l : existsb (String.eqb x) l = true <-> In x l.
Proof.
  rewrite existsb_exists. split.
  - intros (y & Hy & E). apply String.eqb_eq in E. subst y. exact Hy.
  - intros H. exists x. split; [exact H | apply String.eqb_refl].
Qed.

Lemma NoDup_snoc (x : string) l : NoDup l -> ~ In x l -> NoDup (l ++ [x]).
Proof.
  intros Hnd Hx. apply NoDup_app. split; [exact Hnd | split; [| apply NoDup_singleton]].
  intros y Hy Hy'. apply list_elem_of_singleton in Hy'. subst y.
  apply Hx. apply list_elem_of_In. exact Hy.
Qed.

(** X27. Marking a question as answered in the cache records it once:
    afterwards the question is in the quiz's answered list, a list
    without repetitions stays without repetitions, marking again changes
    nothing, and the lists of other quizzes are as they were. *)
Theorem X27_markQuestionAsAnswered_records_once (quizId questionId : Id) (c : Cache) :
  NoDup (RedisService.getAnsweredQuestions quizId c) ->
  In questionId
    (RedisService.getAnsweredQuestions quizId
       (RedisService.markQuestionAsAnswered quizId questionId c))
  /\ NoDup (RedisService.getAnsweredQuestions quizId
              (RedisService.markQuestionAsAnswered quizId questionId c))
  /\ RedisService.markQuestionAsAnswered quizId questionId
       (RedisService.markQuestionAsAnswered quizId questionId c)
     = RedisService.markQuestionAsAnswered quizId questionId c
  /\ (forall other, other <> quizId ->
                    RedisService.getAnsweredQuestions other
                      (RedisService.markQuestionAsAnswered quizId questionId c)
                    = RedisService.getAnsweredQuestions other c).
Proof.
  intros Hnd. unfold RedisService.getAnsweredQuestions in *.
  assert (Hmark : forall c0,
             In questionId (default [] (c_answeredQuestions c0 !! quizId)) ->
             RedisService.markQuestionAsAnswered quizId questionId c0 = c0).
  { intros c0 Hin. unfold RedisService.markQuestionAsAnswered.
    rewrite (proj2 (existsb_eqb_In questionId _) Hin). reflexivity. }
  destruct (existsb (String.eqb questionId) (default [] (c_answeredQuestions c !! quizId)))
    eqn:E.
  - assert (Hin : In questionId (default [] (c_answeredQuestions c !! quizId)))
      by (apply existsb_eqb_In; exact E).
    rewrite !(Hmark c Hin). auto.
  - assert (Hnot : ~ In questionId (default [] (c_answeredQuestions c !! quizId)))
      by (intros H; apply existsb_eqb_In in H; congruence).
    assert (Hafter : c_answeredQuestions (RedisService.markQuestionAsAnswered quizId questionId c)
                     = <[quizId := default [] (c_answeredQuestions c !! quizId) ++ [questionId]]>
                         (c_answeredQuestions c)).
    { unfold RedisService.markQuestionAsAnswered. rewrite E. reflexivity. }
    assert (Hin : In questionId
                    (default [] (c_answeredQuestions
                                   (RedisService.markQuestionAsAnswered quizId questionId c)
                                 !! quizId))).
    { rewrite Hafter, lookup_insert_eq. simpl. apply in_or_app. right. left. reflexivity. }
    split; [exact Hin | split; [| split]].
    + rewrite Hafter, lookup_insert_eq. simpl. apply NoDup_snoc; assumption.
    + apply Hmark. exact Hin.
    + intros other Hne. rewrite Hafter, lookup_insert_ne by congruence. reflexivity.
Qed.

Lemma X27_witness :
  In "m1"
    (RedisService.getAnsweredQuestions "qz"
       (RedisService.markQuestionAsAnswered "qz" "m1" (cache Examples.answered_wrong)))
  /\ NoDup (RedisService.getAnsweredQuestions "qz"
              (RedisService.markQuestionAsAnswered "qz" "m1" (cache Examples.answered_wrong)))
  /\ RedisService.markQuestionAsAnswered "qz" "m1"
       (RedisService.markQuestionAsAnswered "qz" "m1" (cache Examples.answered_wrong))
     = RedisService.markQuestionAsAnswered "qz" "m1" (cache Examples.answered_wrong)
  /\ (forall other, other <> "qz" ->
                    RedisService.getAnsweredQuestions other
                      (RedisService.markQuestionAsAnswered "qz" "m1"
                         (cache Examples.answered_wrong))
                    = RedisService.getAnsweredQuestions other (cache Examples.answered_wrong)).
Proof.
  apply (X27_markQuestionAsAnswered_records_once "qz" "m1" (cache Examples.answered_wrong)).
  apply (bool_decide_unpack _). vm_compute. exact I.
Defined.

(** ** The round log *)

Lemma storeAnsweredQuestion_unfold quizId roundId questionId userId l :
  colon_free quizId -> colon_free roundId ->
  RedisService.storeAnsweredQuestion quizId roundId questionId userId l
  = {| RedisService.l_lists :=
         let lists1 :=
           if existsb (String.eqb questionId) (RedisService.getAnsweredQuestionIds quizId roundId l)
           then RedisService.l_lists l
           else <[Keys.roundAnswered quizId roundId :=
                    RedisService.getAnsweredQuestionIds quizId roundId l ++ [questionId]]> (RedisService.l_lists l) in
         if existsb (String.eqb questionId)
              (RedisService.getParticipantAnsweredQuestions quizId roundId userId l)
         then lists1
         else <[Keys.participantAnswered quizId roundId userId :=
                  RedisService.getParticipantAnsweredQuestions quizId roundId userId l ++ [questionId]]>
                lists1;
       RedisService.l_counts :=
         if existsb (String.eqb questionId)
              (RedisService.getParticipantAnsweredQuestions quizId roundId userId l)
         then RedisService.l_counts l
         else <[Keys.questionCount quizId roundId userId :=
                  (RedisService.getParticipantQuestionCount quizId roundId userId l + 1)%nat]>
                (RedisService.l_counts l) |}.
Proof.
  intros Hq Hr.
  unfold RedisService.storeAnsweredQuestion, RedisService.incrementParticipantQuestionCount,
    RedisService.getAnsweredQuestionIds, RedisService.getParticipantAnsweredQuestions, RedisService.getParticipantQuestionCount.
  cbv zeta.
  destruct (existsb (String.eqb questionId)
              (default [] (RedisService.l_lists l !! Keys.roundAnswered quizId roundId))); simpl.
  - destruct (existsb _ _); simpl; destruct l; reflexivity.
  - rewrite lookup_insert_ne
      by (apply roundAnswered_participantAnswered; assumption).
    destruct (existsb _ _); simpl; reflexivity.
Qed.

(** X28. For a quiz, a round and a participant whose ids have no
    colon, recording an answered question keeps the round log
    consistent: the participant's question count stays the number of
    questions listed for the participant (it is incremented exactly when
    the question is new for the participant), no list gets a question
    twice, and what a participant has answered is among the answered
    questions of the round.  With a colon in the round id the keys
    coincide: the list of the round [R:participant:U] is the list of
    participant [U] in round [R], so recording an answer in such a round
    gives that participant a listed question and no count, and the log
    is no longer consistent. *)
Theorem X28_storeAnsweredQuestion_keeps_the_log_consistent
    (quizId roundId questionId userId : Id) (l : RedisService.AnswerLog) :
  (colon_free quizId -> colon_free roundId -> colon_free userId ->
   log_consistent l ->
   log_consistent (RedisService.storeAnsweredQuestion quizId roundId questionId userId l)
   /\ In questionId
        (RedisService.getParticipantAnsweredQuestions quizId roundId userId
           (RedisService.storeAnsweredQuestion quizId roundId questionId userId l))
   /\ RedisService.getParticipantQuestionCount quizId roundId userId
        (RedisService.storeAnsweredQuestion quizId roundId questionId userId l)
      = if existsb (String.eqb questionId)
             (RedisService.getParticipantAnsweredQuestions quizId roundId userId l)
        then RedisService.getParticipantQuestionCount quizId roundId userId l
        else S (RedisService.getParticipantQuestionCount quizId roundId userId l))
  /\ (colon_free quizId -> colon_free roundId -> colon_free userId ->
      forall other,
        Keys.roundAnswered quizId (roundId +:+ ":participant:" +:+ userId)
        = Keys.participantAnswered quizId roundId userId
        /\ RedisService.getParticipantAnsweredQuestions quizId roundId userId
             (RedisService.storeAnsweredQuestion quizId (roundId +:+ ":participant:" +:+ userId)
                questionId other Examples.empty_log) = [questionId]
        /\ RedisService.getParticipantQuestionCount quizId roundId userId
             (RedisService.storeAnsweredQuestion quizId (roundId +:+ ":participant:" +:+ userId)
                questionId other Examples.empty_log) = 0%nat
        /\ log_consistent Examples.empty_log
        /\ ~ log_consistent
               (RedisService.storeAnsweredQuestion quizId (roundId +:+ ":participant:" +:+ userId)
                  questionId other Examples.empty_log)).
Proof.
  split.
  2:{ intros Hq Hr Hu other.
      assert (E : Keys.roundAnswered quizId (roundId +:+ ":participant:" +:+ userId)
                  = Keys.participantAnswered quizId roundId userId).
      { unfold Keys.roundAnswered, Keys.participantAnswered. rewrite !append_assoc.
        reflexivity. }
      assert (Hne1 : Keys.participantAnswered quizId
                       (roundId +:+ ":participant:" +:+ userId) other
                     <> Keys.participantAnswered quizId roundId userId).
      { intros H. unfold Keys.participantAnswered in H. count_colons H. }
      assert (Hne2 : Keys.questionCount quizId
                       (roundId +:+ ":participant:" +:+ userId) other
                     <> Keys.questionCount quizId roundId userId).
      { intros H. unfold Keys.questionCount in H. count_colons H. }
      assert (Hstore : RedisService.storeAnsweredQuestion quizId (roundId +:+ ":participant:" +:+ userId)
                         questionId other Examples.empty_log
                       = {| RedisService.l_lists :=
                              <[Keys.participantAnswered quizId
                                  (roundId +:+ ":participant:" +:+ userId) other
                                := [questionId]]>
                                (<[Keys.participantAnswered quizId roundId userId
                                   := [questionId]]> ∅);
                            RedisService.l_counts :=
                              <[Keys.questionCount quizId
                                  (roundId +:+ ":participant:" +:+ userId) other
                                := 1%nat]> ∅ |}).
      { unfold RedisService.storeAnsweredQuestion, RedisService.incrementParticipantQuestionCount. cbv zeta.
        rewrite E. simpl RedisService.l_lists. rewrite lookup_empty. simpl.
        rewrite lookup_insert_ne by congruence. rewrite !lookup_empty. reflexivity. }
      assert (Hlist : RedisService.getParticipantAnsweredQuestions quizId roundId userId
                        (RedisService.storeAnsweredQuestion quizId
                           (roundId +:+ ":participant:" +:+ userId) questionId other Examples.empty_log)
                      = [questionId]).
      { rewrite Hstore. unfold RedisService.getParticipantAnsweredQuestions. simpl.
        rewrite lookup_insert_ne by exact Hne1. rewrite lookup_insert_eq. reflexivity. }
      assert (Hcount : RedisService.getParticipantQuestionCount quizId roundId userId
                         (RedisService.storeAnsweredQuestion quizId
                            (roundId +:+ ":participant:" +:+ userId) questionId other Examples.empty_log)
                       = 0%nat).
      { rewrite Hstore. unfold RedisService.getParticipantQuestionCount. simpl.
        rewrite lookup_insert_ne by exact Hne2. rewrite lookup_empty. reflexivity. }
      split; [exact E | split; [exact Hlist | split; [exact Hcount | split]]].
      - intros q r u _ _ _.
        unfold RedisService.getParticipantQuestionCount, RedisService.getParticipantAnsweredQuestions,
          RedisService.getAnsweredQuestionIds. simpl. rewrite !lookup_empty. simpl.
        split; [reflexivity | split; [constructor | split; [constructor | intros x []]]].
      - intros H. destruct (H quizId roundId userId Hq Hr Hu) as (Hc & _).
        rewrite Hlist, Hcount in Hc. discriminate Hc. }
  intros Hq Hr Hu Hinv. rewrite storeAnsweredQuestion_unfold by assumption.
  set (A := RedisService.getAnsweredQuestionIds quizId roundId l) in *.
  set (P := RedisService.getParticipantAnsweredQuestions quizId roundId userId l) in *.
  set (N := RedisService.getParticipantQuestionCount quizId roundId userId l) in *.
  destruct (Hinv quizId roundId userId Hq Hr Hu) as (HN & HP & HA & HPA).
  fold A P N in HN, HP, HA, HPA.
  assert (HexA : existsb (String.eqb questionId) A = true <-> In questionId A)
    by apply existsb_eqb_In.
  assert (HexP : existsb (String.eqb questionId) P = true <-> In questionId P)
    by apply existsb_eqb_In.
  (* the lists after the first write *)
  set (lists1 := if existsb (String.eqb questionId) A then RedisService.l_lists l
                 else <[Keys.roundAnswered quizId roundId := A ++ [questionId]]> (RedisService.l_lists l)).
  assert (H1round : forall q r, colon_free q -> colon_free r ->
             NoDup (default [] (lists1 !! Keys.roundAnswered q r))
             /\ (forall x, In x (default [] (RedisService.l_lists l !! Keys.roundAnswered q r)) ->
                           In x (default [] (lists1 !! Keys.roundAnswered q r)))
             /\ ((q, r) = (quizId, roundId) ->
                 In questionId (default [] (lists1 !! Keys.roundAnswered q r)))).
  { intros q r Hcq Hcr. destruct (Hinv q r userId Hcq Hcr Hu) as (_ & _ & HA' & _).
    unfold RedisService.getAnsweredQuestionIds in HA'. subst lists1.
    destruct (existsb (String.eqb questionId) A) eqn:Ea.
    - split; [exact HA' | split; [auto |]]. intros Heq. inversion Heq; subst.
      apply HexA. reflexivity.
    - destruct (decide (Keys.roundAnswered q r = Keys.roundAnswered quizId roundId))
        as [Heq | Hne].
      + apply roundAnswered_inj in Heq; try assumption. destruct Heq as (-> & ->).
        rewrite lookup_insert_eq. simpl. split; [| split].
        * apply NoDup_snoc; [exact HA |]. intros H. apply HexA in H. congruence.
        * intros x Hx. apply in_or_app. left. exact Hx.
        * intros _. apply in_or_app. right. left. reflexivity.
      + rewrite lookup_insert_ne by congruence.
        split; [exact HA' | split; [auto |]]. intros Heq. inversion Heq; subst.
        contradiction. }
  assert (H1part : forall q r u, colon_free q -> colon_free r ->
             lists1 !! Keys.participantAnswered q r u
             = RedisService.l_lists l !! Keys.participantAnswered q r u).
  { intros q r u Hcq Hcr. subst lists1. destruct (existsb _ A); [reflexivity |].
    apply lookup_insert_ne. apply roundAnswered_participantAnswered; assumption. }
  split; [| split].
  - intros q r u Hcq Hcr Hcu.
    unfold RedisService.getParticipantQuestionCount, RedisService.getParticipantAnsweredQuestions,
      RedisService.getAnsweredQuestionIds. simpl. fold lists1.
    destruct (Hinv q r u Hcq Hcr Hcu) as (HN' & HP' & HA' & HPA').
    unfold RedisService.getParticipantQuestionCount, RedisService.getParticipantAnsweredQuestions,
      RedisService.getAnsweredQuestionIds in HN', HP', HA', HPA'.
    destruct (H1round q r Hcq Hcr) as (Hans1 & Hans2 & Hans3).
    destruct (existsb (String.eqb questionId) P) eqn:Ep.
    + rewrite H1part by assumption.
      split; [exact HN' | split; [exact HP' | split; [exact Hans1 |]]].
      intros x Hx. apply Hans2. apply HPA'. exact Hx.
    + assert (Hround : (<[Keys.participantAnswered quizId roundId userId := P ++ [questionId]]>
                          lists1) !! Keys.roundAnswered q r
                       = lists1 !! Keys.roundAnswered q r).
      { apply lookup_insert_ne. apply participantAnswered_roundAnswered; assumption. }
      rewrite Hround.
      destruct (decide (Keys.participantAnswered q r u
                        = Keys.participantAnswered quizId roundId userId)) as [Heq | Hne].
      * apply participantAnswered_inj in Heq; try assumption.
        destruct Heq as (-> & -> & ->). rewrite !lookup_insert_eq. simpl.
        split; [rewrite length_app; simpl; fold N; lia | split; [| split; [exact Hans1 |]]].
        -- apply NoDup_snoc; [exact HP |]. intros H. apply HexP in H. congruence.
        -- intros x Hx. apply in_app_or in Hx. destruct Hx as [Hx | [<- | []]].
           ++ apply Hans2. apply HPA. exact Hx.
           ++ apply Hans3. reflexivity.
      * assert (Hnc : Keys.questionCount quizId roundId userId <> Keys.questionCount q r u).
        { intros Heq. apply questionCount_inj in Heq; try assumption.
          destruct Heq as (-> & -> & ->). apply Hne. reflexivity. }
        rewrite (lookup_insert_ne (RedisService.l_counts l)) by exact Hnc.
        rewrite (lookup_insert_ne lists1) by congruence.
        rewrite H1part by assumption.
        split; [exact HN' | split; [exact HP' | split; [exact Hans1 |]]].
        intros x Hx. apply Hans2. apply HPA'. exact Hx.
  - unfold RedisService.getParticipantAnsweredQuestions at 1. simpl. fold lists1.
    destruct (existsb (String.eqb questionId) P) eqn:Ep.
    + rewrite H1part by assumption. apply HexP. reflexivity.
    + rewrite lookup_insert_eq. simpl. apply in_or_app. right. left. reflexivity.
  - unfold RedisService.getParticipantQuestionCount at 1. simpl.
    destruct (existsb (String.eqb questionId) P) eqn:Ep; [reflexivity |].
    rewrite lookup_insert_eq. simpl. lia.
Qed.

Lemma X28_witness :
  log_consistent (RedisService.storeAnsweredQuestion "qz" "r1" "m1" "A" Examples.empty_log)
  /\ In "m1"
       (RedisService.getParticipantAnsweredQuestions "qz" "r1" "A"
          (RedisService.storeAnsweredQuestion "qz" "r1" "m1" "A" Examples.empty_log))
  /\ RedisService.getParticipantQuestionCount "qz" "r1" "A"
       (RedisService.storeAnsweredQuestion "qz" "r1" "m1" "A" Examples.empty_log)
     = if existsb (String.eqb "m1")
            (RedisService.getParticipantAnsweredQuestions "qz" "r1" "A" Examples.empty_log)
       then RedisService.getParticipantQuestionCount "qz" "r1" "A" Examples.empty_log
       else S (RedisService.getParticipantQuestionCount "qz" "r1" "A" Examples.empty_log).
Proof.
  refine (proj1 (X28_storeAnsweredQuestion_keeps_the_log_consistent "qz" "r1" "m1" "A"
                   Examples.empty_log) _ _ _ _); [reflexivity | reflexivity | reflexivity |].
  intros quizId roundId userId _ _ _.
  unfold RedisService.getParticipantQuestionCount, RedisService.getParticipantAnsweredQuestions,
    RedisService.getAnsweredQuestionIds.
  simpl. rewrite !lookup_empty. simpl.
  split; [reflexivity | split; [constructor | split; [constructor | intros x []]]].
Defined.

(** ** Clearing and filling the quiz's cache *)

Lemma lookup_clearQuizCache {V} (quizId : Id) (store : gmap string V) key :
  key <> Keys.questions quizId -> key <> Keys.participants quizId ->
  key <> Keys.activeParticipant quizId -> key <> Keys.answeredQuestions quizId ->
  RedisService.clearQuizCache quizId store !! key = store !! key.
Proof.
  intros H1 H2 H3 H4. unfold RedisService.clearQuizCache. simpl.
  rewrite !lookup_delete_ne by congruence. reflexivity.
Qed.

(** A key with three colons or more is none of the four. *)
Ltac long_key :=
  apply lookup_clearQuizCache;
  let H := fresh "H" in
  intros H;
  unfold Keys.questions, Keys.participants, Keys.activeParticipant, Keys.answeredQuestions,
    Keys.roundQuestions, Keys.currentQuestion, Keys.roundAnswered, Keys.selectedAnswer,
    Keys.pendingAnswer, Keys.participantAnswered, Keys.questionCount in H;
  count_colons H.

(** A key [quiz:ID:NAME] is one of the four only for the same id and name. *)
Ltac short_key :=
  apply lookup_clearQuizCache;
  let H := fresh "H" in
  intros H;
  unfold Keys.questions, Keys.participants, Keys.activeParticipant, Keys.answeredQuestions,
    Keys.session, Keys.quizCache in H;
  apply single_key_inj in H; [| assumption || reflexivity ..];
  destruct H as (H & ?); first [discriminate | congruence].

(** X29. [clearQuizCache] deletes four entries of the quiz: its
    questions, participant order, active participant and answered
    questions.  For a quiz id without a colon these are the only entries
    that it touches: the four entries of every other quiz, the session
    and the bonus state of every quiz, and every entry of a round, a
    pending or selected answer and a participant's log, of this quiz
    too, are kept, whatever their ids.  With a colon in the id it
    deletes entries of other patterns: clearing the quiz id
    [Q:round:R] deletes the questions of round [R] of quiz [Q]. *)
Theorem X29_clearQuizCache_forgets_four_entries {V} (quizId : Id) (store : gmap string V) :
  (RedisService.clearQuizCache quizId store !! Keys.questions quizId = None
   /\ RedisService.clearQuizCache quizId store !! Keys.participants quizId = None
   /\ RedisService.clearQuizCache quizId store !! Keys.activeParticipant quizId = None
   /\ RedisService.clearQuizCache quizId store !! Keys.answeredQuestions quizId = None)
  /\ (colon_free quizId ->
      (forall other, other <> quizId ->
          RedisService.clearQuizCache quizId store !! Keys.questions other
          = store !! Keys.questions other
          /\ RedisService.clearQuizCache quizId store !! Keys.participants other
             = store !! Keys.participants other
          /\ RedisService.clearQuizCache quizId store !! Keys.activeParticipant other
             = store !! Keys.activeParticipant other
          /\ RedisService.clearQuizCache quizId store !! Keys.answeredQuestions other
             = store !! Keys.answeredQuestions other)
      /\ (forall q,
             RedisService.clearQuizCache quizId store !! Keys.session q = store !! Keys.session q
             /\ RedisService.clearQuizCache quizId store !! Keys.quizCache q "bonusState"
                = store !! Keys.quizCache q "bonusState")
      /\ (forall q r,
             RedisService.clearQuizCache quizId store !! Keys.roundQuestions q r
             = store !! Keys.roundQuestions q r
             /\ RedisService.clearQuizCache quizId store !! Keys.currentQuestion q r
                = store !! Keys.currentQuestion q r
             /\ RedisService.clearQuizCache quizId store !! Keys.roundAnswered q r
                = store !! Keys.roundAnswered q r)
      /\ (forall q x,
             RedisService.clearQuizCache quizId store !! Keys.selectedAnswer q x
             = store !! Keys.selectedAnswer q x
             /\ RedisService.clearQuizCache quizId store !! Keys.pendingAnswer q x
                = store !! Keys.pendingAnswer q x)
      /\ (forall q r u,
             RedisService.clearQuizCache quizId store !! Keys.participantAnswered q r u
             = store !! Keys.participantAnswered q r u
             /\ RedisService.clearQuizCache quizId store !! Keys.questionCount q r u
                = store !! Keys.questionCount q r u))
  /\ (forall q r,
         Keys.questions (q +:+ ":round:" +:+ r) = Keys.roundQuestions q r
         /\ RedisService.clearQuizCache (q +:+ ":round:" +:+ r) store
              !! Keys.roundQuestions q r = None).
Proof.
  assert (Hgone : forall (q : Id) (s : gmap string V),
             RedisService.clearQuizCache q s !! Keys.questions q = None).
  { intros q s. unfold RedisService.clearQuizCache. simpl.
    repeat first [apply lookup_delete_eq
                 | rewrite lookup_delete_None; right ]. }
  split; [| split].
  - split; [apply Hgone |]. unfold RedisService.clearQuizCache. simpl.
    repeat split;
      repeat first [apply lookup_delete_eq | rewrite lookup_delete_None; right].
  - intros Hq. split; [| split; [| split; [| split]]].
    + intros other Hne. repeat split; short_key.
    + intros q. split; short_key.
    + intros q r. repeat split; long_key.
    + intros q x. split; long_key.
    + intros q r u. split; long_key.
  - intros q r.
    assert (E : Keys.questions (q +:+ ":round:" +:+ r) = Keys.roundQuestions q r).
    { unfold Keys.questions, Keys.roundQuestions. rewrite !append_assoc. reflexivity. }
    split; [exact E |]. rewrite <- E. apply Hgone.
Qed.


(** X30. Caching a quiz's questions makes its answers checkable: once
    [cacheQuizQuestions] has stored questions with distinct ids, the
    validation of an answer to one of them succeeds and says correct
    exactly when the selected option is the question's correct answer
    index, while an answer to a question that is not among them fails
    with "Question not found in cache". *)
Theorem X30_cached_questions_validate_answers
    (quizId : Id) (qs : list Question) (c : Cache) (selected : Z) :
  NoDup (map question_id qs) ->
  (forall q, In q qs ->
             RedisService.validateAnswer quizId (question_id q) selected
               (RedisService.cacheQuizQuestions quizId qs c)
             = Ok {| v_isCorrect := selected =? correctAnswerIndex q;
                     v_correctAnswerIndex := correctAnswerIndex q |})
  /\ (forall questionId,
         ~ In questionId (map question_id qs) ->
         RedisService.validateAnswer quizId questionId selected
           (RedisService.cacheQuizQuestions quizId qs c)
         = Throw (JsError "Question not found in cache")).
Proof.
  intros Hnd.
  unfold RedisService.validateAnswer, RedisService.getQuizQuestions,
    RedisService.cacheQuizQuestions.
  simpl. rewrite lookup_insert_eq. split.
  - intros q Hq. rewrite (find_unique_question qs q Hnd Hq). reflexivity.
  - intros questionId Hnot.
    destruct (find (fun q => String.eqb (question_id q) questionId) qs) as [q |] eqn:E;
      [| reflexivity].
    apply List.find_some in E. destruct E as (Hin & Heq). apply String.eqb_eq in Heq.
    exfalso. apply Hnot. rewrite <- Heq. apply in_map. exact Hin.
Qed.

Lemma X30_witness :
  (forall q, In q Examples.all_questions ->
             RedisService.validateAnswer "qz" (question_id q) 1
               (RedisService.cacheQuizQuestions "qz" Examples.all_questions
                  Examples.session_cache)
             = Ok {| v_isCorrect := 1 =? correctAnswerIndex q;
                     v_correctAnswerIndex := correctAnswerIndex q |})
  /\ (forall questionId,
         ~ In questionId (map question_id Examples.all_questions) ->
         RedisService.validateAnswer "qz" questionId 1
           (RedisService.cacheQuizQuestions "qz" Examples.all_questions
              Examples.session_cache)
         = Throw (JsError "Question not found in cache")).
Proof.
  apply (X30_cached_questions_validate_answers "qz" Examples.all_questions
           Examples.session_cache 1).
  apply (bool_decide_unpack _). vm_compute. exact I.
Defined.

(** * Further properties of the quiz service's validation *)

(** ** Round numbers *)

Lemma existsb_Zeqb_In x l : existsb (Z.eqb x) l = true <-> In x l.
Proof.
  rewrite existsb_exists. split.
  - intros (y & Hy & E). apply Z.eqb_eq in E. subst y. exact Hy.
  - intros H. exists x. split; [exact H | apply Z.eqb_refl].
Qed.

Lemma distinct_from_length xs seen :
  (length (fold_left (fun seen x => if existsb (Z.eqb x) seen then seen else seen ++ [x])
             xs seen)
   <= length seen + length xs)%nat.
Proof.
  revert seen. induction xs as [| x xs IH]; intros seen; simpl; [lia |].
  destruct (existsb (Z.eqb x) seen).
  - specialize (IH seen). lia.
  - specialize (IH (seen ++ [x])). rewrite length_app in IH. simpl in IH. lia.
Qed.

Lemma distinct_from_full xs seen :
  length (fold_left (fun seen x => if existsb (Z.eqb x) seen then seen else seen ++ [x])
            xs seen)
  = (length seen + length xs)%nat ->
  fold_left (fun seen x => if existsb (Z.eqb x) seen then seen else seen ++ [x]) xs seen
  = seen ++ xs.
Proof.
  revert seen. induction xs as [| x xs IH]; intros seen; simpl.
  - intros _. symmetry. apply app_nil_r.
  - destruct (existsb (Z.eqb x) seen) eqn:E.
    + intros H. pose proof (distinct_from_length xs seen). lia.
    + intros H. rewrite IH; [rewrite <- app_assoc; reflexivity |].
      rewrite length_app. simpl. lia.
Qed.

Lemma distinct_from_NoDup xs seen :
  NoDup (seen ++ xs) ->
  fold_left (fun seen x => if existsb (Z.eqb x) seen then seen else seen ++ [x]) xs seen
  = seen ++ xs.
Proof.
  revert seen. induction xs as [| x xs IH]; intros seen Hnd; simpl.
  - symmetry. apply app_nil_r.
  - assert (E : existsb (Z.eqb x) seen = false).
    { apply not_true_is_false. intros H. apply existsb_Zeqb_In in H.
      apply NoDup_app in Hnd. destruct Hnd as (_ & Hd & _).
      apply (Hd x); [apply list_elem_of_In; exact H | left]. }
    rewrite E, IH; rewrite <- app_assoc; [reflexivity | exact Hnd].
Qed.

Lemma distinct_values_NoDup xs : NoDup (QuizService.distinct_values xs).
Proof.
  unfold QuizService.distinct_values.
  assert (H : forall seen, NoDup seen ->
                NoDup (fold_left (fun seen x => if existsb (Z.eqb x) seen then seen
                                                else seen ++ [x]) xs seen)).
  { induction xs as [| x xs IH]; intros seen Hnd; simpl; [exact Hnd |].
    destruct (existsb (Z.eqb x) seen) eqn:E; [apply IH; exact Hnd |].
    apply IH. apply NoDup_app. split; [exact Hnd | split; [| apply NoDup_singleton]].
    intros y Hy Hy'. apply list_elem_of_singleton in Hy'. subst y.
    apply list_elem_of_In in Hy. apply existsb_Zeqb_In in Hy. congruence. }
  apply H. constructor.
Qed.

Lemma counting_from k l :
  forallb (fun ok : bool => ok) (imap (fun i x => x =? Z.of_nat (k + i) + 1) l) = true
  <-> l = map Z.of_nat (seq (k + 1) (length l)).
Proof.
  revert k. induction l as [| x l IH]; intros k.
  - simpl. split; reflexivity.
  - rewrite imap_cons. simpl forallb. simpl length. simpl seq. simpl map.
    rewrite (imap_ext _ (fun i x => x =? Z.of_nat (S k + i) + 1) l)
      by (intros i y _; simpl; do 2 f_equal; lia).
    rewrite andb_true_iff, IH, Z.eqb_eq.
    replace (S k + 1)%nat with (S (k + 1)) by lia.
    split.
    + intros (Hx & Hl). f_equal; [lia | exact Hl].
    + intros H. inversion H as [[Hx Hl]]. split; [lia |]. rewrite <- Hl. exact Hl.
Qed.

Lemma Sorted_Permutation_eq (l1 l2 : list Z) :
  Sorted.StronglySorted Z.le l1 -> Sorted.StronglySorted Z.le l2 -> Permutation l1 l2 ->
  l1 = l2.
Proof.
  revert l2. induction l1 as [| x l1 IH]; intros l2 H1 H2 Hp.
  - apply Permutation_nil in Hp. subst. reflexivity.
  - destruct l2 as [| y l2]; [apply Permutation_sym, Permutation_nil in Hp; discriminate |].
    inversion H1 as [| ? ? H1' Hx]; subst. inversion H2 as [| ? ? H2' Hy]; subst.
    rewrite List.Forall_forall in Hx, Hy.
    assert (Hxy : x = y).
    { assert (Hin1 : In x (y :: l2)) by (eapply Permutation_in; [exact Hp | left; reflexivity]).
      assert (Hin2 : In y (x :: l1))
        by (eapply Permutation_in; [symmetry; exact Hp | left; reflexivity]).
      destruct Hin1 as [-> | Hin1]; [reflexivity |].
      destruct Hin2 as [-> | Hin2]; [reflexivity |].
      specialize (Hx y Hin2). specialize (Hy x Hin1). lia. }
    subst y. f_equal. apply IH; [exact H1' | exact H2' |].
    eapply Permutation_cons_inv. exact Hp.
Qed.

Lemma counting_StronglySorted k n : Sorted.StronglySorted Z.le (map Z.of_nat (seq k n)).
Proof.
  revert k. induction n as [| n IH]; intros k; simpl; constructor; [apply IH |].
  apply List.Forall_forall. intros x Hx. apply in_map_iff in Hx.
  destruct Hx as (i & <- & Hi). apply in_seq in Hi. lia.
Qed.

Lemma counting_NoDup k n : NoDup (map Z.of_nat (seq k n)).
Proof.
  apply NoDup_fmap_2; [intros a b; apply Nat2Z.inj | apply NoDup_ListNoDup, seq_NoDup].
Qed.

Lemma sort_by_leb_StronglySorted l :
  Sorted.StronglySorted Z.le (sort_by (fun a b => a <=? b) l).
Proof.
  apply Sorted.Sorted_StronglySorted; [intros a b c; lia |].
  exact (sort_by_Sorted (fun x : Z => x) l).
Qed.

(** X2. The rounds of a quiz are accepted exactly when their numbers
    are 1, 2, ..., n in some order (n the number of rounds): a repeated
    number, a gap, or a numbering that does not start at 1 is rejected. *)
Theorem X2_rounds_are_accepted_iff_numbered_1_to_n (rounds : list CreateRoundDto) :
  QuizService.validateRounds rounds = Accepted tt
  <-> Permutation (map rd_roundNumber rounds) (map Z.of_nat (seq 1 (length rounds))).
Proof.
  unfold QuizService.validateRounds. cbv zeta.
  set (numbers := map rd_roundNumber rounds).
  assert (Hlen : length numbers = length rounds) by apply length_map.
  rewrite <- Hlen. split.
  - destruct (Nat.eqb_spec (length (QuizService.distinct_values numbers)) (length numbers))
      as [E | E]; simpl; [| discriminate].
    assert (Hd : QuizService.distinct_values numbers = numbers)
      by (apply (distinct_from_full numbers []); simpl; exact E).
    rewrite Hd.
    destruct (forallb _ _) eqn:Ef; [intros _ | discriminate].
    apply (counting_from 0) in Ef. rewrite sort_by_length in Ef.
    change (0 + 1)%nat with 1%nat in Ef. rewrite <- Ef. symmetry. apply sort_by_Permutation.
  - intros Hp.
    assert (Hnd : NoDup numbers)
      by (rewrite Hp; apply counting_NoDup).
    assert (Hd : QuizService.distinct_values numbers = numbers)
      by (apply (distinct_from_NoDup numbers []); exact Hnd).
    rewrite Hd, Nat.eqb_refl. simpl.
    assert (Hs : sort_by (fun a b => a <=? b) numbers
                 = map Z.of_nat (seq 1 (length numbers))).
    { apply Sorted_Permutation_eq.
      - apply sort_by_leb_StronglySorted.
      - apply counting_StronglySorted.
      - rewrite sort_by_Permutation. exact Hp. }
    assert (Hf : forallb (fun ok : bool => ok)
                   (imap (fun i x => x =? Z.of_nat i + 1) (sort_by (fun a b => a <=? b) numbers))
                 = true).
    { apply (counting_from 0). rewrite sort_by_length. exact Hs. }
    rewrite Hf. reflexivity.
Qed.

(** ** Users *)

Lemma validateUsersExist_found userIds d :
  NoDup (map user_id (users d)) ->
  NoDup (map user_id
           (List.filter (fun u => existsb (String.eqb (user_id u)) userIds) (users d)))
  /\ (forall id,
         In id (map user_id
                  (List.filter (fun u => existsb (String.eqb (user_id u)) userIds) (users d)))
         <-> In id userIds /\ exists u, In u (users d) /\ user_id u = id).
Proof.
  intros Hnd. split; [apply filter_map_NoDup; exact Hnd |].
  intros id. rewrite in_map_iff. split.
  - intros (u & <- & Hu). apply filter_In in Hu. destruct Hu as (Hu & Hb).
    apply existsb_eqb_In in Hb. split; [exact Hb | exists u; auto].
  - intros (Hid & u & Hu & <-). exists u. split; [reflexivity |].
    apply filter_In. split; [exact Hu | apply existsb_eqb_In; exact Hid].
Qed.

(** X24. The users of a request are accepted exactly when they are
    pairwise distinct and all exist: [validateUsersExist] then returns
    these users and writes nothing, and otherwise (an unknown id, but
    also a known id listed twice) it rejects the request, again writing
    nothing.  User ids are unique in the table. *)
Theorem X24_users_are_accepted_iff_distinct_and_existing (userIds : list Id) (d : DB) :
  NoDup (map user_id (users d)) ->
  exists result,
    QuizService.validateUsersExist userIds d = (Ok result, d)
    /\ ((exists found, result = Accepted found /\ Permutation (map us_id found) userIds)
        <-> NoDup userIds
            /\ forall id, In id userIds -> exists u, In u (users d) /\ user_id u = id)
    /\ ((exists m, result = BadRequestException m)
        <-> ~ (NoDup userIds
               /\ forall id, In id userIds -> exists u, In u (users d) /\ user_id u = id)).
Proof.
  intros Hnd. unfold QuizService.validateUsersExist.
  destruct userIds as [| id0 ids].
  { eexists. split; [reflexivity |]. split.
    - split; [intros _; split; [constructor | intros id []] |].
      intros _. exists []. split; [reflexivity | constructor].
    - split; [intros (m & H); discriminate H |].
      intros H. exfalso. apply H. split; [constructor | intros id []]. }
  set (userIds := id0 :: ids) in *.
  destruct (validateUsersExist_found userIds d Hnd) as (HndF & HF).
  set (found := List.filter (fun u => existsb (String.eqb (user_id u)) userIds) (users d))
    in *.
  assert (Hsub : map user_id found ⊆+ userIds).
  { apply NoDup_submseteq; [exact HndF |]. intros x Hx. apply list_elem_of_In.
    apply list_elem_of_In in Hx. apply HF in Hx. tauto. }
  assert (Hcond : length found = length userIds
                  <-> NoDup userIds
                      /\ forall id, In id userIds ->
                                    exists u, In u (users d) /\ user_id u = id).
  { split.
    - intros Hlen.
      assert (Hp : Permutation (map user_id found) userIds)
        by (apply submseteq_length_Permutation; [exact Hsub | rewrite length_map; lia]).
      split; [rewrite <- Hp; exact HndF |].
      intros id Hid. apply (Permutation_in _ (Permutation_sym Hp)) in Hid.
      apply HF in Hid. tauto.
    - intros (HndU & Hall).
      assert (Hsup : userIds ⊆+ map user_id found).
      { apply NoDup_submseteq; [exact HndU |]. intros x Hx. apply list_elem_of_In.
        apply list_elem_of_In in Hx. apply HF. split; [exact Hx | apply Hall; exact Hx]. }
      apply submseteq_length in Hsub. apply submseteq_length in Hsup.
      rewrite length_map in Hsub, Hsup. lia. }
  unfold bind, get, ret. cbv beta iota zeta. fold found.
  destruct (Nat.eqb_spec (length found) (length userIds)) as [E | E]; simpl.
  - eexists. split; [reflexivity |]. split.
    + split; [intros _; apply Hcond; exact E |].
      intros _. eexists. split; [reflexivity |]. rewrite map_map. simpl.
      apply submseteq_length_Permutation; [exact Hsub | rewrite length_map; lia].
    + split; [intros (m & H); discriminate H |].
      intros H. exfalso. apply H. apply Hcond. exact E.
  - eexists. split; [reflexivity |]. split.
    + split; [intros (f & H & _); discriminate H |].
      intros H. apply Hcond in H. contradiction.
    + split; [intros _ H; apply Hcond in H; contradiction |].
      intros _. eexists. reflexivity.
Qed.

Lemma X24_witness :
  exists result,
    QuizService.validateUsersExist ["A"; "A"] Examples.database = (Ok result, Examples.database)
    /\ ((exists found, result = Accepted found /\ Permutation (map us_id found) ["A"; "A"])
        <-> NoDup ["A"; "A"]
            /\ forall id, In id ["A"; "A"] ->
                          exists u, In u (users Examples.database) /\ user_id u = id)
    /\ ((exists m, result = BadRequestException m)
        <-> ~ (NoDup ["A"; "A"]
               /\ forall id, In id ["A"; "A"] ->
                             exists u, In u (users Examples.database) /\ user_id u = id)).
Proof.
  apply (X24_users_are_accepted_iff_distinct_and_existing ["A"; "A"] Examples.database).
  apply (bool_decide_unpack _). vm_compute. exact I.
Defined.
